(** * Gran Fondo dashboard: the analytical core of [app.py]

    A shallow embedding of the competition calendar, the record
    normaliser, the heart-rate-zone deduplication and scoring, the two
    fetch post-processing paths and the streak calculator, together with
    the properties the specification states about them.

    Conventions.
    - A [datetime.date] is its proleptic Gregorian ordinal
      ([date.toordinal()]), an integer; [timedelta(days=n)] is [n].
      Python confines dates to the years 1..9999; the arithmetic below is
      on unbounded integers.
    - A float column holds rationals ([Q]); [None] stands for NaN / null.
      Equality of numbers is [==].  The arithmetic is exact where the
      program rounds to binary64, so a sum or a division here can differ
      from the program's in the last place.
    - [datetime.now().date()] is an explicit argument [today]. *)

From stdpp Require Import gmap strings.
From Stdlib Require Import ZArith QArith Qround Bool List Lia.
From Stdlib Require Import Ascii String DecimalString.
From Stdlib Require Import Sorted Permutation.
Import ListNotations.

Open Scope Z_scope.

(** ** Small Python library models *)

Module Py.

(** [range(a, b)] *)
Definition range (a b : Z) : list Z :=
  map (fun i => a + Z.of_nat i) (seq 0 (Z.to_nat (b - a))).

(** [str(n)] for an int *)
Definition str (n : Z) : string := NilZero.string_of_int (Z.to_int n).

(** [f"{n:02d}"], for the [%m] and [%d] fields of [strftime] *)
Definition pad2 (n : Z) : string :=
  if (0 <=? n) && (n <? 10) then ("0" ++ str n)%string else str n.

(** The one-character strings holding a single and a double quote *)
Definition squote : string := String "039"%char EmptyString.
Definition dquote : string := String "034"%char EmptyString.

(** [s.startswith(p)], [s.endswith(p)] *)
Definition startswith (s p : string) : bool := String.prefix p s.

Definition endswith (s p : string) : bool :=
  (String.length p <=? String.length s)%nat
  && String.eqb (String.substring (String.length s - String.length p)
                   (String.length p) s) p.

(** The slices [s[a:]] and [s[a:-b]] for literal [a] and [b] *)
Definition slice_from (a : nat) (s : string) : string :=
  String.substring a (String.length s - a) s.

Definition slice (a b : nat) (s : string) : string :=
  String.substring a (String.length s - b - a) s.

(** [str.isspace] on the code points below 128 *)
Definition isspace (c : ascii) : bool :=
  let n := nat_of_ascii c in
  ((9 <=? n) && (n <=? 13) || (28 <=? n) && (n <=? 32))%nat.

Fixpoint lstrip (s : string) : string :=
  match s with
  | EmptyString => EmptyString
  | String c s' => if isspace c then lstrip s' else s
  end.

Fixpoint rstrip (s : string) : string :=
  match s with
  | EmptyString => EmptyString
  | String c s' =>
      match rstrip s' with
      | EmptyString => if isspace c then EmptyString else String c EmptyString
      | t => String c t
      end
  end.

(** [s.strip()] *)
Definition strip (s : string) : string := rstrip (lstrip s).

(** Exceptions the modelled code can raise *)
Inductive exn := AttributeError | KeyError.

Inductive result (A : Type) :=
| Ok (a : A)
| Raise (e : exn).
Arguments Ok {A} a.
Arguments Raise {A} e.

Definition bind {A B} (m : result A) (k : A -> result B) : result B :=
  match m with
  | Ok a => k a
  | Raise e => Raise e
  end.

End Py.

Notation "x <- m ;; k" := (Py.bind m (fun x => k))
  (at level 100, m at next level, right associativity).

(** ** Dates ([datetime.date]) *)

Module Date.

Definition date := Z.

Definition is_leap (y : Z) : bool :=
  (y mod 4 =? 0) && (negb (y mod 100 =? 0) || (y mod 400 =? 0)).

Definition days_before_year (y : Z) : Z :=
  let y1 := y - 1 in y1 * 365 + y1 / 4 - y1 / 100 + y1 / 400.

Definition days_in_month (y m : Z) : Z :=
  if m =? 2 then (if is_leap y then 29 else 28)
  else if (m =? 4) || (m =? 6) || (m =? 9) || (m =? 11) then 30
  else 31.

Definition days_before_month (y m : Z) : Z :=
  fold_right Z.add 0 (map (days_in_month y) (Py.range 1 m)).

(** [date(y, m, d).toordinal()] *)
Definition ymd2ord (y m d : Z) : date :=
  days_before_year y + days_before_month y m + d.

(** [date.fromordinal(n)] as (year, month, day) *)
Definition ord2ymd (n : date) : Z * Z * Z :=
  let n := n - 1 in
  let n400 := n / 146097 in let n := n mod 146097 in
  let year := n400 * 400 + 1 in
  let n100 := n / 36524 in let n := n mod 36524 in
  let n4 := n / 1461 in let n := n mod 1461 in
  let n1 := n / 365 in let n := n mod 365 in
  let year := year + n100 * 100 + n4 * 4 + n1 in
  if (n1 =? 4) || (n100 =? 4) then (year - 1, 12, 31)
  else
    let leapyear := (n1 =? 3) && (negb (n4 =? 24) || (n100 =? 3)) in
    let month := Z.shiftr (n + 50) 5 in
    let preceding :=
      days_before_month 1 month
      + (if (2 <? month) && leapyear then 1 else 0) in
    if n <? preceding then
      let month := month - 1 in
      let preceding :=
        preceding - (days_in_month 1 month
                     + (if (month =? 2) && leapyear then 1 else 0)) in
      (year, month, n - preceding + 1)
    else (year, month, n - preceding + 1).

(** [d.weekday()], Monday is 0 *)
Definition weekday (d : date) : Z := (d + 6) mod 7.

(** [d.strftime('%m/%d')] *)
Definition strftime_md (d : date) : string :=
  let '(_, m, dd) := ord2ymd d in (Py.pad2 m ++ "/" ++ Py.pad2 dd)%string.

End Date.


(** ** Competition calendar (app.py, lines 21-89) *)

Definition COMPETITION_START : Date.date := Date.ymd2ord 2025 8 11.
Definition COMPETITION_END : Date.date := Date.ymd2ord 2025 10 5.
Definition COMPETITION_WEEKS : Z := 8.

(** One entry of the list [get_competition_week_dates] returns. *)
Record week_entry := mk_week {
  week : Z;
  week_start : Date.date;
  week_end : Date.date;
  label : string
}.

(** The body of the [for week_num in range(...)] loop: [nums] is what is
    left of the range, [current_monday] and [weeks] are the loop state;
    the [break] returns the list built so far. *)
Fixpoint week_loop (competition_end : Date.date) (nums : list Z)
    (current_monday : Date.date) (weeks : list week_entry) : list week_entry :=
  match nums with
  | [] => weeks
  | week_num :: nums' =>
      let sunday := current_monday + 6 in
      let sunday := if competition_end <? sunday then competition_end else sunday in
      let weeks :=
        weeks ++ [mk_week week_num current_monday sunday
                    ("Week " ++ Py.str week_num ++ " ("
                       ++ Date.strftime_md current_monday ++ " - "
                       ++ Date.strftime_md sunday ++ ")")%string] in
      let current_monday := current_monday + 7 in
      if competition_end <? current_monday then weeks
      else week_loop competition_end nums' current_monday weeks
  end.

Definition get_competition_week_dates : list week_entry :=
  week_loop COMPETITION_END (Py.range 1 (COMPETITION_WEEKS + 1))
    COMPETITION_START [].

Definition get_current_competition_week (today : Date.date) : Z * string :=
  if today <? COMPETITION_START then (0, "Pre-Competition"%string)
  else if COMPETITION_END <? today then
    (COMPETITION_WEEKS + 1, "Post-Competition"%string)
  else
    let days_since_start := today - COMPETITION_START in
    let current_week := days_since_start / 7 + 1 in
    if COMPETITION_WEEKS <? current_week then
      (COMPETITION_WEEKS + 1, "Post-Competition"%string)
    else (current_week, ("Week " ++ Py.str current_week)%string).

Definition get_current_competition_week_dates (today : Date.date)
    : Date.date * Date.date :=
  if (today <? COMPETITION_START) || (COMPETITION_END <? today) then
    let monday := today - Date.weekday today in
    let sunday := monday + 6 in
    (monday, sunday)
  else
    let days_since_start := today - COMPETITION_START in
    let current_week_num := days_since_start / 7 in
    let monday := COMPETITION_START + current_week_num * 7 in
    let sunday := monday + 6 in
    let sunday := if COMPETITION_END <? sunday then COMPETITION_END else sunday in
    (monday, sunday).

(** ** Record normaliser *)

(** [clean_field] (app.py, lines 1450-1474); a value that is not a [str]
    is [None] and is returned as it is. *)
Definition clean_field (value : option string) : option string :=
  match value with
  | None => None
  | Some value =>
      let cleaned :=
        if Py.startswith value ("root=" ++ Py.squote) && Py.endswith value Py.squote then
          Py.slice 6 1 value
        else if Py.startswith value ("root=" ++ Py.dquote) && Py.endswith value Py.dquote then
          Py.slice 6 1 value
        else if Py.startswith value "root=" then
          let cleaned := Py.slice_from 5 value in
          if Py.startswith cleaned Py.squote && Py.endswith cleaned Py.squote then
            Py.slice 1 1 cleaned
          else if Py.startswith cleaned Py.dquote && Py.endswith cleaned Py.dquote then
            Py.slice 1 1 cleaned
          else cleaned
        else value in
      if String.eqb cleaned "Ride" then Some "Peloton"%string
      else if String.eqb cleaned "Run" then Some "Run"%string
      else Some cleaned
  end.

(** ** Data model *)

(** A [start_date] timestamp: calendar date and seconds into the day;
    [pd.to_datetime(...).dt.date] is the first field. *)
Record timestamp := mk_ts { ts_date : Date.date; ts_seconds : Z }.

Record athlete_info := mk_athlete { firstname : string; lastname : string }.

(** A pandas DataFrame: its column labels and its rows, in order.
    [pd.DataFrame()] is [empty_frame]. *)
Record frame (R : Type) := mk_frame { columns : list string; rows : list R }.
Arguments mk_frame {R} columns rows.
Arguments columns {R} f.
Arguments rows {R} f.

Definition empty_frame {R : Type} : frame R := mk_frame [] [].

(** [c in df.columns] *)
Definition has_column {R : Type} (c : string) (df : frame R) : bool :=
  existsb (String.eqb c) (columns df).

(** [df.empty] *)
Definition is_empty {R : Type} (df : frame R) : bool :=
  match columns df, rows df with
  | [], _ | _, [] => true
  | _, _ => false
  end.

(** Modelled from the spec: the records the store returns (section 6);
    the store client and the table declarations are not part of the
    sources.  [athletes] and [activities] are the embedded joins of the
    two [select] calls, [None] when the join found nothing. *)
Module Store.

Record activity := mk_activity {
  id : Z;
  athlete_id : option Z;
  name : option string;
  sport_type : option string;
  start_date : timestamp;
  distance : option Q;
  moving_time : option Q;
  total_elevation_gain : option Q;
  athletes : option athlete_info
}.

Record nested_activity := mk_nested {
  n_athlete_id : option Z;
  n_name : option string;
  n_start_date : option timestamp;
  n_sport_type : option string;
  n_athletes : option athlete_info
}.

Record hr_zone := mk_hr_zone {
  activity_id : option Z;
  zone_1_seconds : option Q;
  zone_2_seconds : option Q;
  zone_3_seconds : option Q;
  zone_4_seconds : option Q;
  zone_5_seconds : option Q;
  activities : option nested_activity
}.

End Store.

(** Rows of the activities frame [fetch_activities_by_date_range] returns *)
Module Act.

Record row := mk_row {
  id : Z;
  athlete_id : option Z;
  name : option string;
  sport_type : option string;
  start_date : timestamp;
  distance : option Q;
  moving_time : option Q;
  total_elevation_gain : option Q;
  athlete_name : string
}.

Definition column_names : list string :=
  ["id"; "athlete_id"; "name"; "sport_type"; "start_date"; "distance";
   "moving_time"; "total_elevation_gain"; "athlete_name"]%string.

Definition set_sport_type (v : option string) (r : row) : row :=
  mk_row (id r) (athlete_id r) (name r) v (start_date r) (distance r)
    (moving_time r) (total_elevation_gain r) (athlete_name r).

(** the [date] column the callers add *)
Definition date (r : row) : Date.date := ts_date (start_date r).

End Act.

(** Rows of a heart-rate-zone frame.  The [zone_i_time] fields are the
    alternate spelling [calculate_hr_zone_points] falls back on. *)
Module HR.

Record row := mk_row {
  activity_id : option Z;
  zone_1_seconds : option Q;
  zone_2_seconds : option Q;
  zone_3_seconds : option Q;
  zone_4_seconds : option Q;
  zone_5_seconds : option Q;
  zone_1_time : option Q;
  zone_2_time : option Q;
  zone_3_time : option Q;
  zone_4_time : option Q;
  zone_5_time : option Q;
  athlete_id : option Z;
  athlete_name : option string;
  activity_name : option string;
  start_date : option timestamp;
  sport_type : option string
}.

Definition column_names : list string :=
  ["activity_id"; "zone_1_seconds"; "zone_2_seconds"; "zone_3_seconds";
   "zone_4_seconds"; "zone_5_seconds"; "athlete_id"; "athlete_name";
   "activity_name"; "start_date"; "sport_type"]%string.

End HR.

(** ** pandas operations used by the core *)

Module Pd.

(** [Series.fillna(0)] on one cell *)
Definition fillna0 (x : option Q) : Q :=
  match x with
  | Some q => q
  | None => 0%Q
  end.

(** [Series.sum()]: nulls are skipped *)
Definition sum (l : list (option Q)) : Q :=
  fold_right Qplus 0%Q (map fillna0 l).

(** [Series.count()]: the number of cells that are not null *)
Definition count {A : Type} (l : list (option A)) : Z :=
  Z.of_nat (List.length (List.filter (fun x => match x with Some _ => true | None => false end) l)).

(** [round(0)]: to the nearest whole number, halves to the even one *)
Definition round0 (q : Q) : Q :=
  let f := Qfloor q in
  let r := (q - inject_Z f)%Q in
  match (r ?= 1 # 2)%Q with
  | Lt => inject_Z f
  | Gt => inject_Z (f + 1)
  | Eq => if Z.even f then inject_Z f else inject_Z (f + 1)
  end.

(** [drop_duplicates(subset=[key], keep='first')] and [unique()]: a row
    stays when no row before it has the same key; [seen] holds the keys
    met so far. *)
Fixpoint drop_dups_from {R K : Type} (eqb : K -> K -> bool) (key : R -> K)
    (seen : list K) (l : list R) : list R :=
  match l with
  | [] => []
  | r :: l' =>
      if existsb (eqb (key r)) seen then drop_dups_from eqb key seen l'
      else r :: drop_dups_from eqb key (key r :: seen) l'
  end.

Definition drop_duplicates {R K : Type} (eqb : K -> K -> bool) (key : R -> K)
    (l : list R) : list R :=
  drop_dups_from eqb key [] l.

(** [df[df.duplicated(key, keep=False)]]: the rows whose key occurs more
    than once *)
Definition duplicated_all {R K : Type} (eqb : K -> K -> bool) (key : R -> K)
    (l : list R) : list R :=
  List.filter
    (fun r => (1 <? List.length (List.filter (fun r' => eqb (key r) (key r')) l))%nat) l.

(** A stable ascending sort on a key, by insertion *)
Fixpoint insert_sorted {R K : Type} (leb : K -> K -> bool) (key : R -> K)
    (x : R) (l : list R) : list R :=
  match l with
  | [] => [x]
  | y :: l' =>
      if leb (key x) (key y) then x :: l
      else y :: insert_sorted leb key x l'
  end.

Fixpoint argsort {R K : Type} (leb : K -> K -> bool) (key : R -> K)
    (l : list R) : list R :=
  match l with
  | [] => []
  | x :: l' => insert_sorted leb key x (argsort leb key l')
  end.

(** [sort_values(key)] and [sort_values(key, ascending=False)].  pandas
    sorts descending by reversing, sorting ascending and reversing again.
    Its default sort, quicksort, promises nothing about rows with equal
    keys; the insertion sort here is one behaviour it may have, and the
    properties stated of the code use only that the result is the input
    rearranged in order, not where it puts equal keys. *)
Definition sort_values {R K : Type} (leb : K -> K -> bool) (key : R -> K)
    (l : list R) : list R :=
  argsort leb key l.

Definition sort_values_desc {R K : Type} (leb : K -> K -> bool) (key : R -> K)
    (l : list R) : list R :=
  rev (argsort leb key (rev l)).

End Pd.

(** ** Fetching (app.py, lines 1430-1564)

    The argument is [response.data], the store's answer to the query. *)

Definition notna {A : Type} (x : option A) : bool :=
  match x with
  | Some _ => true
  | None => false
  end.

(** [column == s] and [column != s] on a cell of strings *)
Definition cell_eq (x : option string) (s : string) : bool :=
  match x with
  | Some v => String.eqb v s
  | None => false
  end.

Definition cell_ne (x : option string) (s : string) : bool := negb (cell_eq x s).

(** [column > 0] on a cell of numbers; a null compares false *)
Definition cell_gt0 (x : option Q) : bool :=
  match x with
  | Some q => negb (Qle_bool q 0)
  | None => false
  end.

Definition fetch_activities_by_date_range (response_data : list Store.activity)
    : frame Act.row :=
  match response_data with
  | [] => empty_frame
  | _ =>
      (* flatten athlete info *)
      let df :=
        map (fun x =>
               Act.mk_row (Store.id x) (Store.athlete_id x) (Store.name x)
                 (Store.sport_type x) (Store.start_date x) (Store.distance x)
                 (Store.moving_time x) (Store.total_elevation_gain x)
                 match Store.athletes x with
                 | Some a => (firstname a ++ " " ++ lastname a)%string
                 | None => "Unknown"%string
                 end) response_data in
      (* clean both name and sport_type fields *)
      let df :=
        map (fun r =>
               Act.mk_row (Act.id r) (Act.athlete_id r) (clean_field (Act.name r))
                 (clean_field (Act.sport_type r)) (Act.start_date r)
                 (Act.distance r) (Act.moving_time r)
                 (Act.total_elevation_gain r) (Act.athlete_name r)) df in
      (* Peloton with elevation is a bike ride *)
      let mask_peloton_with_elevation r :=
        cell_eq (Act.sport_type r) "Peloton"
        && cell_gt0 (Act.total_elevation_gain r) in
      let df :=
        map (fun r =>
               if mask_peloton_with_elevation r
               then Act.set_sport_type (Some "Bike"%string) r else r) df in
      (* filter out non-competition activities *)
      let df := List.filter (fun r => cell_ne (Act.sport_type r) "Tennis") df in
      mk_frame Act.column_names df
  end.

(** The cleaning of [activity_name] written inside the flattening loop of
    [fetch_heart_rate_zones_by_date] (lines 1517-1537). *)
Definition clean_activity_name (activity_name : option string) : option string :=
  match activity_name with
  | Some activity_name =>
      if Py.startswith activity_name ("root=" ++ Py.squote)
         && Py.endswith activity_name Py.squote then
        let cleaned := Py.slice 6 1 activity_name in
        if String.eqb cleaned "Ride" then Some "Peloton"%string
        else if String.eqb cleaned "Run" then Some "Treadmill"%string
        else Some cleaned
      else if Py.startswith activity_name "root=" then
        let cleaned := Py.slice_from 5 activity_name in
        if String.eqb cleaned "Ride" then Some "Peloton"%string
        else if String.eqb cleaned "Run" then Some "Treadmill"%string
        else Some cleaned
      else Some activity_name
  | None => None
  end.

(** One turn of [for idx, row in df.iterrows()]: the new columns start as
    [None] and are filled when the row has its activity. *)
Definition flatten_hr_row (row : Store.hr_zone) : HR.row :=
  match Store.activities row with
  | Some act =>
      HR.mk_row (Store.activity_id row)
        (Store.zone_1_seconds row) (Store.zone_2_seconds row)
        (Store.zone_3_seconds row) (Store.zone_4_seconds row)
        (Store.zone_5_seconds row) None None None None None
        (Store.n_athlete_id act)
        match Store.n_athletes act with
        | Some athlete =>
            Some (Py.strip (firstname athlete ++ " " ++ lastname athlete))
        | None => None
        end
        (clean_activity_name (Store.n_name act))
        (Store.n_start_date act)
        (Store.n_sport_type act)
  | None =>
      HR.mk_row (Store.activity_id row)
        (Store.zone_1_seconds row) (Store.zone_2_seconds row)
        (Store.zone_3_seconds row) (Store.zone_4_seconds row)
        (Store.zone_5_seconds row) None None None None None
        None None None None None
  end.

Definition option_Z_eqb (a b : option Z) : bool :=
  match a, b with
  | Some x, Some y => x =? y
  | None, None => true
  | _, _ => false
  end.

Definition fetch_heart_rate_zones_by_date (response_data : list Store.hr_zone)
    : frame HR.row :=
  match response_data with
  | [] => empty_frame
  | _ =>
      let df := mk_frame HR.column_names (map flatten_hr_row response_data) in
      (* remove rows without athlete_name *)
      let df :=
        mk_frame (columns df)
          (List.filter (fun r => notna (HR.athlete_name r)) (rows df)) in
      (* filter out non-competition activities *)
      let df :=
        mk_frame (columns df)
          (List.filter (fun r => cell_ne (HR.sport_type r) "Tennis") (rows df)) in
      (* remove duplicate records for the same activity *)
      if has_column "activity_id" df && (0 <? List.length (rows df))%nat then
        mk_frame (columns df)
          (Pd.drop_duplicates option_Z_eqb HR.activity_id (rows df))
      else df
  end.

(** ** Scoring engine (app.py, lines 1566-1617) *)

(** Rows of the frame [calculate_hr_zone_points] returns: the index
    [athlete_name] and the aggregated columns. *)
Module Points.

Record row := mk_row {
  athlete_name : string;
  zone_points : Q;
  activity_count : Z;
  zone_sums : list (string * Q)
}.

End Points.

(** [df.get(c1, df.get(c2, 0))]: the column [c1], else the column [c2],
    else the int [0], on which the [.fillna(0)] that follows raises. *)
Definition get_zone_column (df : frame HR.row)
    (c1 : string) (f1 : HR.row -> option Q)
    (c2 : string) (f2 : HR.row -> option Q)
    : Py.result (HR.row -> option Q) :=
  if has_column c1 df then Py.Ok f1
  else if has_column c2 df then Py.Ok f2
  else Py.Raise Py.AttributeError.

(** The [zone_points] column (lines 1591-1597), as a function of the row *)
Definition zone_points_column (df : frame HR.row) : Py.result (HR.row -> Q) :=
  z1 <- get_zone_column df "zone_1_seconds" HR.zone_1_seconds
          "zone_1_time" HR.zone_1_time ;;
  z2 <- get_zone_column df "zone_2_seconds" HR.zone_2_seconds
          "zone_2_time" HR.zone_2_time ;;
  z3 <- get_zone_column df "zone_3_seconds" HR.zone_3_seconds
          "zone_3_time" HR.zone_3_time ;;
  z4 <- get_zone_column df "zone_4_seconds" HR.zone_4_seconds
          "zone_4_time" HR.zone_4_time ;;
  z5 <- get_zone_column df "zone_5_seconds" HR.zone_5_seconds
          "zone_5_time" HR.zone_5_time ;;
  Py.Ok (fun r =>
           (Pd.fillna0 (z1 r) / 60) * 1 +
           (Pd.fillna0 (z2 r) / 60) * 2 +
           (Pd.fillna0 (z3 r) / 60) * 3 +
           (Pd.fillna0 (z4 r) / 60) * 4 +
           (Pd.fillna0 (z5 r) / 60) * 5)%Q.

Definition zone_seconds (i : Z) (r : HR.row) : option Q :=
  match i with
  | 1 => HR.zone_1_seconds r
  | 2 => HR.zone_2_seconds r
  | 3 => HR.zone_3_seconds r
  | 4 => HR.zone_4_seconds r
  | 5 => HR.zone_5_seconds r
  | _ => None
  end.

Definition zone_time (i : Z) (r : HR.row) : option Q :=
  match i with
  | 1 => HR.zone_1_time r
  | 2 => HR.zone_2_time r
  | 3 => HR.zone_3_time r
  | 4 => HR.zone_4_time r
  | 5 => HR.zone_5_time r
  | _ => None
  end.

(** The zone entries of [agg_dict] (lines 1606-1610): for each [i] the
    column that exists, with its accessor *)
Definition agg_zone_columns (df : frame HR.row)
    : list (string * (HR.row -> option Q)) :=
  flat_map
    (fun i =>
       let c_seconds := ("zone_" ++ Py.str i ++ "_seconds")%string in
       let c_time := ("zone_" ++ Py.str i ++ "_time")%string in
       if has_column c_seconds df then [(c_seconds, zone_seconds i)]
       else if has_column c_time df then [(c_time, zone_time i)]
       else [])
    (Py.range 1 6).

(** The rows of one athlete *)
Definition rows_of (athlete : string) (l : list HR.row) : list HR.row :=
  List.filter (fun r => cell_eq (HR.athlete_name r) athlete) l.

(** The group keys of [groupby('athlete_name')]: the names present, in
    ascending order *)
Definition group_keys (l : list HR.row) : list string :=
  Pd.sort_values String.leb (fun s => s)
    (Pd.drop_duplicates String.eqb (fun s => s)
       (flat_map (fun r => match HR.athlete_name r with
                           | Some s => [s]
                           | None => []
                           end) l)).

(** [groupby('athlete_name').agg(agg_dict).round(0)] *)
Definition groupby_agg (zone_points : HR.row -> Q)
    (zone_columns : list (string * (HR.row -> option Q)))
    (l : list HR.row) : list Points.row :=
  map (fun athlete =>
         let g := rows_of athlete l in
         Points.mk_row athlete
           (Pd.round0 (fold_right Qplus 0%Q (map zone_points g)))
           (Pd.count (map HR.activity_id g))
           (map (fun cf => (fst cf, Pd.round0 (Pd.sum (map (snd cf) g))))
              zone_columns))
      (group_keys l).

Definition calculate_hr_zone_points (df : frame HR.row)
    : Py.result (list Points.row) :=
  if is_empty df || negb (has_column "athlete_name" df) then Py.Ok []
  else
    (* filter out rows without athlete_name *)
    let df :=
      mk_frame (columns df)
        (List.filter (fun r => notna (HR.athlete_name r)) (rows df)) in
    if is_empty df then Py.Ok []
    else
      (* duplicate activity_ids would inflate the points *)
      let df :=
        if has_column "activity_id" df then
          let duplicate_activities :=
            Pd.duplicated_all option_Z_eqb HR.activity_id (rows df) in
          match duplicate_activities with
          | [] => df
          | _ =>
              mk_frame (columns df)
                (Pd.drop_duplicates option_Z_eqb HR.activity_id (rows df))
          end
        else df in
      zone_points <- zone_points_column df ;;
      if negb (has_column "activity_id" df) then Py.Raise Py.KeyError
      else
        let athlete_points :=
          groupby_agg zone_points (agg_zone_columns df) (rows df) in
        Py.Ok (Pd.sort_values_desc Qle_bool Points.zone_points athlete_points).

(** ** Streak calculator (app.py, lines 1739-1788) *)

(** The loop [for i in range(1, len(athlete_dates))] over the dates after
    the latest one; the [break] returns the count reached. *)
Fixpoint streak_loop (dates : list Date.date) (current_streak : Z)
    (expected_date : Date.date) : Z :=
  match dates with
  | [] => current_streak
  | activity_date :: dates' =>
      if activity_date =? expected_date then
        streak_loop dates' (current_streak + 1) (expected_date - 1)
      else current_streak
  end.

(** The body of [for athlete in df['athlete_name'].unique()]: the value
    stored in [streaks[athlete]] *)
Definition athlete_streak (l : list Act.row) (today : Date.date)
    (athlete : string) : Z :=
  let athlete_dates :=
    Pd.sort_values_desc Z.leb (fun d => d)
      (Pd.drop_duplicates Z.eqb (fun d => d)
         (map Act.date
            (List.filter (fun r => String.eqb (Act.athlete_name r) athlete) l))) in
  match athlete_dates with
  | [] => 0
  | latest_activity :: dates' =>
      let days_since_last := today - latest_activity in
      if 1 <? days_since_last then 0
      else streak_loop dates' 1 (latest_activity - 1)
  end.

(** [calculate_athlete_streaks].  The date column is made from
    [df['start_date']] before the athlete-name column is looked for, so a
    frame without [start_date] raises. *)
Definition calculate_athlete_streaks (activities_df : frame Act.row)
    (today : Date.date) : Py.result (gmap string Z) :=
  if is_empty activities_df then Py.Ok ∅
  else if negb (has_column "start_date" activities_df) then
    Py.Raise Py.KeyError
  else if negb (has_column "athlete_name" activities_df) then Py.Ok ∅
  else
    Py.Ok
      (fold_left
         (fun streaks athlete =>
            <[athlete := athlete_streak (rows activities_df) today athlete]>
              streaks)
         (Pd.drop_duplicates String.eqb (fun s => s)
            (map Act.athlete_name (rows activities_df)))
         ∅).

(** ** Properties the specification states *)

(** Every zone-time field of a record multiplied by [k] *)
Definition scale_zones (k : Q) (r : HR.row) : HR.row :=
  let m := option_map (Qmult k) in
  HR.mk_row (HR.activity_id r)
    (m (HR.zone_1_seconds r)) (m (HR.zone_2_seconds r))
    (m (HR.zone_3_seconds r)) (m (HR.zone_4_seconds r))
    (m (HR.zone_5_seconds r))
    (m (HR.zone_1_time r)) (m (HR.zone_2_time r)) (m (HR.zone_3_time r))
    (m (HR.zone_4_time r)) (m (HR.zone_5_time r))
    (HR.athlete_id r) (HR.athlete_name r) (HR.activity_name r)
    (HR.start_date r) (HR.sport_type r).

(** The frame with the records of one athlete scaled *)
Definition scale_athlete (k : Q) (athlete : string) (df : frame HR.row)
    : frame HR.row :=
  mk_frame (columns df)
    (map (fun r => if cell_eq (HR.athlete_name r) athlete
                   then scale_zones k r else r) (rows df)).

(** The records the scoring engine scores: those with an athlete name,
    one per activity identifier *)
Definition scored_rows (df : frame HR.row) : list HR.row :=
  Pd.drop_duplicates option_Z_eqb HR.activity_id
    (List.filter (fun r => notna (HR.athlete_name r)) (rows df)).

(** The points of an athlete before rounding *)
Definition raw_points (zone_points : HR.row -> Q) (athlete : string)
    (df : frame HR.row) : Q :=
  fold_right Qplus 0%Q (map zone_points (rows_of athlete (scored_rows df))).


(** Each week starts the day after the week before it ends. *)
Definition contiguous_weeks (ws : list week_entry) : Prop :=
  forall i w1 w2,
    nth_error ws i = Some w1 -> nth_error ws (S i) = Some w2 ->
    week_start w2 = week_end w1 + 1.

(** Every week ends before each later week starts. *)
Definition increasing_weeks (ws : list week_entry) : Prop :=
  StronglySorted (fun a b => week_end a < week_start b) ws.


(** ** Further notions used in the properties of the code *)

(** Every zone has one of its two columns in the frame. *)
Definition has_zone_columns (df : frame HR.row) : bool :=
  forallb (fun c => has_column (fst c) df || has_column (snd c) df)
    [("zone_1_seconds", "zone_1_time"); ("zone_2_seconds", "zone_2_time");
     ("zone_3_seconds", "zone_3_time"); ("zone_4_seconds", "zone_4_time");
     ("zone_5_seconds", "zone_5_time")]%string.

(** ** Weekly aggregator (app.py, lines 91-149) *)

(** [df['date'] = pd.to_datetime(df['start_date']).dt.date]: the frame
    gains the column [date]; the value of a row is its start date, null
    when the start date is. *)
Definition with_date_column {R : Type} (df : frame R) : frame R :=
  mk_frame (if has_column "date" df then columns df
            else columns df ++ ["date"%string])
    (rows df).

Definition hr_date (r : HR.row) : option Date.date :=
  option_map ts_date (HR.start_date r).

(** [(df['date'] >= a) & (df['date'] <= b)] on one cell; a null date
    compares false *)
Definition date_between (d : option Date.date) (a b : Date.date) : bool :=
  match d with
  | Some d => (a <=? d) && (d <=? b)
  | None => false
  end.

(** [column.isin(values)] on one cell *)
Definition cell_isin (x : option string) (values : list string) : bool :=
  match x with
  | Some v => existsb (String.eqb v) values
  | None => false
  end.

Definition cycling_sport_types : list string :=
  ["Ride"; "VirtualRide"; "Peloton"; "Bike"]%string.

(** The float literal [1609.344] *)
Definition METERS_PER_MILE : Q := 1609344 # 1000.

Module Py2.

(** [int(x)] on a float: truncation towards zero *)
Definition int (q : Q) : Z :=
  if Qle_bool 0 q then Qfloor q else Qceiling q.

(** [round(x, 1)]: to the nearest tenth, halves to the even one *)
Definition round1 (q : Q) : Q := (Pd.round0 (q * 10) / 10)%Q.

End Py2.

(** One dictionary of [weekly_data] *)
Module Weekly.

Record row := mk_row {
  Week : string;
  Week_Number : Z;
  Athlete : string;
  Points : Z;
  Cycling_Miles : Q;
  Activities : Z;
  Date_Range : string
}.

End Weekly.

(** [column.sum() / 1609.344 if not frame.empty else 0] for the distance
    column of a frame with the rows [l]; reading the column of a frame
    that lacks it raises. *)
Definition miles_of {R : Type} (df : frame R) (distance : R -> option Q)
    (l : list R) : Py.result Q :=
  match l with
  | [] => Py.Ok 0%Q
  | _ =>
      if has_column "distance" df
      then Py.Ok (Pd.sum (map distance l) / METERS_PER_MILE)%Q
      else Py.Raise Py.KeyError
  end.

(** The body of [for athlete in week_points.index]: the dictionary
    appended for one athlete *)
Definition weekly_row (week_info : week_entry) (week_activities : frame Act.row)
    (p : Points.row) : Py.result Weekly.row :=
  let athlete := Points.athlete_name p in
  if negb (has_column "athlete_name" week_activities) then Py.Raise Py.KeyError
  else if negb (has_column "sport_type" week_activities) then Py.Raise Py.KeyError
  else
    let athlete_activities :=
      List.filter
        (fun r => String.eqb (Act.athlete_name r) athlete
                  && cell_isin (Act.sport_type r) cycling_sport_types)
        (rows week_activities) in
    cycling_miles <- miles_of week_activities Act.distance athlete_activities ;;
    let total_activities :=
      Z.of_nat (List.length
                  (List.filter
                     (fun r => String.eqb (Act.athlete_name r) athlete)
                     (rows week_activities))) in
    Py.Ok (Weekly.mk_row ("Week " ++ Py.str (week week_info))
             (week week_info) athlete (Py2.int (Points.zone_points p))
             (Py2.round1 cycling_miles) total_activities (label week_info)).

Fixpoint weekly_athlete_loop (week_info : week_entry)
    (week_activities : frame Act.row) (index : list Points.row)
    (weekly_data : list Weekly.row) : Py.result (list Weekly.row) :=
  match index with
  | [] => Py.Ok weekly_data
  | p :: index' =>
      entry <- weekly_row week_info week_activities p ;;
      weekly_athlete_loop week_info week_activities index'
        (weekly_data ++ [entry])
  end.

(** The records of a frame dated within a week, bounds included *)
Definition week_hr_data (week_info : week_entry) (hr_zones_df : frame HR.row)
    : frame HR.row :=
  mk_frame (columns hr_zones_df)
    (List.filter
       (fun r => date_between (hr_date r) (week_start week_info)
                   (week_end week_info))
       (rows hr_zones_df)).

Definition week_activities (week_info : week_entry)
    (activities_df : frame Act.row) : frame Act.row :=
  mk_frame (columns activities_df)
    (List.filter
       (fun r => date_between (Some (Act.date r)) (week_start week_info)
                   (week_end week_info))
       (rows activities_df)).

(** The loop [for week_info in competition_weeks] *)
Fixpoint weekly_week_loop (competition_weeks : list week_entry)
    (hr_zones_df : frame HR.row) (activities_df : frame Act.row)
    (weekly_data : list Weekly.row) : Py.result (list Weekly.row) :=
  match competition_weeks with
  | [] => Py.Ok weekly_data
  | week_info :: weeks' =>
      let week_hr_data := week_hr_data week_info hr_zones_df in
      let week_activities := week_activities week_info activities_df in
      weekly_data <-
        (if negb (is_empty week_hr_data) then
           week_points <- calculate_hr_zone_points week_hr_data ;;
           weekly_athlete_loop week_info week_activities week_points
             weekly_data
         else Py.Ok weekly_data) ;;
      weekly_week_loop weeks' hr_zones_df activities_df weekly_data
  end.

Definition calculate_weekly_athlete_performance (hr_zones_df : frame HR.row)
    (activities_df : frame Act.row) : Py.result (list Weekly.row) :=
  if is_empty hr_zones_df then Py.Ok []
  else
    let competition_weeks := get_competition_week_dates in
    if negb (has_column "start_date" hr_zones_df) then Py.Raise Py.KeyError
    else
      let hr_zones_df := with_date_column hr_zones_df in
      if negb (has_column "start_date" activities_df) then Py.Raise Py.KeyError
      else
        let activities_df := with_date_column activities_df in
        weekly_week_loop competition_weeks hr_zones_df activities_df [].

(** ** Admin reclassification (fix_activities.py, lines 9-165; app.py,
    lines 3267-3394) *)

(** [clean_sport_type] (fix_activities.py, lines 140-165) *)
Definition clean_sport_type (value : option string) : option string :=
  match value with
  | None => None
  | Some value =>
      let cleaned :=
        if Py.startswith value ("root=" ++ Py.squote) && Py.endswith value Py.squote then
          Py.slice 6 1 value
        else if Py.startswith value ("root=" ++ Py.dquote) && Py.endswith value Py.dquote then
          Py.slice 6 1 value
        else if Py.startswith value "root=" then
          let cleaned := Py.slice_from 5 value in
          if Py.startswith cleaned Py.squote && Py.endswith cleaned Py.squote then
            Py.slice 1 1 cleaned
          else if Py.startswith cleaned Py.dquote && Py.endswith cleaned Py.dquote then
            Py.slice 1 1 cleaned
          else cleaned
        else value in
      if String.eqb cleaned "Ride" then Some "Peloton"%string
      else if String.eqb cleaned "Run" then Some "Run"%string
      else Some cleaned
  end.

(** The frame [with_elevation]: the activities whose cleaned sport type is
    Peloton and whose elevation gain, nulls filled with 0, is positive *)
Definition with_elevation (response_data : list Store.activity)
    : list Store.activity :=
  let peloton_activities :=
    List.filter
      (fun x => cell_eq (clean_sport_type (Store.sport_type x)) "Peloton")
      response_data in
  List.filter
    (fun x => cell_gt0 (Some (Pd.fillna0 (Store.total_elevation_gain x))))
    peloton_activities.

(** What the store answers to one update: data, no data, or an exception *)
Inductive update_answer := UpdateData | UpdateNoData | UpdateError.

(** The loop [for i, (_, row) in enumerate(with_elevation.iterrows())];
    [execute i] is the store's answer to the update issued in turn [i]. *)
Fixpoint update_loop (execute : nat -> update_answer)
    (to_update : list Store.activity) (i : nat)
    (updated_count failed_count : Z) : Z * Z :=
  match to_update with
  | [] => (updated_count, failed_count)
  | row :: to_update' =>
      match execute i with
      | UpdateData =>
          update_loop execute to_update' (S i) (updated_count + 1) failed_count
      | UpdateNoData | UpdateError =>
          update_loop execute to_update' (S i) updated_count (failed_count + 1)
      end
  end.

(** How a run of the utility ends *)
Inductive fix_outcome :=
| NoActivities
| NoPelotonActivities
| NothingToReclassify
| NotConfirmed
| UpdateComplete (updated_count failed_count : Z).

(** [fix_existing_activities]; [confirmed] is the press of the button (the
    answer y of the command-line version). *)
Definition fix_existing_activities (response_data : list Store.activity)
    (confirmed : bool) (execute : nat -> update_answer) : fix_outcome :=
  match response_data with
  | [] => NoActivities
  | _ =>
      let peloton_activities :=
        List.filter
          (fun x => cell_eq (clean_sport_type (Store.sport_type x)) "Peloton")
          response_data in
      match peloton_activities with
      | [] => NoPelotonActivities
      | _ =>
          match with_elevation response_data with
          | [] => NothingToReclassify
          | to_update =>
              if confirmed then
                let '(updated_count, failed_count) :=
                  update_loop execute to_update 0 0 0 in
                UpdateComplete updated_count failed_count
              else NotConfirmed
          end
      end
  end.

(** The record as it is once the update wrote Bike into it *)
Definition reclassified (x : Store.activity) : Store.activity :=
  Store.mk_activity (Store.id x) (Store.athlete_id x) (Store.name x)
    (Some "Bike"%string) (Store.start_date x) (Store.distance x)
    (Store.moving_time x) (Store.total_elevation_gain x) (Store.athletes x).

(** ** Date ranges and progress computed in [main] (app.py, lines
    1812-1828 and 1910-1967) *)

(** [progress_percent] of the status banner *)
Definition progress_percent (today : Date.date) : Q :=
  if today <? COMPETITION_START then 0%Q
  else if COMPETITION_END <? today then 100%Q
  else
    let total_days := COMPETITION_END - COMPETITION_START + 1 in
    let days_elapsed := today - COMPETITION_START + 1 in
    (inject_Z days_elapsed / inject_Z total_days * 100)%Q.

(** The range the button Full Competition stores *)
Definition full_competition_range (today : Date.date) : Date.date * Date.date :=
  if COMPETITION_START <=? today then
    (COMPETITION_START, Z.min today COMPETITION_END)
  else (today - 30, today).

(** The range the button Current Week stores *)
Definition current_week_range (today : Date.date) : Date.date * Date.date :=
  let '(monday, sunday) := get_current_competition_week_dates today in
  (monday, Z.min sunday today).

(** [(default_start, default_end)] *)
Definition default_range (today : Date.date) : Date.date * Date.date :=
  if today <? COMPETITION_START then (today - 30, today)
  else if COMPETITION_END <? today then (COMPETITION_START, COMPETITION_END)
  else (COMPETITION_START, today).

(** ** Formatting (app.py, lines 1675-1709) *)

(** [a // b] and [a % b] on floats, for a positive divisor *)
Definition floordiv (a b : Q) : Q := inject_Z (Qfloor (a / b)).
Definition fmod (a b : Q) : Q := (a - b * floordiv a b)%Q.

(** [format_duration]; [None] is a null or NaN, which [pd.isna] catches,
    and a zero is caught by [not seconds]. *)
Definition format_duration (seconds : option Q) : string :=
  match seconds with
  | None => "N/A"%string
  | Some seconds =>
      if Qeq_bool seconds 0 then "N/A"%string
      else
        let hours := Py2.int (floordiv seconds 3600) in
        let minutes := Py2.int (floordiv (fmod seconds 3600) 60) in
        let secs := Py2.int (fmod seconds 60) in
        if 0 <? hours then
          (Py.str hours ++ "h " ++ Py.str minutes ++ "m " ++ Py.str secs
             ++ "s")%string
        else if 0 <? minutes then
          (Py.str minutes ++ "m " ++ Py.str secs ++ "s")%string
        else (Py.str secs ++ "s")%string
  end.

(** ** Athlete cards (app.py, lines 1619-1673) *)

(** One value of the dictionary [stats] *)
Module Stats.

Record entry := mk_entry {
  total_cycling_miles : Q;
  weekly_cycling_miles : Q;
  weekly_zone_points : Q
}.

End Stats.

(** [d[k] = v] on a dictionary, which keeps its keys in the order they
    were first set *)
Fixpoint dict_set {V : Type} (k : string) (v : V) (d : list (string * V))
    : list (string * V) :=
  match d with
  | [] => [(k, v)]
  | (k', v') :: d' =>
      if String.eqb k' k then (k', v) :: d' else (k', v') :: dict_set k v d'
  end.

(** The records of one athlete dated from [monday] to [sunday] *)
Definition weekly_hr_data (hr_zones_df : frame HR.row)
    (monday sunday : Date.date) (athlete : string) : frame HR.row :=
  mk_frame (columns hr_zones_df)
    (List.filter
       (fun r => cell_eq (HR.athlete_name r) athlete
                 && date_between (hr_date r) monday sunday)
       (rows hr_zones_df)).

(** The part of the loop body that sets [weekly_zone_points] (lines
    1653-1665).  It leaves [hr_zones_df] with a date column, so the frame
    is returned with the value. *)
Definition athlete_weekly_zone_points (hr_zones_df : frame HR.row)
    (monday sunday : Date.date) (athlete : string)
    : Py.result (Q * frame HR.row) :=
  let weekly_zone_points := 0%Q in
  if negb (is_empty hr_zones_df) && has_column "athlete_name" hr_zones_df then
    if negb (has_column "start_date" hr_zones_df) then Py.Raise Py.KeyError
    else
      let hr_zones_df := with_date_column hr_zones_df in
      let weekly_hr_data := weekly_hr_data hr_zones_df monday sunday athlete in
      if negb (is_empty weekly_hr_data) then
        weekly_points_df <- calculate_hr_zone_points weekly_hr_data ;;
        match weekly_points_df with
        | [] => Py.Ok (weekly_zone_points, hr_zones_df)
        | _ =>
            Py.Ok (fold_right Qplus 0%Q
                     (map Points.zone_points weekly_points_df),
                   hr_zones_df)
        end
      else Py.Ok (weekly_zone_points, hr_zones_df)
  else Py.Ok (weekly_zone_points, hr_zones_df).

(** The body of [for athlete in athletes] *)
Definition athlete_cycling_stats (activities_df : frame Act.row)
    (hr_zones_df : frame HR.row) (monday sunday : Date.date)
    (athlete : string) : Py.result (Stats.entry * frame HR.row) :=
  let athlete_activities :=
    List.filter (fun r => String.eqb (Act.athlete_name r) athlete)
      (rows activities_df) in
  if negb (has_column "sport_type" activities_df) then Py.Raise Py.KeyError
  else
    let cycling_activities :=
      List.filter (fun r => cell_isin (Act.sport_type r) cycling_sport_types)
        athlete_activities in
    total_cycling_miles <-
      miles_of activities_df Act.distance cycling_activities ;;
    let weekly_activities :=
      List.filter (fun r => date_between (Some (Act.date r)) monday sunday)
        cycling_activities in
    weekly_cycling_miles <-
      miles_of activities_df Act.distance weekly_activities ;;
    points <- athlete_weekly_zone_points hr_zones_df monday sunday athlete ;;
    Py.Ok (Stats.mk_entry total_cycling_miles weekly_cycling_miles (fst points),
           snd points).

Fixpoint cycling_stats_loop (athletes : list string)
    (activities_df : frame Act.row) (hr_zones_df : frame HR.row)
    (monday sunday : Date.date) (stats : list (string * Stats.entry))
    : Py.result (list (string * Stats.entry)) :=
  match athletes with
  | [] => Py.Ok stats
  | athlete :: athletes' =>
      body <- athlete_cycling_stats activities_df hr_zones_df monday sunday
                athlete ;;
      cycling_stats_loop athletes' activities_df (snd body) monday sunday
        (dict_set athlete (fst body) stats)
  end.

(** [calculate_athlete_cycling_stats]; [today] is the date the call to
    [get_current_competition_week_dates] reads from the clock. *)
Definition calculate_athlete_cycling_stats (activities_df : frame Act.row)
    (hr_zones_df : frame HR.row) (today : Date.date)
    : Py.result (list (string * Stats.entry)) :=
  let stats := [] in
  if is_empty activities_df then Py.Ok stats
  else
    let '(monday, sunday) := get_current_competition_week_dates today in
    if negb (has_column "start_date" activities_df) then Py.Raise Py.KeyError
    else
      let activities_df := with_date_column activities_df in
      if negb (has_column "athlete_name" activities_df) then
        Py.Raise Py.KeyError
      else
        let athletes :=
          Pd.drop_duplicates String.eqb (fun s => s)
            (map Act.athlete_name (rows activities_df)) in
        cycling_stats_loop athletes activities_df hr_zones_df monday sunday
          stats.
(** * Proofs *)

(** ** The configuration and the examples of the specification *)

Example competition_start_is_monday : Date.weekday COMPETITION_START = 0.
Proof. reflexivity. Qed.

Example competition_end_is_sunday : Date.weekday COMPETITION_END = 6.
Proof. reflexivity. Qed.

Example ordinal_round_trip :
  Date.ord2ymd (Date.ymd2ord 2025 10 5) = (2025, 10, 5).
Proof. reflexivity. Qed.

Example week_1_and_week_8 :
  nth_error get_competition_week_dates 0
  = Some (mk_week 1 (Date.ymd2ord 2025 8 11) (Date.ymd2ord 2025 8 17)
            "Week 1 (08/11 - 08/17)")
  /\ nth_error get_competition_week_dates 7
     = Some (mk_week 8 (Date.ymd2ord 2025 9 29) (Date.ymd2ord 2025 10 5)
               "Week 8 (09/29 - 10/05)").
Proof. split; reflexivity. Qed.

Example peloton_with_elevation_is_bike :
  let x gain := Store.mk_activity 5 (Some 7) (Some "Evening"%string)
                  (Some "root='Ride'"%string) (mk_ts 739474 0) None None
                  (Some gain) (Some (mk_athlete "Ann" "Lee")) in
  map Act.sport_type (rows (fetch_activities_by_date_range [x 120%Q; x 0%Q]))
  = [Some "Bike"; Some "Peloton"]%string.
Proof. reflexivity. Qed.

(** ** Competition calendar *)

Section WeekLoop.

Variable competition_end : Date.date.

Lemma week_loop_acc nums current_monday weeks :
  week_loop competition_end nums current_monday weeks
  = weeks ++ week_loop competition_end nums current_monday [].
Proof.
  revert current_monday weeks.
  induction nums as [|n nums IH]; intros cm acc; cbn [week_loop].
  - now rewrite app_nil_r.
  - destruct (competition_end <? cm + 7).
    + reflexivity.
    + rewrite IH. rewrite (IH _ ([] ++ _)). now rewrite app_assoc.
Qed.

(** One turn of the loop: the week appended, then the rest. *)
Lemma week_loop_cons n nums current_monday :
  exists w,
    week w = n /\ week_start w = current_monday
    /\ week_end w = Z.min (current_monday + 6) competition_end
    /\ week_loop competition_end (n :: nums) current_monday []
       = w :: (if competition_end <? current_monday + 7 then []
               else week_loop competition_end nums (current_monday + 7) []).
Proof.
  eexists. repeat split; cycle 3.
  - cbn [week_loop]. destruct (competition_end <? current_monday + 7).
    + reflexivity.
    + rewrite week_loop_acc. reflexivity.
  - reflexivity.
  - reflexivity.
  - cbn [week_end]. destruct (Z.ltb_spec competition_end (current_monday + 6)); lia.
Qed.

Lemma contiguous_weeks_cons w ws :
  match ws with [] => True | w2 :: _ => week_start w2 = week_end w + 1 end ->
  contiguous_weeks ws -> contiguous_weeks (w :: ws).
Proof.
  intros Hhd Hws [|i] w1 w2 H1 H2; cbn in H1, H2.
  - destruct ws; [discriminate|]. now inversion H1; inversion H2; subst.
  - eapply Hws; eassumption.
Qed.

Lemma week_loop_bounds nums current_monday :
  Forall (fun w => current_monday <= week_start w
                   /\ week_end w <= competition_end
                   /\ week_end w <= week_start w + 6
                   /\ (current_monday <= competition_end ->
                       week_start w <= week_end w))
    (week_loop competition_end nums current_monday []).
Proof.
  revert current_monday; induction nums as [|n nums IH]; intros cm.
  - constructor.
  - destruct (week_loop_cons n nums cm) as (w & _ & Hs & He & ->).
    constructor; [lia|].
    destruct (Z.ltb_spec competition_end (cm + 7)); [constructor|].
    eapply Forall_impl; [|apply IH]. cbn beta. intros; lia.
Qed.

Lemma week_loop_head nums current_monday :
  match week_loop competition_end nums current_monday [] with
  | [] => True
  | w :: _ => week_start w = current_monday
  end.
Proof.
  destruct nums as [|n nums]; [exact I|].
  now destruct (week_loop_cons n nums current_monday) as (w & _ & Hs & _ & ->).
Qed.

Lemma week_loop_contiguous nums current_monday :
  contiguous_weeks (week_loop competition_end nums current_monday []).
Proof.
  revert current_monday; induction nums as [|n nums IH]; intros cm.
  - intros [|i] w1 w2 H; discriminate.
  - destruct (week_loop_cons n nums cm) as (w & _ & Hs & He & ->).
    destruct (Z.ltb_spec competition_end (cm + 7)) as [Hlt|Hge].
    + intros [|[|i]] w1 w2 H1 H2; discriminate.
    + apply contiguous_weeks_cons; [|apply IH].
      pose proof (week_loop_head nums (cm + 7)) as Hh.
      destruct (week_loop competition_end nums (cm + 7) []); [exact I|]. lia.
Qed.

Lemma week_loop_increasing nums current_monday :
  increasing_weeks (week_loop competition_end nums current_monday []).
Proof.
  revert current_monday; induction nums as [|n nums IH]; intros cm.
  - constructor.
  - destruct (week_loop_cons n nums cm) as (w & _ & Hs & He & ->).
    destruct (Z.ltb_spec competition_end (cm + 7)) as [Hlt|Hge].
    + repeat constructor.
    + constructor; [apply IH|].
      eapply Forall_impl; [|apply (week_loop_bounds nums (cm + 7))].
      cbn beta. intros; lia.
Qed.

End WeekLoop.

(** C4: the weeks of the fixed configuration are the eight weeks numbered
    1 to 8, each starting the day after the one before it ends, every
    week ending before the later ones start, none empty, and none (so
    not the last) ending after the competition end. *)
Theorem week_dates_contiguous :
  map week get_competition_week_dates = [1; 2; 3; 4; 5; 6; 7; 8]
  /\ contiguous_weeks get_competition_week_dates
  /\ increasing_weeks get_competition_week_dates
  /\ Forall (fun w => week_start w <= week_end w
                      /\ week_end w <= COMPETITION_END)
       get_competition_week_dates
  /\ option_map week_end (nth_error get_competition_week_dates 7)
     = Some COMPETITION_END.
Proof.
  split; [reflexivity|].
  split; [apply week_loop_contiguous|].
  split; [apply week_loop_increasing|].
  split; [|reflexivity].
  unfold get_competition_week_dates.
  eapply Forall_impl; [|apply week_loop_bounds].
  cbn beta. intros w (H1 & H2 & H3 & H4). split; [|exact H2].
  apply H4. vm_compute. discriminate.
Qed.

Lemma COMPETITION_START_ord : COMPETITION_START = 739474.
Proof. reflexivity. Qed.

Lemma COMPETITION_END_ord : COMPETITION_END = 739529.
Proof. reflexivity. Qed.

(** Case analysis on the integer comparisons of a goal, after the
    configuration has been replaced by its ordinals. *)
Ltac calendar_cases :=
  rewrite ?COMPETITION_START_ord, ?COMPETITION_END_ord in *;
  unfold COMPETITION_WEEKS in *;
  repeat match goal with
         | |- context [?a <? ?b] => destruct (Z.ltb_spec a b)
         end;
  cbn [orb andb fst snd].

(** C7: before the start the status is 0 / Pre-Competition, after the end
    it is week count + 1 / Post-Competition, and on every day of the
    competition it is the week number floor((today - start) / 7) + 1,
    between 1 and the week count, with the label of that number. *)
Theorem current_week_status (today : Date.date) :
  (today < COMPETITION_START ->
   get_current_competition_week today = (0, "Pre-Competition"%string))
  /\ (COMPETITION_END < today ->
      get_current_competition_week today
      = (COMPETITION_WEEKS + 1, "Post-Competition"%string))
  /\ (COMPETITION_START <= today <= COMPETITION_END ->
      let n := (today - COMPETITION_START) / 7 + 1 in
      get_current_competition_week today = (n, ("Week " ++ Py.str n)%string)
      /\ 1 <= n <= COMPETITION_WEEKS).
Proof.
  unfold get_current_competition_week.
  split; [|split]; intros H; cbv zeta; [| |split];
    calendar_cases; try reflexivity;
    Z.to_euclidean_division_equations; lia.
Qed.

Lemma current_week_status_witness :
  get_current_competition_week 739473 = (0, "Pre-Competition"%string)
  /\ get_current_competition_week 739530 = (9, "Post-Competition"%string)
  /\ get_current_competition_week 739529 = (8, "Week 8"%string).
Proof.
  split; [|split].
  - apply (proj1 (current_week_status 739473)). reflexivity.
  - apply (proj1 (proj2 (current_week_status 739530))). reflexivity.
  - apply (proj2 (proj2 (current_week_status 739529))).
    split; discriminate.
Defined.

(** C10: the pair the current-week-bounds function returns always
    encloses today and spans at most six days, in the competition window
    (clipped or not) and outside it. *)
Theorem current_week_dates_contain_today (today : Date.date) :
  let monday := fst (get_current_competition_week_dates today) in
  let sunday := snd (get_current_competition_week_dates today) in
  monday <= today <= sunday /\ sunday - monday <= 6.
Proof.
  unfold get_current_competition_week_dates, Date.weekday.
  calendar_cases; Z.to_euclidean_division_equations; lia.
Qed.

(** ** drop_duplicates *)

Section DropDuplicates.

Context {R K : Type} (eqb : K -> K -> bool) (key : R -> K).
Hypothesis eqb_eq : forall a b, eqb a b = true <-> a = b.

Lemma seen_spec k seen : existsb (eqb k) seen = true <-> In k seen.
Proof.
  rewrite existsb_exists. split.
  - intros (x & Hx & He). apply eqb_eq in He. now subst.
  - intros H. exists k. split; [exact H|]. now apply eqb_eq.
Qed.

Lemma drop_dups_from_keys seen l :
  NoDup (map key (Pd.drop_dups_from eqb key seen l))
  /\ forall k, In k (map key (Pd.drop_dups_from eqb key seen l)) ->
               ~ In k seen /\ In k (map key l).
Proof.
  revert seen; induction l as [|r l IH]; intros seen; cbn.
  - split; [constructor|]. intros k [].
  - destruct (existsb (eqb (key r)) seen) eqn:E.
    + destruct (IH seen) as [Hnd Hk]. split; [exact Hnd|].
      intros k Hin. destruct (Hk k Hin). auto.
    + destruct (IH (key r :: seen)) as [Hnd Hk]. cbn. split.
      * constructor; [|exact Hnd]. intros Hin. apply Hk in Hin.
        apply (proj1 Hin). now left.
      * intros k [<-|Hin].
        -- split; [|now left]. intros Hs. apply seen_spec in Hs. congruence.
        -- destruct (Hk k Hin) as [Hns Hl]. split; [|now right].
           intros Hs. apply Hns. now right.
Qed.



(** Every key of the input is still present afterwards. *)
Lemma drop_dups_from_covers seen l k :
  In k (map key l) -> ~ In k seen ->
  In k (map key (Pd.drop_dups_from eqb key seen l)).
Proof.
  revert seen; induction l as [|a l IH]; intros seen; cbn; [tauto|].
  intros Hin Hns. destruct (existsb (eqb (key a)) seen) eqn:E.
  - apply seen_spec in E. destruct Hin as [<-|Hin]; [contradiction|].
    now apply IH.
  - cbn. destruct (eqb (key a) k) eqn:Ek.
    + left. now apply eqb_eq.
    + right. destruct Hin as [Ha|Hin]; [apply eqb_eq in Ha; congruence|].
      apply IH; [exact Hin|]. intros [Ha|Hs]; [|contradiction].
      apply eqb_eq in Ha. congruence.
Qed.

(** Without a repeated key nothing is dropped. *)
Lemma drop_dups_from_nodup seen l :
  NoDup (map key l) -> (forall k, In k (map key l) -> ~ In k seen) ->
  Pd.drop_dups_from eqb key seen l = l.
Proof.
  revert seen; induction l as [|a l IH]; intros seen Hnd Hs; cbn; [reflexivity|].
  cbn in Hnd. inversion Hnd as [|? ? Ha Hnd']; subst.
  destruct (existsb (eqb (key a)) seen) eqn:E.
  - apply seen_spec in E. exfalso. apply (Hs (key a)); [now left|exact E].
  - f_equal. apply IH; [exact Hnd'|].
    intros k Hin [<-|Hk]; [contradiction|]. apply (Hs k); [now right|exact Hk].
Qed.

Lemma duplicated_all_nil l :
  Pd.duplicated_all eqb key l = [] -> NoDup (map key l).
Proof.
  unfold Pd.duplicated_all. intros H.
  assert (Hc : forall r, In r l ->
             (List.length (List.filter (fun r' => eqb (key r) (key r')) l) <= 1)%nat).
  { intros r Hr.
    destruct (1 <? List.length (List.filter (fun r' => eqb (key r) (key r')) l))%nat eqn:E.
    - assert (Hin : In r []).
      { rewrite <- H. apply filter_In. split; [exact Hr|exact E]. }
      destruct Hin.
    - apply Nat.ltb_ge in E. exact E. }
  clear H. induction l as [|a l IH]; cbn; [constructor|].
  constructor.
  - intros Hin. apply in_map_iff in Hin. destruct Hin as (b & Hb & Hbl).
    specialize (Hc a (or_introl eq_refl)). cbn in Hc.
    rewrite (proj2 (eqb_eq (key a) (key a)) eq_refl) in Hc. cbn in Hc.
    assert (Hb' : In b (List.filter (fun r' => eqb (key a) (key r')) l)).
    { apply filter_In. split; [exact Hbl|]. apply eqb_eq. now symmetry. }
    destruct (List.filter (fun r' => eqb (key a) (key r')) l); [destruct Hb'|].
    cbn in Hc. lia.
  - apply IH. intros r Hr. specialize (Hc r (or_intror Hr)). cbn in Hc.
    destruct (eqb (key r) (key a)); cbn in Hc; lia.
Qed.

(** The guarded form used by the scoring engine, which drops duplicates
    only when some key is repeated, is the unguarded one. *)
Lemma drop_duplicates_guarded l :
  match Pd.duplicated_all eqb key l with
  | [] => l
  | _ => Pd.drop_duplicates eqb key l
  end = Pd.drop_duplicates eqb key l.
Proof.
  destruct (Pd.duplicated_all eqb key l) eqn:E; [|reflexivity].
  symmetry. apply drop_dups_from_nodup.
  - now apply duplicated_all_nil.
  - intros k _ [].
Qed.

End DropDuplicates.

Lemma option_Z_eqb_eq (a b : option Z) : option_Z_eqb a b = true <-> a = b.
Proof.
  destruct a as [x|], b as [y|]; cbn; try (split; congruence).
  rewrite Z.eqb_eq. split; congruence.
Qed.

(** The frame [fetch_heart_rate_zones_by_date] returns has at most one
    record per activity identifier. *)
Lemma fetched_zones_unique (response_data : list Store.hr_zone) :
  NoDup (map HR.activity_id
           (rows (fetch_heart_rate_zones_by_date response_data))).
Proof.
  unfold fetch_heart_rate_zones_by_date.
  destruct response_data as [|x data]; [constructor|].
  set (l := x :: data). cbn [rows columns].
  change (has_column "activity_id" (mk_frame HR.column_names ?r)) with true.
  cbn [andb].
  destruct (List.filter _ (List.filter _ (map flatten_hr_row l))) as [|r rs];
    [constructor|].
  cbn [List.length Nat.ltb Nat.leb rows].
  apply (drop_dups_from_keys _ _ option_Z_eqb_eq).
Qed.

(** ** Record normaliser *)

Lemma substring_all (s : string) : String.substring 0 (String.length s) s = s.
Proof. induction s as [|c s IH]; cbn; [reflexivity|now rewrite IH]. Qed.




Lemma startswith_root_quote (q : ascii) (s : string) :
  Py.startswith s ("root=" ++ String q EmptyString) = true ->
  Py.startswith s "root=" = true.
Proof.
  unfold Py.startswith.
  change ("root=" ++ String q EmptyString)%string
    with (String "r" (String "o" (String "o" (String "t"
            (String "=" (String q EmptyString)))))).
  intros H.
  do 5 (destruct s as [|? s]; cbn [String.prefix] in H; [discriminate H|];
        match type of H with
        | context [Ascii.ascii_dec ?a ?b] =>
            destruct (Ascii.ascii_dec a b); [subst|discriminate H]
        end).
  cbn. repeat (destruct (Ascii.ascii_dec _ _); [|congruence]).
  now destruct s.
Qed.





(** ** Fetching: records whose athlete join failed *)

Lemma drop_duplicates_incl {R K : Type} (eqb : K -> K -> bool) (key : R -> K)
    (seen : list K) (l : list R) (r : R) :
  In r (Pd.drop_dups_from eqb key seen l) -> In r l.
Proof.
  revert seen; induction l as [|a l IH]; intros seen; cbn; [tauto|].
  destruct (existsb (eqb (key a)) seen); cbn.
  - intros H. right. eapply IH, H.
  - intros [H|H]; [now left|]. right. eapply IH, H.
Qed.

(** What [fetch_heart_rate_zones_by_date] returns is made of flattened
    records that have an athlete name. *)
Lemma fetch_heart_rate_zones_rows (response_data : list Store.hr_zone) (r : HR.row) :
  In r (rows (fetch_heart_rate_zones_by_date response_data)) ->
  notna (HR.athlete_name r) = true
  /\ exists raw, In raw response_data /\ r = flatten_hr_row raw.
Proof.
  unfold fetch_heart_rate_zones_by_date.
  destruct response_data as [|x data]; [intros []|].
  set (l := x :: data). cbn [rows columns]. intros H.
  assert (H' : In r (List.filter (fun r => cell_ne (HR.sport_type r) "Tennis")
                       (List.filter (fun r => notna (HR.athlete_name r))
                          (map flatten_hr_row l)))).
  { destruct (_ && _) in H; cbn [rows] in H; [|exact H].
    eapply drop_duplicates_incl, H. }
  apply filter_In in H'. destruct H' as [H' _].
  apply filter_In in H'. destruct H' as [H' Hn].
  split; [exact Hn|]. apply in_map_iff in H'.
  destruct H' as (raw & <- & Hin). now exists raw.
Qed.

(** C8, as the code has it: on the heart-rate-zone path every record of
    the result comes from a fetched record whose activity and athlete
    were both resolved, so a record whose join failed is dropped (and the
    function returns); on the activities path a record without athlete is
    kept under the name Unknown, unless its cleaned sport type is Tennis. *)
Theorem unresolved_athlete_records
    (hr_data : list Store.hr_zone) (act_data : list Store.activity) :
  (forall raw, In raw hr_data ->
     (forall act, Store.activities raw = Some act ->
                  Store.n_athletes act = None) ->
     ~ In (flatten_hr_row raw) (rows (fetch_heart_rate_zones_by_date hr_data)))
  /\ (forall r, In r (rows (fetch_heart_rate_zones_by_date hr_data)) ->
     exists raw act athlete,
       In raw hr_data /\ r = flatten_hr_row raw
       /\ Store.activities raw = Some act
       /\ Store.n_athletes act = Some athlete)
  /\ (forall x, In x act_data -> Store.athletes x = None ->
        clean_field (Store.sport_type x) <> Some "Tennis"%string ->
        exists r, In r (rows (fetch_activities_by_date_range act_data))
                  /\ Act.id r = Store.id x
                  /\ Act.athlete_name r = "Unknown"%string).
Proof.
  split; [|split].
  - intros raw _ Hfail Hr. apply fetch_heart_rate_zones_rows in Hr.
    destruct Hr as (Hn & _). unfold flatten_hr_row in Hn.
    destruct (Store.activities raw) as [act|]; [|discriminate].
    cbn [HR.athlete_name] in Hn. now rewrite (Hfail act eq_refl) in Hn.
  - intros r Hr. apply fetch_heart_rate_zones_rows in Hr.
    destruct Hr as (Hn & raw & Hin & ->). exists raw.
    unfold flatten_hr_row in *.
    destruct (Store.activities raw) as [act|]; [|discriminate].
    cbn [HR.athlete_name] in Hn.
    destruct (Store.n_athletes act) as [a|] eqn:Ha; [|discriminate].
    now exists act, a.
  - intros x Hx Hnone Hten.
    unfold fetch_activities_by_date_range.
    destruct act_data as [|y data]; [destruct Hx|].
    set (l := y :: data) in *. cbn [rows].
    match goal with
    | |- context [List.filter ?f (map ?g (map ?h (map ?k l)))] =>
        exists (g (h (k x)));
        assert (Hin : In (g (h (k x))) (map g (map h (map k l))))
          by apply (in_map g), (in_map h), (in_map k), Hx
    end.
    split.
    + apply filter_In. split; [exact Hin|].
      * cbn [Act.sport_type Act.total_elevation_gain].
        destruct (cell_eq (clean_field (Store.sport_type x)) "Peloton"
                  && cell_gt0 (Store.total_elevation_gain x));
          [reflexivity|].
        cbn [Act.sport_type]. unfold cell_ne, cell_eq.
        destruct (clean_field (Store.sport_type x)) as [v|]; [|reflexivity].
        destruct (String.eqb_spec v "Tennis"); [congruence|reflexivity].
    + rewrite Hnone. cbn [Act.sport_type Act.total_elevation_gain].
      destruct (cell_eq _ _ && cell_gt0 _); split; reflexivity.
Qed.

Lemma unresolved_athlete_records_witness :
  let raw := Store.mk_hr_zone (Some 1) (Some 600%Q) None None None None
               (Some (Store.mk_nested (Some 7) (Some "Morning"%string) None
                        (Some "Run"%string) None)) in
  let x := Store.mk_activity 5 (Some 7) (Some "Morning"%string)
             (Some "Run"%string) (mk_ts 739474 0) None None None None in
  ~ In (flatten_hr_row raw) (rows (fetch_heart_rate_zones_by_date [raw]))
  /\ (exists r, In r (rows (fetch_activities_by_date_range [x]))
                /\ Act.id r = 5 /\ Act.athlete_name r = "Unknown"%string).
Proof.
  intros raw x. split.
  - apply (proj1 (unresolved_athlete_records [raw] [])).
    + left. reflexivity.
    + intros act H. inversion H. reflexivity.
  - exact (proj2 (proj2 (unresolved_athlete_records [] [x])) x
             (or_introl eq_refl) eq_refl ltac:(discriminate)).
Defined.

(** C8 as stated fails on the activities path: a fetched activity with no
    athlete is in the result, named Unknown. *)
Lemma activity_without_athlete_is_kept :
  let x := Store.mk_activity 5 (Some 7) (Some "Morning"%string)
             (Some "Run"%string) (mk_ts 739474 0) None None None None in
  Store.athletes x = None
  /\ map (fun r => (Act.id r, Act.athlete_name r))
       (rows (fetch_activities_by_date_range [x]))
     = [(5, "Unknown"%string)].
Proof.
  cbv zeta. split; reflexivity.
Qed.

(** ** Sorting *)

Lemma StronglySorted_app {A : Type} (T : A -> A -> Prop) (l1 l2 : list A) :
  StronglySorted T l1 -> StronglySorted T l2 ->
  (forall x y, In x l1 -> In y l2 -> T x y) ->
  StronglySorted T (l1 ++ l2).
Proof.
  induction l1 as [|a l1 IH]; intros H1 H2 H12; cbn; [exact H2|].
  apply StronglySorted_inv in H1. destruct H1 as [H1 Ha].
  constructor.
  - apply IH; [exact H1|exact H2|]. intros x y Hx. apply H12. now right.
  - apply Forall_app. split; [exact Ha|].
    apply Forall_forall. intros y Hy. apply H12; [now left|exact Hy].
Qed.

Lemma StronglySorted_rev {A : Type} (T : A -> A -> Prop) (l : list A) :
  StronglySorted T l -> StronglySorted (fun a b => T b a) (rev l).
Proof.
  induction 1 as [|a l Hl IH Ha]; cbn; [constructor|].
  apply StronglySorted_app; [exact IH|repeat constructor|].
  intros x y Hx [<-|[]]. apply in_rev in Hx.
  rewrite Forall_forall in Ha. now apply Ha.
Qed.

Lemma StronglySorted_impl {A : Type} (T U : A -> A -> Prop) (l : list A) :
  (forall a b, In a l -> In b l -> T a b -> U a b) ->
  StronglySorted T l -> StronglySorted U l.
Proof.
  intros HTU H. induction H as [|a l Hl IH Ha]; [constructor|].
  constructor.
  - apply IH. intros x y Hx Hy. apply HTU; now right.
  - rewrite Forall_forall in *. intros y Hy.
    apply HTU; [now left|now right|now apply Ha].
Qed.

Section Sorting.

Context {R K : Type} (leb : K -> K -> bool) (key : R -> K).
Hypothesis leb_total : forall a b, leb a b = true \/ leb b a = true.
Hypothesis leb_trans :
  forall a b c, leb a b = true -> leb b c = true -> leb a c = true.

(** The order a stable ascending sort establishes on a list that was in
    [T] order: keys ascend, and rows with tied keys stay in [T] order. *)
Local Abbreviation stable_order T :=
  (fun a b => leb (key a) (key b) = true
              /\ (leb (key b) (key a) = true -> T a b)).

Lemma insert_sorted_perm x l :
  Permutation (Pd.insert_sorted leb key x l) (x :: l).
Proof.
  induction l as [|y l IH]; cbn; [reflexivity|].
  destruct (leb (key x) (key y)); [reflexivity|].
  rewrite IH. apply perm_swap.
Qed.

Lemma argsort_perm l : Permutation (Pd.argsort leb key l) l.
Proof.
  induction l as [|x l IH]; cbn; [reflexivity|].
  rewrite insert_sorted_perm. now constructor.
Qed.

Lemma insert_sorted_stable T x l :
  StronglySorted (stable_order T) l -> Forall (T x) l ->
  StronglySorted (stable_order T) (Pd.insert_sorted leb key x l).
Proof.
  induction l as [|y l IH]; intros Hs Hx; cbn; [repeat constructor|].
  apply StronglySorted_inv in Hs. destruct Hs as [Hs Hy].
  apply Forall_cons_iff in Hx. destruct Hx as [Hxy Hx].
  rewrite Forall_forall in Hy, Hx.
  destruct (leb (key x) (key y)) eqn:E.
  - constructor; [now constructor; [|apply Forall_forall]|].
    constructor; [now split|].
    apply Forall_forall. intros z Hz. destruct (Hy z Hz) as [Hyz _].
    split; [eauto|]. intros _. now apply Hx.
  - constructor; [now apply IH; [|apply Forall_forall]|].
    apply Forall_forall. intros z Hz.
    apply (Permutation_in _ (insert_sorted_perm x l)) in Hz.
    destruct Hz as [<-|Hz]; [|now apply Hy].
    split; [destruct (leb_total (key x) (key y)); congruence|congruence].
Qed.

Lemma argsort_stable T l :
  StronglySorted T l -> StronglySorted (stable_order T) (Pd.argsort leb key l).
Proof.
  induction 1 as [|x l Hl IH Hx]; cbn; [constructor|].
  apply insert_sorted_stable; [exact IH|].
  rewrite Forall_forall in *. intros z Hz. apply Hx.
  now apply (Permutation_in _ (argsort_perm l)).
Qed.

Lemma sort_values_desc_perm l :
  Permutation (Pd.sort_values_desc leb key l) l.
Proof.
  unfold Pd.sort_values_desc.
  rewrite <- Permutation_rev, argsort_perm. symmetry. apply Permutation_rev.
Qed.

(** Sorting descending a list that was in [T] order: keys descend, and
    rows with tied keys stay in [T] order. *)
Lemma sort_values_desc_stable T l :
  StronglySorted T l ->
  StronglySorted
    (fun a b => leb (key b) (key a) = true
                /\ (leb (key a) (key b) = true -> T a b))
    (Pd.sort_values_desc leb key l).
Proof.
  intros H. unfold Pd.sort_values_desc.
  apply StronglySorted_rev in H. apply argsort_stable in H.
  apply StronglySorted_rev in H. exact H.
Qed.

End Sorting.

(** ** Streak calculator *)

Lemma streak_loop_spec (dates : list Date.date) (current_streak expected_date : Z) :
  StronglySorted (fun a b => b < a) dates ->
  Forall (fun d => d <= expected_date) dates ->
  exists k, 0 <= k
    /\ streak_loop dates current_streak expected_date = current_streak + k
    /\ (forall j, 0 <= j < k -> In (expected_date - j) dates)
    /\ ~ In (expected_date - k) dates.
Proof.
  revert current_streak expected_date.
  induction dates as [|d ds IH]; intros c e Hs Hle; cbn [streak_loop].
  - exists 0. repeat split; [lia|lia|intros; lia|intros []].
  - apply StronglySorted_inv in Hs. destruct Hs as [Hs Hd].
    apply Forall_cons_iff in Hle. destruct Hle as [Hde Hle].
    rewrite Forall_forall in Hd.
    destruct (Z.eqb_spec d e) as [->|Hne].
    + destruct (IH (c + 1) (e - 1) Hs) as (k & Hk & Heq & Hin & Hout).
      { apply Forall_forall. intros x Hx. specialize (Hd x Hx). lia. }
      exists (k + 1). repeat split; [lia|lia| |].
      * intros j Hj. destruct (Z.eq_dec j 0) as [->|Hj0].
        -- left. lia.
        -- right. replace (e - j) with (e - 1 - (j - 1)) by lia.
           apply Hin. lia.
      * intros [He|Hi]; [lia|].
        apply Hout. now replace (e - 1 - k) with (e - (k + 1)) by lia.
    + exists 0. repeat split; [lia|lia|intros; lia|].
      rewrite Z.sub_0_r. intros [He|Hi]; [contradiction|].
      specialize (Hd e Hi). lia.
Qed.

Lemma NoDup_neq_sorted {A : Type} (l : list A) :
  NoDup l -> StronglySorted (fun a b => a <> b) l.
Proof.
  induction 1 as [|a l Ha Hl IH]; constructor; [exact IH|].
  apply Forall_forall. intros b Hb ->. contradiction.
Qed.

(** The dates of an athlete as the loop sees them: strictly descending,
    and the same set as the dates of the rows. *)
Lemma athlete_dates_sorted (dates : list Date.date) :
  let athlete_dates :=
    Pd.sort_values_desc Z.leb (fun d => d)
      (Pd.drop_duplicates Z.eqb (fun d => d) dates) in
  StronglySorted (fun a b => b < a) athlete_dates
  /\ forall d, In d athlete_dates <-> In d dates.
Proof.
  cbv zeta. split.
  - eapply StronglySorted_impl;
      [|apply sort_values_desc_stable with (T := fun a b => a <> b)].
    + cbn beta. intros a b _ _ [H1 H2]. apply Z.leb_le in H1.
      destruct (Z.eq_dec a b) as [->|Hne]; [|lia].
      exfalso. apply H2; [now apply Z.leb_le|reflexivity].
    + intros a b. destruct (Z.leb_spec a b); [now left|right].
      apply Z.leb_le. lia.
    + intros a b c. rewrite !Z.leb_le. lia.
    + apply NoDup_neq_sorted.
      pose proof (drop_dups_from_keys Z.eqb (fun d : Z => d) Z.eqb_eq [] dates)
        as [Hnd _].
      now rewrite map_id in Hnd.
  - intros d. split; intros H.
    + apply (Permutation_in _ (sort_values_desc_perm _ _ _)) in H.
      eapply drop_duplicates_incl, H.
    + apply (Permutation_in _ (Permutation_sym (sort_values_desc_perm _ _ _))).
      pose proof (drop_dups_from_covers Z.eqb (fun d : Z => d) Z.eqb_eq [] dates d)
        as Hc.
      rewrite !map_id in Hc. apply Hc; [exact H|intros []].
Qed.

(** The value the loop stores for an athlete who has some activity. *)
Lemma athlete_streak_spec (l : list Act.row) (today : Date.date) (athlete : string) :
  let dates :=
    map Act.date
      (List.filter (fun r => String.eqb (Act.athlete_name r) athlete) l) in
  dates <> [] ->
  exists latest,
    In latest dates /\ (forall d, In d dates -> d <= latest)
    /\ (1 < today - latest -> athlete_streak l today athlete = 0)
    /\ (today - latest <= 1 ->
        1 <= athlete_streak l today athlete
        /\ (forall j, 0 <= j < athlete_streak l today athlete ->
                      In (latest - j) dates)
        /\ ~ In (latest - athlete_streak l today athlete) dates).
Proof.
  cbv zeta. unfold athlete_streak.
  set (dates := map Act.date _).
  destruct (athlete_dates_sorted dates) as [Hs Hin].
  destruct (Pd.sort_values_desc Z.leb (fun d => d)
              (Pd.drop_duplicates Z.eqb (fun d => d) dates))
    as [|latest rest] eqn:E.
  - intros Hne. destruct dates as [|d ds]; [contradiction|].
    destruct (proj2 (Hin d) (or_introl eq_refl)).
  - intros _. exists latest.
    apply StronglySorted_inv in Hs. destruct Hs as [Hs Hl].
    rewrite Forall_forall in Hl.
    split; [apply Hin; now left|].
    split.
    { intros d Hd. apply Hin in Hd. destruct Hd as [<-|Hd]; [lia|].
      specialize (Hl d Hd). lia. }
    destruct (Z.ltb_spec 1 (today - latest)) as [Hgap|Hnear].
    + split; [reflexivity|lia].
    + split; [lia|]. intros _.
      destruct (streak_loop_spec rest 1 (latest - 1) Hs)
        as (k & Hk & -> & Hj & Hout).
      { apply Forall_forall. intros d Hd. specialize (Hl d Hd). lia. }
      split; [lia|]. split.
      * intros j Hjk. apply Hin. destruct (Z.eq_dec j 0) as [->|Hj0].
        -- left. lia.
        -- right. replace (latest - j) with (latest - 1 - (j - 1)) by lia.
           apply Hj. lia.
      * intros H. apply Hin in H. destruct H as [H|H]; [lia|].
        apply Hout. now replace (latest - 1 - k) with (latest - (1 + k)) by lia.
Qed.

Lemma streaks_fold_lookup (f : string -> Z) (names : list string)
    (streaks : gmap string Z) (athlete : string) :
  In athlete names ->
  fold_left (fun streaks athlete => <[athlete := f athlete]> streaks)
    names streaks !! athlete = Some (f athlete).
Proof.
  revert streaks. induction names as [|x names IH]; intros m; [intros []|].
  cbn [fold_left]. intros Hin.
  destruct (in_dec string_dec athlete names) as [Hn|Hn]; [now apply IH|].
  destruct Hin as [->|Hin]; [|contradiction].
  clear IH. revert m. induction names as [|y names IH]; intros m; cbn [fold_left].
  - apply lookup_insert_eq.
  - rewrite insert_insert_ne.
    + apply IH. intros H. apply Hn. now right.
    + intros ->. apply Hn. now left.
Qed.

Lemma calculate_athlete_streaks_lookup (activities_df : frame Act.row)
    (today : Date.date) (athlete : string) :
  has_column "start_date" activities_df = true ->
  has_column "athlete_name" activities_df = true ->
  In athlete (map Act.athlete_name (rows activities_df)) ->
  exists streaks,
    calculate_athlete_streaks activities_df today = Py.Ok streaks
    /\ streaks !! athlete
       = Some (athlete_streak (rows activities_df) today athlete).
Proof.
  intros Hdate Hcol Hin. unfold calculate_athlete_streaks.
  assert (He : is_empty activities_df = false).
  { unfold is_empty, has_column in *.
    destruct (columns activities_df); [discriminate|].
    destruct (rows activities_df); [destruct Hin|reflexivity]. }
  rewrite He, Hdate, Hcol. cbn [negb]. eexists. split; [reflexivity|].
  apply (streaks_fold_lookup
           (fun a => athlete_streak (rows activities_df) today a)).
  pose proof (drop_dups_from_covers String.eqb (fun s : string => s)
                String.eqb_eq [] (map Act.athlete_name (rows activities_df))
                athlete) as Hc.
  rewrite !map_id in Hc. apply Hc; [exact Hin|intros []].
Qed.

(** C5: on a frame that has the start_date and athlete_name columns, for
    an athlete with at least one activity date, the call returns a
    dictionary and the streak stored in it for the athlete is 0 when the
    most recent date is more than one day before today; otherwise it is
    at least 1, every one of that many days counted back from the most
    recent date has an activity, and the day before them has none.  So
    the dates today, today-1, today-2 give 3, the single date today-3
    gives 0 and the single date today-1 gives 1. *)
Theorem streak_counts_consecutive_days (activities_df : frame Act.row)
    (today : Date.date) (athlete : string) :
  let dates :=
    map Act.date
      (List.filter (fun r => String.eqb (Act.athlete_name r) athlete)
         (rows activities_df)) in
  has_column "start_date" activities_df = true ->
  has_column "athlete_name" activities_df = true ->
  dates <> [] ->
  exists streaks latest streak,
    calculate_athlete_streaks activities_df today = Py.Ok streaks
    /\ streaks !! athlete = Some streak
    /\ In latest dates /\ (forall d, In d dates -> d <= latest)
    /\ (1 < today - latest -> streak = 0)
    /\ (today - latest <= 1 ->
        1 <= streak
        /\ (forall j, 0 <= j < streak -> In (latest - j) dates)
        /\ ~ In (latest - streak) dates)
    /\ ((forall d, In d dates <-> d = today \/ d = today - 1 \/ d = today - 2) ->
        streak = 3)
    /\ ((forall d, In d dates <-> d = today - 3) -> streak = 0)
    /\ ((forall d, In d dates <-> d = today - 1) -> streak = 1).
Proof.
  cbv zeta. intros Hdate Hcol Hne.
  destruct (athlete_streak_spec (rows activities_df) today athlete Hne)
    as (latest & Hin & Hmax & Hgap & Hnear).
  destruct (calculate_athlete_streaks_lookup activities_df today athlete
              Hdate Hcol) as (streaks & Hok & Hlookup).
  { set (dates := map Act.date _) in *.
    destruct dates as [|d ds] eqn:E; [contradiction|].
    subst dates.
    destruct (List.filter _ _) as [|r rs] eqn:F; [discriminate|].
    assert (Hr : In r (r :: rs)) by now left.
    rewrite <- F in Hr. apply filter_In in Hr. destruct Hr as [Hr Hname].
    apply String.eqb_eq in Hname. rewrite <- Hname. now apply in_map. }
  exists streaks, latest, (athlete_streak (rows activities_df) today athlete).
  set (dates := map Act.date _) in *.
  set (s := athlete_streak _ _ _) in *.
  split; [exact Hok|]. split; [exact Hlookup|].
  repeat split; try assumption; try (now apply Hnear).
  - intros Hset. pose proof (proj1 (Hset latest) Hin) as Hl.
    pose proof (Hmax today (proj2 (Hset today) (or_introl eq_refl))) as Ht.
    destruct Hnear as (H1 & Hj & Hout); [lia|].
    destruct (Z.le_gt_cases 4 s) as [H4|H4].
    + pose proof (proj1 (Hset _) (Hj 3 ltac:(lia))). lia.
    + assert (Hs : ~ (latest - s = today \/ latest - s = today - 1
                      \/ latest - s = today - 2))
        by (intros H; apply Hout, Hset, H).
      lia.
  - intros Hset. apply Hgap. pose proof (proj1 (Hset latest) Hin). lia.
  - intros Hset. pose proof (proj1 (Hset latest) Hin) as Hl.
    destruct Hnear as (H1 & Hj & Hout); [lia|].
    destruct (Z.le_gt_cases 2 s) as [H2|H2]; [|lia].
    pose proof (proj1 (Hset _) (Hj 1 ltac:(lia))). lia.
Qed.

Lemma streak_counts_consecutive_days_witness :
  let row d := Act.mk_row 1 (Some 7) None (Some "Run"%string) (mk_ts d 0)
                 None None None "Ann Lee" in
  exists streaks,
    calculate_athlete_streaks
      (mk_frame Act.column_names [row 739499; row 739500; row 739498])
      739500 = Py.Ok streaks
    /\ streaks !! "Ann Lee"%string = Some 3.
Proof.
  intros row.
  destruct (streak_counts_consecutive_days
              (mk_frame Act.column_names [row 739499; row 739500; row 739498])
              739500 "Ann Lee" eq_refl eq_refl ltac:(discriminate))
    as (streaks & latest & streak & Hok & Hl & _ & _ & _ & _ & H3 & _).
  exists streaks. split; [exact Hok|]. rewrite Hl.
  f_equal. apply H3. intros d. cbn. lia.
Defined.

(** ** Scoring engine *)

(** On a frame that has the columns the engine reads, the result is the
    sorted aggregate of the scored records. *)
Lemma calculate_hr_zone_points_ok (df : frame HR.row) (zone_points : HR.row -> Q) :
  has_column "athlete_name" df = true ->
  has_column "activity_id" df = true ->
  zone_points_column df = Py.Ok zone_points ->
  calculate_hr_zone_points df
  = Py.Ok (Pd.sort_values_desc Qle_bool Points.zone_points
             (groupby_agg zone_points (agg_zone_columns df) (scored_rows df))).
Proof.
  intros Hname Hid Hzp. unfold calculate_hr_zone_points, scored_rows.
  rewrite Hname. cbn [negb]. rewrite orb_false_r.
  assert (Hcols : columns df <> []).
  { unfold has_column in Hname. now destruct (columns df). }
  destruct (is_empty df) eqn:He.
  { unfold is_empty in He. destruct (columns df); [contradiction|].
    destruct (rows df); [reflexivity|discriminate]. }
  set (l := List.filter _ (rows df)).
  destruct (is_empty (mk_frame (columns df) l)) eqn:He'.
  { unfold is_empty in He'. cbn [columns rows] in He'.
    destruct (columns df); [contradiction|].
    destruct l; [reflexivity|discriminate]. }
  change (has_column "activity_id" (mk_frame (columns df) l))
    with (has_column "activity_id" df).
  rewrite Hid. cbn [rows columns].
  match goal with
  | |- context [match ?d with [] => ?a | _ :: _ => ?b end] =>
      replace (match d with [] => a | _ :: _ => b end) with b
  end.
  - change (zone_points_column (mk_frame (columns df) ?x))
      with (zone_points_column df).
    rewrite Hzp. cbn [Py.bind].
    change (has_column "activity_id" (mk_frame (columns df) ?x))
      with (has_column "activity_id" df).
    rewrite Hid. reflexivity.
  - destruct (Pd.duplicated_all option_Z_eqb HR.activity_id l) eqn:E;
      [|reflexivity].
    f_equal. apply (drop_dups_from_nodup _ _ option_Z_eqb_eq).
    + now apply (duplicated_all_nil _ _ option_Z_eqb_eq).
    + intros k _ [].
Qed.

(** On a frame that carries the five [zone_i_seconds] columns the points
    of a record are the weighted minutes, nulls counting as zero. *)
Lemma zone_points_formula (df : frame HR.row) :
  Forall (fun c => has_column c df = true)
    ["zone_1_seconds"; "zone_2_seconds"; "zone_3_seconds"; "zone_4_seconds";
     "zone_5_seconds"]%string ->
  exists zone_points,
    zone_points_column df = Py.Ok zone_points
    /\ forall r,
         (zone_points r
          == fold_right Qplus 0
               (map (fun i => Pd.fillna0 (zone_seconds i r) / 60 * inject_Z i)
                  (Py.range 1 6)))%Q.
Proof.
  intros H. repeat (apply Forall_cons_iff in H; destruct H as [? H]).
  eexists. split.
  - unfold zone_points_column, get_zone_column.
    repeat match goal with
           | Hc : has_column _ df = true |- _ => rewrite Hc; clear Hc
           end.
    reflexivity.
  - intros r. change (Py.range 1 6) with [1; 2; 3; 4; 5].
    cbn [map fold_right zone_seconds]. unfold Qdiv, inject_Z. ring.
Qed.

(** The example of the specification: 600 seconds in zone 1 and nothing
    else is 10 points, whether the other zones hold 0 or null. *)
Lemma zone_points_example :
  let cols := ["athlete_name"; "activity_id"; "zone_1_seconds";
               "zone_2_seconds"; "zone_3_seconds"; "zone_4_seconds";
               "zone_5_seconds"]%string in
  let r z := HR.mk_row (Some 1) (Some 600%Q) z z z z None None None None None
               None (Some "Ann Lee"%string) None None None in
  forall z, z = Some 0%Q \/ z = None ->
    calculate_hr_zone_points (mk_frame cols [r z])
    = Py.Ok [Points.mk_row "Ann Lee" 10 1
               [("zone_1_seconds", 600%Q); ("zone_2_seconds", 0%Q);
                ("zone_3_seconds", 0%Q); ("zone_4_seconds", 0%Q);
                ("zone_5_seconds", 0%Q)]%string].
Proof.
  intros cols r z [-> | ->]; reflexivity.
Qed.

(** C1 at a frame without the zone 2 columns: the default of the inner
    [df.get] is the int 0, and calling [fillna] on it raises, where the
    claim counts the missing field as zero (10 points). *)
Theorem zone_points_missing_column_raises :
  let cols := ["athlete_name"; "activity_id"; "zone_1_seconds";
               "zone_3_seconds"; "zone_4_seconds"; "zone_5_seconds"]%string in
  let r := HR.mk_row (Some 1) (Some 600%Q) None (Some 0%Q) (Some 0%Q)
             (Some 0%Q) None None None None None
             None (Some "Ann Lee"%string) None None None in
  calculate_hr_zone_points (mk_frame cols [r]) = Py.Raise Py.AttributeError.
Proof.
  reflexivity.
Qed.

Lemma filter_map_preserved {A : Type} (p : A -> bool) (f : A -> A) (l : list A) :
  (forall x, p (f x) = p x) ->
  List.filter p (map f l) = map f (List.filter p l).
Proof.
  intros H. induction l as [|x l IH]; cbn; [reflexivity|].
  rewrite H. destruct (p x); cbn; now rewrite IH.
Qed.

Lemma drop_dups_from_map {R K : Type} (eqb : K -> K -> bool) (key : R -> K)
    (f : R -> R) (seen : list K) (l : list R) :
  (forall r, key (f r) = key r) ->
  Pd.drop_dups_from eqb key seen (map f l)
  = map f (Pd.drop_dups_from eqb key seen l).
Proof.
  intros H. revert seen. induction l as [|x l IH]; intros seen; cbn;
    [reflexivity|].
  rewrite H. destruct (existsb (eqb (key x)) seen); cbn; now rewrite IH.
Qed.

(** Which columns the points are computed from. *)
Lemma zone_points_column_inv (df : frame HR.row) (zone_points : HR.row -> Q) :
  zone_points_column df = Py.Ok zone_points ->
  exists z1 z2 z3 z4 z5,
    (z1 = HR.zone_1_seconds \/ z1 = HR.zone_1_time)
    /\ (z2 = HR.zone_2_seconds \/ z2 = HR.zone_2_time)
    /\ (z3 = HR.zone_3_seconds \/ z3 = HR.zone_3_time)
    /\ (z4 = HR.zone_4_seconds \/ z4 = HR.zone_4_time)
    /\ (z5 = HR.zone_5_seconds \/ z5 = HR.zone_5_time)
    /\ zone_points
       = (fun r => (Pd.fillna0 (z1 r) / 60) * 1 + (Pd.fillna0 (z2 r) / 60) * 2
                   + (Pd.fillna0 (z3 r) / 60) * 3 + (Pd.fillna0 (z4 r) / 60) * 4
                   + (Pd.fillna0 (z5 r) / 60) * 5)%Q.
Proof.
  unfold zone_points_column, get_zone_column. intros H.
  repeat match type of H with
         | context [if has_column ?c df then _ else _] =>
             destruct (has_column c df)
         end;
    cbn [Py.bind] in H; try discriminate H;
    inversion H; do 5 eexists; repeat split; auto.
Qed.

Lemma fillna0_scale (k : Q) (x : option Q) :
  (Pd.fillna0 (option_map (Qmult k) x) == k * Pd.fillna0 x)%Q.
Proof. destruct x; cbn; ring. Qed.

(** Scaling the zone times of a record scales its points. *)
Lemma zone_points_scale (df : frame HR.row) (zone_points : HR.row -> Q)
    (k : Q) (r : HR.row) :
  zone_points_column df = Py.Ok zone_points ->
  (zone_points (scale_zones k r) == k * zone_points r)%Q.
Proof.
  intros H. apply zone_points_column_inv in H.
  destruct H as (z1 & z2 & z3 & z4 & z5 & H1 & H2 & H3 & H4 & H5 & ->).
  destruct H1 as [-> | ->], H2 as [-> | ->], H3 as [-> | ->],
    H4 as [-> | ->], H5 as [-> | ->];
    cbn [scale_zones HR.zone_1_seconds HR.zone_2_seconds HR.zone_3_seconds
         HR.zone_4_seconds HR.zone_5_seconds HR.zone_1_time HR.zone_2_time
         HR.zone_3_time HR.zone_4_time HR.zone_5_time];
    rewrite !fillna0_scale; unfold Qdiv; ring.
Qed.

(** A record whose zone times are all zero or null scores zero. *)
Lemma zone_points_zero (df : frame HR.row) (zone_points : HR.row -> Q)
    (r : HR.row) :
  zone_points_column df = Py.Ok zone_points ->
  (forall i, (Pd.fillna0 (zone_seconds i r) == 0
              /\ Pd.fillna0 (zone_time i r) == 0)%Q) ->
  (zone_points r == 0)%Q.
Proof.
  intros H Hz. apply zone_points_column_inv in H.
  destruct H as (z1 & z2 & z3 & z4 & z5 & H1 & H2 & H3 & H4 & H5 & ->).
  pose proof (Hz 1) as [A1 B1]. pose proof (Hz 2) as [A2 B2].
  pose proof (Hz 3) as [A3 B3]. pose proof (Hz 4) as [A4 B4].
  pose proof (Hz 5) as [A5 B5]. cbn [zone_seconds zone_time] in *.
  destruct H1 as [-> | ->], H2 as [-> | ->], H3 as [-> | ->],
    H4 as [-> | ->], H5 as [-> | ->];
    rewrite ?A1, ?A2, ?A3, ?A4, ?A5, ?B1, ?B2, ?B3, ?B4, ?B5; reflexivity.
Qed.

Lemma round0_comp (x y : Q) : (x == y)%Q -> Pd.round0 x = Pd.round0 y.
Proof.
  intros H. unfold Pd.round0. rewrite (Qfloor_comp _ _ H).
  now rewrite H.
Qed.

Lemma scored_rows_scale (k : Q) (athlete : string) (df : frame HR.row) :
  scored_rows (scale_athlete k athlete df)
  = map (fun r => if cell_eq (HR.athlete_name r) athlete
                  then scale_zones k r else r) (scored_rows df).
Proof.
  unfold scored_rows, scale_athlete, Pd.drop_duplicates. cbn [rows].
  rewrite filter_map_preserved; [apply drop_dups_from_map|];
    intros r; now destruct (cell_eq (HR.athlete_name r) athlete).
Qed.

Lemma rows_of_scale (k : Q) (athlete : string) (l : list HR.row) :
  rows_of athlete
    (map (fun r => if cell_eq (HR.athlete_name r) athlete
                   then scale_zones k r else r) l)
  = map (scale_zones k) (rows_of athlete l).
Proof.
  unfold rows_of. rewrite filter_map_preserved.
  - apply map_ext_in. intros r Hr. apply filter_In in Hr.
    destruct Hr as [_ Hr]. now rewrite Hr.
  - intros r. destruct (cell_eq (HR.athlete_name r) athlete) eqn:E; exact E.
Qed.

Lemma sum_points_scale (zone_points : HR.row -> Q) (k : Q) (g : list HR.row) :
  (forall r, zone_points (scale_zones k r) == k * zone_points r)%Q ->
  (fold_right Qplus 0 (map zone_points (map (scale_zones k) g))
   == k * fold_right Qplus 0 (map zone_points g))%Q.
Proof.
  intros H. induction g as [|r g IH]; cbn; [ring|].
  rewrite IH, H. ring.
Qed.

Lemma group_keys_In (l : list HR.row) (athlete : string) :
  In athlete (group_keys l) <-> In (Some athlete) (map HR.athlete_name l).
Proof.
  unfold group_keys, Pd.sort_values.
  set (names := flat_map _ l).
  assert (Hn : In athlete names <-> In (Some athlete) (map HR.athlete_name l)).
  { subst names. rewrite in_flat_map, in_map_iff. split.
    - intros (r & Hr & Ha). exists r. split; [|exact Hr].
      destruct (HR.athlete_name r); [|destruct Ha].
      destruct Ha as [->|[]]. reflexivity.
    - intros (r & Ha & Hr). exists r. split; [exact Hr|].
      rewrite Ha. now left. }
  rewrite <- Hn. split; intros H.
  - apply (Permutation_in _ (argsort_perm _ _ _)) in H.
    eapply drop_duplicates_incl, H.
  - apply (Permutation_in _ (Permutation_sym (argsort_perm _ _ _))).
    pose proof (drop_dups_from_covers String.eqb (fun s : string => s)
                  String.eqb_eq [] names athlete) as Hc.
    rewrite !map_id in Hc. apply Hc; [exact H|intros []].
Qed.

Lemma group_keys_scale (k : Q) (athlete : string) (l : list HR.row) :
  group_keys
    (map (fun r => if cell_eq (HR.athlete_name r) athlete
                   then scale_zones k r else r) l)
  = group_keys l.
Proof.
  unfold group_keys. do 2 f_equal.
  induction l as [|r l IH]; cbn; [reflexivity|]. rewrite IH. f_equal.
  now destruct (cell_eq (HR.athlete_name r) athlete).
Qed.

(** The rows of the result: one per athlete with a scored record, holding
    the rounded sum of the points of that athlete's scored records. *)
Lemma calculate_hr_zone_points_rows (df : frame HR.row)
    (zone_points : HR.row -> Q) :
  has_column "athlete_name" df = true ->
  has_column "activity_id" df = true ->
  zone_points_column df = Py.Ok zone_points ->
  exists out,
    calculate_hr_zone_points df = Py.Ok out
    /\ (forall athlete,
          In (Some athlete) (map HR.athlete_name (scored_rows df)) ->
          exists p, In p out /\ Points.athlete_name p = athlete)
    /\ (forall p, In p out ->
          In (Some (Points.athlete_name p))
            (map HR.athlete_name (scored_rows df))
          /\ Points.zone_points p
             = Pd.round0 (raw_points zone_points (Points.athlete_name p) df)).
Proof.
  intros Hname Hid Hzp. eexists. split.
  { apply calculate_hr_zone_points_ok; eassumption. }
  split.
  - intros athlete Hin. apply group_keys_In in Hin.
    eexists. split.
    + apply (Permutation_in _ (Permutation_sym (sort_values_desc_perm _ _ _))).
      unfold groupby_agg. apply in_map_iff. eexists. split; [reflexivity|].
      exact Hin.
    + reflexivity.
  - intros p Hp. apply (Permutation_in _ (sort_values_desc_perm _ _ _)) in Hp.
    unfold groupby_agg in Hp. apply in_map_iff in Hp.
    destruct Hp as (a & <- & Ha). cbn [Points.athlete_name Points.zone_points].
    split; [now apply group_keys_In|reflexivity].
Qed.

Lemma raw_points_scale (df : frame HR.row) (zone_points : HR.row -> Q)
    (k : Q) (athlete : string) :
  zone_points_column df = Py.Ok zone_points ->
  (raw_points zone_points athlete (scale_athlete k athlete df)
   == k * raw_points zone_points athlete df)%Q.
Proof.
  intros H. unfold raw_points.
  rewrite scored_rows_scale, rows_of_scale.
  apply sum_points_scale. intros r. now apply (zone_points_scale df).
Qed.

Lemma scored_rows_incl (df : frame HR.row) (r : HR.row) :
  In r (scored_rows df) -> In r (rows df).
Proof.
  unfold scored_rows, Pd.drop_duplicates. intros H.
  apply drop_duplicates_incl in H. now apply filter_In in H.
Qed.

Lemma raw_points_zero (df : frame HR.row) (zone_points : HR.row -> Q)
    (athlete : string) :
  (forall r, In r (rows df) -> zone_points r == 0)%Q ->
  (raw_points zone_points athlete df == 0)%Q.
Proof.
  intros Hz. unfold raw_points, rows_of.
  assert (H : forall r, In r (List.filter
                (fun r => cell_eq (HR.athlete_name r) athlete)
                (scored_rows df)) -> (zone_points r == 0)%Q).
  { intros r Hr. apply filter_In in Hr. apply Hz, scored_rows_incl, Hr. }
  induction (List.filter _ (scored_rows df)) as [|r g IH]; cbn; [reflexivity|].
  rewrite (H r (or_introl eq_refl)), IH; [ring|].
  intros x Hx. apply H. now right.
Qed.

(** C9, as the code has it: doubling the zone times of an athlete's
    records doubles the points of each record and the athlete's sum of
    points; the total reported is that sum rounded to a whole number, so
    after doubling it is the rounding of twice the sum.  Zone times that
    are all zero give a total of zero. *)
Theorem scoring_linear_before_rounding (df : frame HR.row)
    (zone_points : HR.row -> Q) (athlete : string) :
  has_column "athlete_name" df = true ->
  has_column "activity_id" df = true ->
  zone_points_column df = Py.Ok zone_points ->
  In (Some athlete) (map HR.athlete_name (scored_rows df)) ->
  (forall r, zone_points (scale_zones 2 r) == 2 * zone_points r)%Q
  /\ (raw_points zone_points athlete (scale_athlete 2 athlete df)
      == 2 * raw_points zone_points athlete df)%Q
  /\ exists out out2 p p2,
       calculate_hr_zone_points df = Py.Ok out
       /\ calculate_hr_zone_points (scale_athlete 2 athlete df) = Py.Ok out2
       /\ In p out /\ Points.athlete_name p = athlete
       /\ Points.zone_points p
          = Pd.round0 (raw_points zone_points athlete df)
       /\ In p2 out2 /\ Points.athlete_name p2 = athlete
       /\ Points.zone_points p2
          = Pd.round0 (2 * raw_points zone_points athlete df)
       /\ ((forall r i, In r (rows df) ->
              (Pd.fillna0 (zone_seconds i r) == 0
               /\ Pd.fillna0 (zone_time i r) == 0)%Q) ->
           Points.zone_points p = 0%Q).
Proof.
  intros Hname Hid Hzp Hin.
  split; [intros r; now apply (zone_points_scale df)|].
  split; [now apply raw_points_scale|].
  destruct (calculate_hr_zone_points_rows df zone_points Hname Hid Hzp)
    as (out & Hout & Hex & Hall).
  destruct (calculate_hr_zone_points_rows (scale_athlete 2 athlete df)
              zone_points Hname Hid Hzp)
    as (out2 & Hout2 & Hex2 & Hall2).
  destruct (Hex athlete Hin) as (p & Hp & Hpa).
  destruct (Hex2 athlete) as (p2 & Hp2 & Hpa2).
  { rewrite scored_rows_scale, map_map.
    erewrite map_ext; [exact Hin|].
    intros r. now destruct (cell_eq (HR.athlete_name r) athlete). }
  exists out, out2, p, p2.
  destruct (Hall p Hp) as [_ Hzp1]. destruct (Hall2 p2 Hp2) as [_ Hzp2].
  rewrite Hpa in Hzp1. rewrite Hpa2 in Hzp2.
  repeat split; try assumption.
  - rewrite Hzp2. apply round0_comp. now apply raw_points_scale.
  - intros Hz. rewrite Hzp1.
    rewrite (round0_comp _ 0); [reflexivity|].
    apply raw_points_zero. intros r Hr.
    apply (zone_points_zero df); [exact Hzp|]. intros i. now apply Hz.
Qed.

Lemma scoring_linear_before_rounding_witness :
  let cols := ["athlete_name"; "activity_id"; "zone_1_seconds";
               "zone_2_seconds"; "zone_3_seconds"; "zone_4_seconds";
               "zone_5_seconds"]%string in
  let r := HR.mk_row (Some 1) (Some 40%Q) None None None None
             None None None None None
             None (Some "Ann Lee"%string) None None None in
  let zone_points r :=
    (Pd.fillna0 (HR.zone_1_seconds r) / 60 * 1
     + Pd.fillna0 (HR.zone_2_seconds r) / 60 * 2
     + Pd.fillna0 (HR.zone_3_seconds r) / 60 * 3
     + Pd.fillna0 (HR.zone_4_seconds r) / 60 * 4
     + Pd.fillna0 (HR.zone_5_seconds r) / 60 * 5)%Q in
  (raw_points zone_points "Ann Lee" (scale_athlete 2 "Ann Lee" (mk_frame cols [r]))
   == 2 * raw_points zone_points "Ann Lee" (mk_frame cols [r]))%Q.
Proof.
  intros cols r zone_points.
  apply (scoring_linear_before_rounding (mk_frame cols [r]) zone_points
           "Ann Lee" eq_refl eq_refl eq_refl).
  left. reflexivity.
Defined.

(** C9 as stated fails: 40 seconds in zone 1 are 2/3 of a point, reported
    as 1; doubled to 80 seconds they are 4/3, reported as 1 again. *)
Lemma doubling_does_not_double_total :
  let cols := ["athlete_name"; "activity_id"; "zone_1_seconds";
               "zone_2_seconds"; "zone_3_seconds"; "zone_4_seconds";
               "zone_5_seconds"]%string in
  let r := HR.mk_row (Some 1) (Some 40%Q) None None None None
             None None None None None
             None (Some "Ann Lee"%string) None None None in
  exists p p2,
    calculate_hr_zone_points (mk_frame cols [r]) = Py.Ok [p]
    /\ calculate_hr_zone_points (scale_athlete 2 "Ann Lee" (mk_frame cols [r]))
       = Py.Ok [p2]
    /\ Points.zone_points p = 1%Q /\ Points.zone_points p2 = 1%Q
    /\ ~ (Points.zone_points p2 == 2 * Points.zone_points p)%Q.
Proof.
  cbv zeta. do 2 eexists.
  split; [reflexivity|]. split; [reflexivity|].
  split; [reflexivity|]. split; [reflexivity|].
  cbn. discriminate.
Qed.

(** ** Order of the scoring result *)

Lemma string_leb_trans (a b c : string) :
  String.leb a b = true -> String.leb b c = true -> String.leb a c = true.
Proof.
  unfold String.leb. revert b c.
  induction a as [|x a IH]; intros [|y b] [|z c]; cbn; try congruence.
  unfold Ascii.compare.
  destruct (N.compare_spec (N_of_ascii x) (N_of_ascii y)) as [Hxy|Hxy|Hxy];
    destruct (N.compare_spec (N_of_ascii y) (N_of_ascii z)) as [Hyz|Hyz|Hyz];
    destruct (N.compare_spec (N_of_ascii x) (N_of_ascii z)) as [Hxz|Hxz|Hxz];
    try congruence; try lia.
  apply IH.
Qed.

Lemma string_ltb_of_leb (a b : string) :
  String.leb a b = true -> a <> b -> String.ltb a b = true.
Proof.
  unfold String.leb, String.ltb. intros Hle Hne.
  destruct (String.compare a b) eqn:E; try congruence.
  now apply String.compare_eq_iff in E.
Qed.

(** The group keys ascend strictly. *)
Lemma group_keys_sorted (l : list HR.row) :
  StronglySorted (fun a b => String.ltb a b = true) (group_keys l).
Proof.
  unfold group_keys, Pd.sort_values.
  eapply StronglySorted_impl;
    [|apply argsort_stable with (T := fun a b : string => a <> b)].
  - cbn beta. intros a b _ _ [H1 H2]. apply string_ltb_of_leb; [exact H1|].
    intros ->. now apply H2.
  - apply String.leb_total.
  - apply string_leb_trans.
  - apply NoDup_neq_sorted.
    match goal with
    | |- NoDup (Pd.drop_duplicates _ _ ?names) =>
        pose proof (drop_dups_from_keys String.eqb (fun s : string => s)
                      String.eqb_eq [] names) as [Hnd _]
    end.
    now rewrite map_id in Hnd.
Qed.

Lemma groupby_agg_sorted (zone_points : HR.row -> Q)
    (zone_columns : list (string * (HR.row -> option Q))) (l : list HR.row) :
  StronglySorted
    (fun p q => String.ltb (Points.athlete_name p) (Points.athlete_name q) = true)
    (groupby_agg zone_points zone_columns l).
Proof.
  unfold groupby_agg.
  induction (group_keys_sorted l) as [|a keys Hk IH Ha]; cbn [map];
    constructor; [exact IH|].
  rewrite Forall_forall in *. intros q Hq. apply in_map_iff in Hq.
  destruct Hq as (b & <- & Hb). cbn [Points.athlete_name]. now apply Ha.
Qed.

(** What a successful call returns. *)
Lemma calculate_hr_zone_points_inv (df : frame HR.row) (out : list Points.row) :
  calculate_hr_zone_points df = Py.Ok out ->
  out = []
  \/ exists zone_points zone_columns l,
       out = Pd.sort_values_desc Qle_bool Points.zone_points
               (groupby_agg zone_points zone_columns l).
Proof.
  unfold calculate_hr_zone_points.
  destruct (is_empty df || negb (has_column "athlete_name" df));
    [intros H; inversion H; now left|].
  destruct (is_empty _); [intros H; inversion H; now left|].
  match goal with
  | |- Py.bind ?m _ = _ -> _ => destruct m as [zp|e]
  end; cbn [Py.bind]; [|discriminate].
  destruct (negb _); [discriminate|].
  intros H. inversion H. right. eauto.
Qed.

(** * Further properties of the code *)

(** ** Competition calendar: how the three functions fit together *)

(** The week a day of the competition falls in, as the three calendar
    functions see it. *)
Lemma week_of_day (today : Date.date) :
  COMPETITION_START <= today <= COMPETITION_END ->
  exists w,
    nth_error get_competition_week_dates
      (Z.to_nat (fst (get_current_competition_week today) - 1)) = Some w
    /\ week w = fst (get_current_competition_week today)
    /\ (week_start w, week_end w) = get_current_competition_week_dates today
    /\ week_start w <= today <= week_end w.
Proof.
  intros H.
  unfold get_current_competition_week, get_current_competition_week_dates.
  rewrite COMPETITION_START_ord, COMPETITION_END_ord in *.
  unfold COMPETITION_WEEKS.
  destruct (Z.ltb_spec today 739474); [lia|].
  destruct (Z.ltb_spec 739529 today); [lia|].
  cbn [orb].
  assert (Hk8 : exists k, k = (today - 739474) / 7
                          /\ (k = 0 \/ k = 1 \/ k = 2 \/ k = 3 \/ k = 4
                              \/ k = 5 \/ k = 6 \/ k = 7)).
  { eexists. split; [reflexivity|].
    Z.to_euclidean_division_equations; lia. }
  destruct Hk8 as (k & Hk & Hk8). rewrite <- Hk.
  assert (Hd : 739474 + 7 * k <= today <= 739474 + 7 * k + 6)
    by (subst k; Z.to_euclidean_division_equations; lia).
  clear Hk.
  repeat (destruct Hk8 as [-> | Hk8]); try subst k;
    match goal with
    | |- exists w, nth_error ?l ?n = Some w /\ _ =>
        let r := eval vm_compute in (nth_error l n) in
        match r with
        | Some ?w0 => exists w0
        end
    end;
    (split; [reflexivity|]; split; [reflexivity|]; split; [reflexivity|];
     cbn [week_start week_end]; lia).
Qed.

(** X1: on every day of the competition the week number the status
    function reports names the entry of the week list whose bounds are
    the ones the current-week-bounds function returns. *)
Theorem current_week_is_listed (today : Date.date) :
  COMPETITION_START <= today <= COMPETITION_END ->
  let n := fst (get_current_competition_week today) in
  option_map (fun w => (week w, (week_start w, week_end w)))
    (nth_error get_competition_week_dates (Z.to_nat (n - 1)))
  = Some (n, get_current_competition_week_dates today).
Proof.
  intros H. cbv zeta.
  destruct (week_of_day today H) as (w & -> & Hn & Hb & _).
  cbn [option_map]. now rewrite Hn, Hb.
Qed.

Lemma current_week_is_listed_witness :
  option_map (fun w => (week w, (week_start w, week_end w)))
    (nth_error get_competition_week_dates 3)
  = Some (4, (739495, 739501)).
Proof.
  exact (current_week_is_listed 739500 ltac:(split; discriminate)).
Defined.

Lemma weeks_disjoint (ws : list week_entry) (w1 w2 : week_entry) (d : Date.date) :
  increasing_weeks ws ->
  In w1 ws -> In w2 ws ->
  week_start w1 <= d <= week_end w1 ->
  week_start w2 <= d <= week_end w2 ->
  w1 = w2.
Proof.
  unfold increasing_weeks. intros Hs. induction Hs as [|w ws Hs IH Hw].
  - intros [].
  - rewrite Forall_forall in Hw.
    intros [<-|H1] [<-|H2] Hd1 Hd2; try reflexivity.
    + specialize (Hw w2 H2). lia.
    + specialize (Hw w1 H1). lia.
    + now apply IH.
Qed.

(** X2: the weeks of the list split the competition window: a date lies
    in some week exactly when it lies in the window, and then in one
    week only. *)
Theorem weeks_partition_window (d : Date.date) :
  (COMPETITION_START <= d <= COMPETITION_END <->
   exists w, In w get_competition_week_dates
             /\ week_start w <= d <= week_end w)
  /\ (forall w1 w2,
        In w1 get_competition_week_dates -> In w2 get_competition_week_dates ->
        week_start w1 <= d <= week_end w1 ->
        week_start w2 <= d <= week_end w2 -> w1 = w2).
Proof.
  split; [split|].
  - intros H. destruct (week_of_day d H) as (w & E & _ & _ & Hd).
    exists w. split; [eapply nth_error_In, E|exact Hd].
  - intros (w & Hin & Hd).
    pose proof (week_loop_bounds COMPETITION_END
                  (Py.range 1 (COMPETITION_WEEKS + 1)) COMPETITION_START) as Hb.
    rewrite Forall_forall in Hb. specialize (Hb w Hin). lia.
  - intros w1 w2. apply weeks_disjoint. apply week_loop_increasing.
Qed.

(** X3: whatever the day, the bounds returned are a Monday and the
    Sunday six days later; with this configuration the clipping to the
    competition end never shortens a week. *)
Theorem current_week_dates_monday_to_sunday (today : Date.date) :
  let monday := fst (get_current_competition_week_dates today) in
  let sunday := snd (get_current_competition_week_dates today) in
  Date.weekday monday = 0 /\ sunday = monday + 6 /\ Date.weekday sunday = 6.
Proof.
  unfold get_current_competition_week_dates, Date.weekday.
  calendar_cases; Z.to_euclidean_division_equations; lia.
Qed.

(** ** Record normaliser: unwrapping *)

Lemma append_cons (c : ascii) (s t : string) :
  (String c s ++ t)%string = String c (s ++ t)%string.
Proof. reflexivity. Qed.

Lemma length_append (s t : string) :
  String.length (s ++ t) = (String.length s + String.length t)%nat.
Proof.
  induction s as [|c s IH]; [reflexivity|].
  rewrite append_cons. cbn [String.length]. now rewrite IH.
Qed.

Lemma substring_take (s t : string) :
  String.substring 0 (String.length s) (s ++ t) = s.
Proof.
  induction s as [|c s IH].
  - cbn [String.length]. now destruct (EmptyString ++ t)%string.
  - rewrite append_cons. cbn [String.length String.substring]. now rewrite IH.
Qed.

Lemma substring_skip (p s : string) (m : nat) :
  String.substring (String.length p) m (p ++ s) = String.substring 0 m s.
Proof.
  induction p as [|c p IH]; [reflexivity|].
  rewrite append_cons. cbn [String.length String.substring]. exact IH.
Qed.

Lemma startswith_append (p s : string) : Py.startswith (p ++ s) p = true.
Proof.
  unfold Py.startswith. induction p as [|c p IH].
  - now destruct (EmptyString ++ s)%string.
  - rewrite append_cons. cbn [String.prefix].
    destruct (Ascii.ascii_dec c c); [exact IH|contradiction].
Qed.

Lemma endswith_append (s p : string) : Py.endswith (s ++ p) p = true.
Proof.
  unfold Py.endswith. rewrite length_append.
  replace (String.length s + String.length p - String.length p)%nat
    with (String.length s) by lia.
  rewrite substring_skip, substring_all, String.eqb_refl.
  apply andb_true_iff. split; [|reflexivity]. apply Nat.leb_le. lia.
Qed.

Lemma append_assoc (p x q : string) :
  (p ++ x ++ q)%string = ((p ++ x) ++ q)%string.
Proof.
  induction p as [|c p IH]; [reflexivity|].
  rewrite !append_cons. now rewrite IH.
Qed.

(** The three tests and the slice on a wrapped value *)
Lemma wrapped_value (p x q : string) :
  Py.startswith (p ++ x ++ q) p = true
  /\ Py.endswith (p ++ x ++ q) q = true
  /\ Py.slice (String.length p) (String.length q) (p ++ x ++ q) = x.
Proof.
  split; [apply startswith_append|]. split.
  - rewrite append_assoc. apply endswith_append.
  - unfold Py.slice. rewrite !length_append.
    replace (String.length p + (String.length x + String.length q)
             - String.length q - String.length p)%nat
      with (String.length x) by lia.
    rewrite substring_skip. apply substring_take.
Qed.

Lemma startswith_root_skip (x q : string) :
  Py.startswith ("root=" ++ x) ("root=" ++ q) = Py.startswith x q.
Proof.
  unfold Py.startswith. rewrite !append_cons. cbn [String.prefix].
  repeat (destruct (Ascii.ascii_dec _ _); [|contradiction]).
  reflexivity.
Qed.

(** The renaming [clean_field] ends with *)
Lemma clean_field_remap (cleaned : string) :
  (if String.eqb cleaned "Ride" then Some "Peloton"%string
   else if String.eqb cleaned "Run" then Some "Run"%string
   else Some cleaned)
  = Some (if String.eqb cleaned "Ride" then "Peloton"%string else cleaned).
Proof.
  destruct (String.eqb_spec cleaned "Ride"); [reflexivity|].
  destruct (String.eqb_spec cleaned "Run"); [now subst|reflexivity].
Qed.

(** X4: [clean_field] recovers the inner value of each wrapper form:
    [root='x'] and the double-quoted form for every [x], [root=x] when
    [x] does not begin with a quote, and a string without the [root=]
    prefix is taken as it is; the value recovered is then renamed
    (Ride to Peloton, anything else unchanged). *)
Theorem clean_field_unwraps (x : string) :
  let renamed := if String.eqb x "Ride" then "Peloton"%string else x in
  clean_field (Some ("root=" ++ Py.squote ++ x ++ Py.squote)%string)
  = Some renamed
  /\ clean_field (Some ("root=" ++ Py.dquote ++ x ++ Py.dquote)%string)
     = Some renamed
  /\ (Py.startswith x Py.squote = false ->
      Py.startswith x Py.dquote = false ->
      clean_field (Some ("root=" ++ x)%string) = Some renamed)
  /\ (Py.startswith x "root=" = false -> clean_field (Some x) = Some renamed).
Proof.
  cbv zeta. unfold clean_field. repeat split.
  - destruct (wrapped_value ("root=" ++ Py.squote) x Py.squote) as (A & B & C).
    change (("root=" ++ Py.squote) ++ x ++ Py.squote)%string
      with ("root=" ++ Py.squote ++ x ++ Py.squote)%string in A, B, C.
    change (String.length ("root=" ++ Py.squote)) with 6%nat in C.
    change (String.length Py.squote) with 1%nat in C.
    rewrite A, B, C. apply clean_field_remap.
  - destruct (wrapped_value ("root=" ++ Py.dquote) x Py.dquote) as (A & B & C).
    change (("root=" ++ Py.dquote) ++ x ++ Py.dquote)%string
      with ("root=" ++ Py.dquote ++ x ++ Py.dquote)%string in A, B, C.
    change (String.length ("root=" ++ Py.dquote)) with 6%nat in C.
    change (String.length Py.dquote) with 1%nat in C.
    replace (Py.startswith ("root=" ++ Py.dquote ++ x ++ Py.dquote)
               ("root=" ++ Py.squote)) with false by reflexivity.
    cbn [andb]. rewrite A, B, C. apply clean_field_remap.
  - intros Hs Hd.
    assert (Hsl : Py.slice_from 5 ("root=" ++ x) = x).
    { change 5%nat with (String.length "root="). unfold Py.slice_from.
      rewrite length_append.
      replace (String.length "root=" + String.length x
               - String.length "root=")%nat
        with (String.length x) by lia.
      now rewrite substring_skip, substring_all. }
    rewrite !startswith_root_skip, Hs, Hd, (startswith_append "root=" x), Hsl.
    cbn [andb]. rewrite Hs, Hd. cbn [andb]. apply clean_field_remap.
  - intros Hr.
    destruct (Py.startswith x ("root=" ++ Py.squote)) eqn:H1.
    { apply (startswith_root_quote "039") in H1. congruence. }
    destruct (Py.startswith x ("root=" ++ Py.dquote)) eqn:H2.
    { apply (startswith_root_quote "034") in H2. congruence. }
    rewrite Hr. cbn [andb]. apply clean_field_remap.
Qed.

Lemma clean_field_unwraps_witness :
  clean_field (Some "root=VirtualRide"%string) = Some "VirtualRide"%string
  /\ clean_field (Some "Ride"%string) = Some "Peloton"%string.
Proof.
  split.
  - exact (proj1 (proj2 (proj2 (clean_field_unwraps "VirtualRide")))
             eq_refl eq_refl).
  - exact (proj2 (proj2 (proj2 (clean_field_unwraps "Ride"))) eq_refl).
Defined.

Lemma clean_field_never_ride_aux (value : option string) :
  clean_field value <> Some "Ride"%string.
Proof.
  destruct value as [value|]; [|discriminate].
  unfold clean_field.
  match goal with
  | |- (if String.eqb ?c "Ride" then _ else _) <> _ => generalize c
  end.
  intros cleaned.
  destruct (String.eqb_spec cleaned "Ride"); [discriminate|].
  destruct (String.eqb_spec cleaned "Run"); [discriminate|].
  congruence.
Qed.

(** X5: whatever it is given, [clean_field] never answers Ride, and it
    answers a null only for a null. *)
Theorem clean_field_never_ride (value : option string) :
  clean_field value <> Some "Ride"%string
  /\ (clean_field value = None <-> value = None).
Proof.
  split; [apply clean_field_never_ride_aux|].
  destruct value as [value|]; [|tauto].
  split; [|discriminate]. unfold clean_field.
  match goal with
  | |- (if String.eqb ?c "Ride" then _ else _) = _ -> _ => generalize c
  end.
  intros cleaned.
  destruct (String.eqb cleaned "Ride"); [discriminate|].
  destruct (String.eqb cleaned "Run"); discriminate.
Qed.

(** ** Fetching: what the two frames hold *)

Lemma filter_of_map {A B : Type} (p : B -> bool) (f : A -> B) (l : list A) :
  List.filter p (map f l) = map f (List.filter (fun x => p (f x)) l).
Proof.
  induction l as [|x l IH]; cbn; [reflexivity|].
  destruct (p (f x)); cbn; now rewrite IH.
Qed.

(** The activities frame, one step per fetched record. *)
Lemma fetched_activities_rows (response_data : list Store.activity) :
  rows (fetch_activities_by_date_range response_data)
  = List.filter (fun r => cell_ne (Act.sport_type r) "Tennis")
      (map (fun x =>
              let s := clean_field (Store.sport_type x) in
              Act.mk_row (Store.id x) (Store.athlete_id x)
                (clean_field (Store.name x))
                (if cell_eq s "Peloton" && cell_gt0 (Store.total_elevation_gain x)
                 then Some "Bike"%string else s)
                (Store.start_date x) (Store.distance x) (Store.moving_time x)
                (Store.total_elevation_gain x)
                match Store.athletes x with
                | Some a => (firstname a ++ " " ++ lastname a)%string
                | None => "Unknown"%string
                end)
         response_data).
Proof.
  unfold fetch_activities_by_date_range.
  destruct response_data as [|y data]; [reflexivity|].
  generalize (y :: data). intros l. cbn [rows].
  rewrite !map_map. f_equal. apply map_ext. intros x.
  cbn [Act.sport_type Act.total_elevation_gain Act.id Act.athlete_id Act.name
       Act.start_date Act.distance Act.moving_time Act.athlete_name].
  cbv zeta.
  destruct (cell_eq (clean_field (Store.sport_type x)) "Peloton"
            && cell_gt0 (Store.total_elevation_gain x)); reflexivity.
Qed.

Lemma not_tennis_after_bike (s : option string) (gain : option Q) :
  cell_ne (if cell_eq s "Peloton" && cell_gt0 gain
           then Some "Bike"%string else s) "Tennis"
  = cell_ne s "Tennis".
Proof.
  destruct (cell_eq s "Peloton" && cell_gt0 gain) eqn:E; [|reflexivity].
  apply andb_true_iff in E. destruct E as [E _].
  unfold cell_ne. unfold cell_eq in E |- *.
  destruct s as [v|]; [|discriminate].
  apply String.eqb_eq in E. now subst v.
Qed.

(** X6: the activities frame holds, in the order fetched, exactly the
    fetched activities whose cleaned sport type is not Tennis; no other
    record is dropped. *)
Theorem fetched_activities_ids (response_data : list Store.activity) :
  map Act.id (rows (fetch_activities_by_date_range response_data))
  = map Store.id
      (List.filter
         (fun x => cell_ne (clean_field (Store.sport_type x)) "Tennis")
         response_data).
Proof.
  rewrite fetched_activities_rows, filter_of_map, map_map.
  cbv zeta. cbn [Act.sport_type Act.id].
  f_equal. apply filter_ext. intros x. apply not_tennis_after_bike.
Qed.

(** X7: no record of the activities frame is a Tennis or a Ride record,
    and none is a Peloton record with elevation gained: those are Bike. *)
Theorem fetched_activities_sport_types (response_data : list Store.activity)
    (r : Act.row) :
  In r (rows (fetch_activities_by_date_range response_data)) ->
  Act.sport_type r <> Some "Tennis"%string
  /\ Act.sport_type r <> Some "Ride"%string
  /\ (Act.sport_type r = Some "Peloton"%string ->
      cell_gt0 (Act.total_elevation_gain r) = false).
Proof.
  rewrite fetched_activities_rows. intros H.
  apply filter_In in H. destruct H as [H Hten].
  apply in_map_iff in H. destruct H as (x & <- & _).
  cbv zeta in *. cbn [Act.sport_type Act.total_elevation_gain] in *.
  split.
  { intros Ht. rewrite Ht in Hten. discriminate. }
  clear Hten.
  destruct (cell_eq (clean_field (Store.sport_type x)) "Peloton"
            && cell_gt0 (Store.total_elevation_gain x)) eqn:E.
  - split; discriminate.
  - split; [apply clean_field_never_ride_aux|].
    intros Hp. rewrite Hp in E. cbn in E. exact E.
Qed.

Lemma fetched_activities_sport_types_witness :
  let x := Store.mk_activity 5 (Some 7) (Some "Evening"%string)
             (Some "root='Ride'"%string) (mk_ts 739474 0) None None
             (Some 120%Q) (Some (mk_athlete "Ann" "Lee")) in
  let r := Act.mk_row 5 (Some 7) (Some "Evening"%string) (Some "Bike"%string)
             (mk_ts 739474 0) None None (Some 120%Q) "Ann Lee" in
  Act.sport_type r <> Some "Tennis"%string
  /\ Act.sport_type r <> Some "Ride"%string
  /\ (Act.sport_type r = Some "Peloton"%string ->
      cell_gt0 (Act.total_elevation_gain r) = false).
Proof.
  intros x r.
  apply (fetched_activities_sport_types [x] r). left. reflexivity.
Defined.

(** X8: the heart-rate-zone frame holds at most one record per activity
    identifier, every record in it has an athlete name, and none has the
    sport type Tennis. *)
Theorem fetched_zones_invariant (response_data : list Store.hr_zone) :
  NoDup (map HR.activity_id
           (rows (fetch_heart_rate_zones_by_date response_data)))
  /\ Forall (fun r => (exists name, HR.athlete_name r = Some name)
                      /\ HR.sport_type r <> Some "Tennis"%string)
       (rows (fetch_heart_rate_zones_by_date response_data)).
Proof.
  split; [apply fetched_zones_unique|].
  apply Forall_forall. intros r.
  unfold fetch_heart_rate_zones_by_date.
  destruct response_data as [|x data]; [intros []|].
  generalize (x :: data). intros l. cbn [rows columns]. intros H.
  assert (H' : In r (List.filter (fun r => cell_ne (HR.sport_type r) "Tennis")
                       (List.filter (fun r => notna (HR.athlete_name r))
                          (map flatten_hr_row l)))).
  { destruct (_ && _) in H; cbn [rows] in H; [|exact H].
    eapply drop_duplicates_incl, H. }
  apply filter_In in H'. destruct H' as [H' Hten].
  apply filter_In in H'. destruct H' as [_ Hn].
  split.
  - destruct (HR.athlete_name r) as [name|]; [now exists name|discriminate].
  - intros Ht. rewrite Ht in Hten. discriminate.
Qed.

(** ** Scoring engine: errors, athletes, duplicates *)

(** The result depends on the frame only through its columns and its
    scored records. *)
Lemma calculate_hr_zone_points_normal (df : frame HR.row) :
  calculate_hr_zone_points df
  = if negb (has_column "athlete_name" df) then Py.Ok []
    else match scored_rows df with
         | [] => Py.Ok []
         | _ =>
             zone_points <- zone_points_column df ;;
             if negb (has_column "activity_id" df) then Py.Raise Py.KeyError
             else Py.Ok (Pd.sort_values_desc Qle_bool Points.zone_points
                           (groupby_agg zone_points (agg_zone_columns df)
                              (scored_rows df)))
         end.
Proof.
  unfold calculate_hr_zone_points, scored_rows.
  destruct (has_column "athlete_name" df) eqn:Hname; cbn [negb];
    [|now rewrite orb_true_r].
  rewrite orb_false_r.
  assert (Hcols : columns df <> []).
  { unfold has_column in Hname. now destruct (columns df). }
  unfold is_empty at 1.
  destruct (columns df) as [|c cols] eqn:Ec; [contradiction|]. rewrite <- Ec.
  destruct (rows df) as [|r0 rs] eqn:Er; [reflexivity|]. rewrite <- Er.
  set (l := List.filter _ (rows df)).
  unfold is_empty. cbn [columns rows]. rewrite Ec. rewrite <- Ec.
  destruct l as [|a l'] eqn:El; [reflexivity|]. rewrite <- El.
  assert (Hne : Pd.drop_duplicates option_Z_eqb HR.activity_id l <> []).
  { rewrite El. unfold Pd.drop_duplicates. cbn. discriminate. }
  destruct (Pd.drop_duplicates option_Z_eqb HR.activity_id l) as [|s ss] eqn:Es;
    [contradiction|]. rewrite <- Es.
  change (has_column "activity_id" (mk_frame (columns df) l))
    with (has_column "activity_id" df).
  destruct (has_column "activity_id" df) eqn:Hid.
  - match goal with
    | |- context [match ?d with [] => ?a | _ :: _ => ?b end] =>
        replace (match d with [] => a | _ :: _ => b end) with b
    end.
    + change (zone_points_column (mk_frame (columns df) ?x))
        with (zone_points_column df).
      destruct (zone_points_column df); cbn [Py.bind]; [|reflexivity].
      change (has_column "activity_id" (mk_frame (columns df) ?x))
        with (has_column "activity_id" df).
      rewrite Hid. reflexivity.
    + destruct (Pd.duplicated_all option_Z_eqb HR.activity_id l) eqn:E;
        [|reflexivity].
      f_equal. apply (drop_dups_from_nodup _ _ option_Z_eqb_eq).
      * now apply (duplicated_all_nil _ _ option_Z_eqb_eq).
      * intros k _ [].
  - change (zone_points_column (mk_frame (columns df) ?x))
      with (zone_points_column df).
    destruct (zone_points_column df); cbn [Py.bind]; [|reflexivity].
    change (has_column "activity_id" (mk_frame (columns df) ?x))
      with (has_column "activity_id" df).
    rewrite Hid. reflexivity.
Qed.

Lemma zone_points_column_result (df : frame HR.row) :
  match zone_points_column df with
  | Py.Ok _ => has_zone_columns df = true
  | Py.Raise e => e = Py.AttributeError /\ has_zone_columns df = false
  end.
Proof.
  unfold zone_points_column, get_zone_column, has_zone_columns.
  cbn [forallb fst snd].
  destruct (has_column "zone_1_seconds" df), (has_column "zone_1_time" df),
    (has_column "zone_2_seconds" df), (has_column "zone_2_time" df),
    (has_column "zone_3_seconds" df), (has_column "zone_3_time" df),
    (has_column "zone_4_seconds" df), (has_column "zone_4_time" df),
    (has_column "zone_5_seconds" df), (has_column "zone_5_time" df);
    cbn; auto.
Qed.

(** X9: when the engine answers and when it raises.  Without the
    athlete-name column, or without a record that has a name, the answer
    is the empty frame.  Otherwise a zone absent in both spellings raises
    AttributeError, else a missing activity_id column raises KeyError,
    else there is an answer. *)
Theorem scoring_errors (df : frame HR.row) :
  (has_column "athlete_name" df = false \/ scored_rows df = [] ->
   calculate_hr_zone_points df = Py.Ok [])
  /\ (has_column "athlete_name" df = true -> scored_rows df <> [] ->
      (has_zone_columns df = false ->
       calculate_hr_zone_points df = Py.Raise Py.AttributeError)
      /\ (has_zone_columns df = true ->
          has_column "activity_id" df = false ->
          calculate_hr_zone_points df = Py.Raise Py.KeyError)
      /\ (has_zone_columns df = true ->
          has_column "activity_id" df = true ->
          exists out, calculate_hr_zone_points df = Py.Ok out)).
Proof.
  rewrite calculate_hr_zone_points_normal.
  pose proof (zone_points_column_result df) as Hz.
  split.
  - intros [-> | ->]; [reflexivity|].
    now destruct (negb (has_column "athlete_name" df)).
  - intros -> Hne. cbn [negb].
    destruct (scored_rows df) as [|r l]; [contradiction|].
    destruct (zone_points_column df) as [zp|e]; cbn [Py.bind].
    + repeat split; intros; try congruence.
      * now rewrite H0.
      * rewrite H0. cbn [negb]. eauto.
    + destruct Hz as [-> Hz]. repeat split; intros; congruence.
Qed.

Lemma scoring_errors_witness :
  let r := HR.mk_row (Some 1) (Some 600%Q) None None None None
             None None None None None
             None (Some "Ann Lee"%string) None None None in
  calculate_hr_zone_points
    (mk_frame ["athlete_name"; "zone_1_seconds"; "zone_2_seconds";
               "zone_3_seconds"; "zone_4_seconds"; "zone_5_seconds"]%string [r])
  = Py.Raise Py.KeyError
  /\ calculate_hr_zone_points (mk_frame ["activity_id"]%string [r]) = Py.Ok [].
Proof.
  intros r. split.
  - apply (proj2 (scoring_errors _)); [reflexivity|discriminate| |];
      reflexivity.
  - apply (proj1 (scoring_errors _)). left. reflexivity.
Defined.

Lemma StronglySorted_NoDup {A : Type} (T : A -> A -> Prop) (l : list A) :
  (forall a, ~ T a a) -> StronglySorted T l -> NoDup l.
Proof.
  intros Hirr H. induction H as [|a l Hl IH Ha]; constructor; [|exact IH].
  intros Hin. rewrite Forall_forall in Ha. exact (Hirr a (Ha a Hin)).
Qed.

Lemma group_keys_NoDup (l : list HR.row) : NoDup (group_keys l).
Proof.
  eapply StronglySorted_NoDup; [|apply group_keys_sorted].
  intros a. cbn beta. unfold String.ltb.
  pose proof (String.compare_antisym a a) as H.
  destruct (String.compare a a); cbn in H; congruence.
Qed.

Lemma scored_athletes (df : frame HR.row) (out : list Points.row) :
  calculate_hr_zone_points df = Py.Ok out ->
  NoDup (map Points.athlete_name out)
  /\ forall athlete,
       In athlete (map Points.athlete_name out) <->
       has_column "athlete_name" df = true
       /\ In (Some athlete) (map HR.athlete_name (scored_rows df)).
Proof.
  rewrite calculate_hr_zone_points_normal.
  destruct (has_column "athlete_name" df); cbn [negb].
  2:{ intros H. inversion H. split; [constructor|].
      intros a. cbn. split; [intros []|intros [? _]; discriminate]. }
  destruct (scored_rows df) as [|r l] eqn:E.
  { intros H. inversion H. split; [constructor|].
    intros a. cbn. tauto. }
  rewrite <- E. clear E r l.
  destruct (zone_points_column df) as [zp|e]; cbn [Py.bind]; [|discriminate].
  destruct (negb (has_column "activity_id" df)); [discriminate|].
  intros H. inversion H as [Hout]. clear H Hout.
  set (agg := groupby_agg _ _ _).
  assert (Hnames : map Points.athlete_name agg = group_keys (scored_rows df)).
  { subst agg. unfold groupby_agg. rewrite map_map. cbn [Points.athlete_name].
    apply map_id. }
  pose proof (Permutation_map Points.athlete_name
                (sort_values_desc_perm Qle_bool Points.zone_points agg)) as Hp.
  rewrite Hnames in Hp. split.
  - eapply Permutation_NoDup; [symmetry; exact Hp|apply group_keys_NoDup].
  - intros a. rewrite <- group_keys_In. split.
    + intros Hin. split; [reflexivity|]. eapply Permutation_in; eassumption.
    + intros [_ Hin]. eapply Permutation_in; [symmetry; exact Hp|exact Hin].
Qed.

(** X10: an answer has one row per athlete, and its athletes are exactly
    those with a scored record. *)
Theorem one_row_per_athlete (df : frame HR.row) (out : list Points.row) :
  calculate_hr_zone_points df = Py.Ok out ->
  NoDup (map Points.athlete_name out)
  /\ forall athlete,
       In athlete (map Points.athlete_name out) <->
       has_column "athlete_name" df = true
       /\ In (Some athlete) (map HR.athlete_name (scored_rows df)).
Proof.
  apply scored_athletes.
Qed.

Lemma one_row_per_athlete_witness :
  let cols := ["athlete_name"; "activity_id"; "zone_1_seconds";
               "zone_2_seconds"; "zone_3_seconds"; "zone_4_seconds";
               "zone_5_seconds"]%string in
  let r id name :=
    HR.mk_row (Some id) (Some 600%Q) None None None None None None None None
      None None (Some name) None None None in
  let df := mk_frame cols [r 1 "Zed"%string; r 2 "Amy"%string;
                           r 3 "Zed"%string] in
  exists out,
    calculate_hr_zone_points df = Py.Ok out
    /\ NoDup (map Points.athlete_name out).
Proof.
  intros cols r df. eexists. split; [reflexivity|].
  apply (one_row_per_athlete df). reflexivity.
Defined.

Lemma drop_dups_from_app_dup {R K : Type} (eqb : K -> K -> bool)
    (key : R -> K) (seen : list K) (l : list R) (r : R) :
  (forall a b, eqb a b = true <-> a = b) ->
  In (key r) seen \/ In (key r) (map key l) ->
  Pd.drop_dups_from eqb key seen (l ++ [r]) = Pd.drop_dups_from eqb key seen l.
Proof.
  intros Heq. revert seen. induction l as [|a l IH]; intros seen H; cbn.
  - destruct H as [H|[]].
    now rewrite (proj2 (seen_spec eqb Heq (key r) seen) H).
  - destruct (existsb (eqb (key a)) seen) eqn:E.
    + apply IH. destruct H as [H|[H|H]]; auto.
      left. apply (seen_spec eqb Heq). now rewrite <- H.
    + f_equal. apply IH. destruct H as [H|[H|H]]; cbn; auto.
Qed.

(** X11: a further record for an activity that a named record of the
    frame already carries changes nothing in the result, be it an answer
    or an error: duplicates do not inflate the points. *)
Theorem duplicate_record_changes_nothing (df : frame HR.row) (r : HR.row) :
  In (HR.activity_id r)
    (map HR.activity_id
       (List.filter (fun r => notna (HR.athlete_name r)) (rows df))) ->
  calculate_hr_zone_points (mk_frame (columns df) (rows df ++ [r]))
  = calculate_hr_zone_points df.
Proof.
  intros Hin.
  assert (Hs : scored_rows (mk_frame (columns df) (rows df ++ [r]))
               = scored_rows df).
  { unfold scored_rows, Pd.drop_duplicates. cbn [rows].
    rewrite filter_app. cbn [List.filter].
    destruct (notna (HR.athlete_name r)); [|now rewrite app_nil_r].
    apply (drop_dups_from_app_dup _ _ _ _ _ option_Z_eqb_eq). now right. }
  rewrite !calculate_hr_zone_points_normal, Hs. reflexivity.
Qed.

Lemma duplicate_record_changes_nothing_witness :
  let cols := ["athlete_name"; "activity_id"; "zone_1_seconds";
               "zone_2_seconds"; "zone_3_seconds"; "zone_4_seconds";
               "zone_5_seconds"]%string in
  let r z1 :=
    HR.mk_row (Some 1) (Some z1) None None None None None None None None
      None None (Some "Ann Lee"%string) None None None in
  calculate_hr_zone_points (mk_frame cols [r 600%Q; r 900%Q])
  = calculate_hr_zone_points (mk_frame cols [r 600%Q]).
Proof.
  intros cols r.
  apply (duplicate_record_changes_nothing (mk_frame cols [r 600%Q]) (r 900%Q)).
  left. reflexivity.
Defined.


Lemma fetched_zones_columns (response_data : list Store.hr_zone) :
  response_data <> [] ->
  columns (fetch_heart_rate_zones_by_date response_data) = HR.column_names.
Proof.
  unfold fetch_heart_rate_zones_by_date.
  destruct response_data as [|x data]; [contradiction|]. intros _.
  generalize (x :: data). intros l.
  match goal with
  | |- columns (if ?c then _ else _) = _ => destruct c
  end; reflexivity.
Qed.


(** ** Streak calculator: keys and bounds *)

Lemma streaks_fold_lookup_None (f : string -> Z) (names : list string)
    (streaks : gmap string Z) (athlete : string) :
  ~ In athlete names ->
  fold_left (fun streaks athlete => <[athlete := f athlete]> streaks)
    names streaks !! athlete = streaks !! athlete.
Proof.
  revert streaks. induction names as [|x names IH]; intros m Hn; [reflexivity|].
  cbn [fold_left]. rewrite IH.
  - apply lookup_insert_ne. intros ->. apply Hn. now left.
  - intros H. apply Hn. now right.
Qed.

Lemma streak_loop_bounds (dates : list Date.date) (current_streak expected_date : Z) :
  current_streak <= streak_loop dates current_streak expected_date
  <= current_streak + Z.of_nat (List.length dates).
Proof.
  revert current_streak expected_date.
  induction dates as [|d ds IH]; intros c e; cbn [streak_loop List.length].
  - lia.
  - destruct (d =? e); [|lia]. specialize (IH (c + 1) (e - 1)). lia.
Qed.

Lemma drop_dups_from_length {R K : Type} (eqb : K -> K -> bool) (key : R -> K)
    (seen : list K) (l : list R) :
  (List.length (Pd.drop_dups_from eqb key seen l) <= List.length l)%nat.
Proof.
  revert seen. induction l as [|a l IH]; intros seen; cbn; [lia|].
  destruct (existsb (eqb (key a)) seen); cbn.
  - specialize (IH seen). lia.
  - specialize (IH (key a :: seen)). lia.
Qed.

Lemma athlete_streak_bounds (l : list Act.row) (today : Date.date)
    (athlete : string) :
  0 <= athlete_streak l today athlete
  <= Z.of_nat (List.length
                 (List.filter
                    (fun r => String.eqb (Act.athlete_name r) athlete) l)).
Proof.
  unfold athlete_streak.
  set (dates := map Act.date _).
  assert (Hlen : (List.length
                    (Pd.sort_values_desc Z.leb (fun d => d)
                       (Pd.drop_duplicates Z.eqb (fun d => d) dates))
                  <= List.length dates)%nat).
  { rewrite (Permutation_length (sort_values_desc_perm _ _ _)).
    apply drop_dups_from_length. }
  unfold dates in Hlen at 2. rewrite length_map in Hlen.
  destruct (Pd.sort_values_desc _ _ _) as [|latest rest]; [lia|].
  cbn [List.length] in Hlen.
  destruct (1 <? today - latest); [lia|].
  pose proof (streak_loop_bounds rest 1 (latest - 1)).
  unfold Date.date in *. lia.
Qed.

(** X13: the call raises KeyError exactly when the frame is not empty
    and has no start_date column.  Otherwise the dictionary returned has
    a key for exactly the athlete names of the frame (none when the frame
    is empty or has no athlete-name column), and a streak is never
    negative and never longer than the number of activity records of its
    athlete. *)
Theorem streaks_keys_and_bounds (activities_df : frame Act.row)
    (today : Date.date) :
  match calculate_athlete_streaks activities_df today with
  | Py.Raise e =>
      e = Py.KeyError
      /\ is_empty activities_df = false
      /\ has_column "start_date" activities_df = false
  | Py.Ok streaks =>
      (is_empty activities_df = true
       \/ has_column "start_date" activities_df = true)
      /\ forall athlete,
           match streaks !! athlete with
           | Some streak =>
               has_column "athlete_name" activities_df = true
               /\ In athlete (map Act.athlete_name (rows activities_df))
               /\ 0 <= streak
                  <= Z.of_nat
                       (List.length
                          (List.filter
                             (fun r => String.eqb (Act.athlete_name r) athlete)
                             (rows activities_df)))
           | None =>
               has_column "athlete_name" activities_df = false
               \/ ~ In athlete (map Act.athlete_name (rows activities_df))
           end
  end.
Proof.
  unfold calculate_athlete_streaks.
  destruct (is_empty activities_df) eqn:He.
  { split; [now left|]. intros athlete. rewrite lookup_empty.
    unfold is_empty, has_column in *.
    destruct (columns activities_df); [now left|].
    destruct (rows activities_df); [now right|discriminate]. }
  destruct (has_column "start_date" activities_df) eqn:Hdate; cbn [negb];
    [|repeat split].
  destruct (has_column "athlete_name" activities_df) eqn:Hcol; cbn [negb].
  2:{ split; [now right|]. intros athlete. rewrite lookup_empty. now left. }
  split; [now right|]. intros athlete.
  destruct (in_dec string_dec athlete
              (map Act.athlete_name (rows activities_df))) as [Hin|Hn].
  - rewrite (streaks_fold_lookup
               (fun a => athlete_streak (rows activities_df) today a)).
    + split; [reflexivity|]. split; [exact Hin|].
      apply athlete_streak_bounds.
    + pose proof (drop_dups_from_covers String.eqb (fun s : string => s)
                    String.eqb_eq []
                    (map Act.athlete_name (rows activities_df)) athlete)
        as Hc.
      rewrite !map_id in Hc. apply Hc; [exact Hin|intros []].
  - rewrite streaks_fold_lookup_None.
    + rewrite lookup_empty. now right.
    + intros H. apply Hn. eapply drop_duplicates_incl, H.
Qed.

(** ** Weekly aggregator *)

Lemma weekly_athlete_loop_ok (week_info : week_entry)
    (wa : frame Act.row) (index : list Points.row)
    (weekly_data out : list Weekly.row) :
  weekly_athlete_loop week_info wa index weekly_data = Py.Ok out ->
  exists entries,
    out = weekly_data ++ entries
    /\ Forall2 (fun p e => weekly_row week_info wa p = Py.Ok e) index entries.
Proof.
  revert weekly_data. induction index as [|p index IH]; intros acc;
    cbn [weekly_athlete_loop].
  - intros H. inversion H. exists []. split; [now rewrite app_nil_r|constructor].
  - destruct (weekly_row week_info wa p) as [e|x] eqn:E; cbn [Py.bind];
      [|discriminate].
    intros H. apply IH in H. destruct H as (entries & -> & HF).
    exists (e :: entries). split; [now rewrite <- app_assoc|].
    now constructor.
Qed.

(** What one turn of the week loop appends *)
Local Abbreviation week_part hr act :=
  (fun w part =>
     if is_empty (week_hr_data w hr) then part = []
     else exists week_points,
            calculate_hr_zone_points (week_hr_data w hr) = Py.Ok week_points
            /\ Forall2 (fun p e => weekly_row w (week_activities w act) p = Py.Ok e)
                 week_points part).

Lemma weekly_week_loop_ok (weeks : list week_entry) (hr : frame HR.row)
    (act : frame Act.row) (weekly_data out : list Weekly.row) :
  weekly_week_loop weeks hr act weekly_data = Py.Ok out ->
  exists parts,
    out = weekly_data ++ List.concat parts
    /\ Forall2 (week_part hr act) weeks parts.
Proof.
  revert weekly_data. induction weeks as [|w weeks IH]; intros acc;
    cbn [weekly_week_loop].
  - intros H. inversion H. exists []. split; [now rewrite app_nil_r|constructor].
  - cbv zeta. destruct (is_empty (week_hr_data w hr)) eqn:E; cbn [negb Py.bind].
    + intros H. apply IH in H. destruct H as (parts & -> & HF).
      exists ([] :: parts). split; [reflexivity|].
      constructor; [now rewrite E|exact HF].
    + destruct (calculate_hr_zone_points (week_hr_data w hr)) as [pts|x] eqn:Ec;
        cbn [Py.bind]; [|discriminate].
      destruct (weekly_athlete_loop w (week_activities w act) pts acc)
        as [acc'|x] eqn:El; cbn [Py.bind]; [|discriminate].
      apply weekly_athlete_loop_ok in El. destruct El as (entries & -> & HFe).
      intros H. apply IH in H. destruct H as (parts & -> & HF).
      exists (entries :: parts). split; [cbn; now rewrite <- app_assoc|].
      constructor; [rewrite E; eauto|exact HF].
Qed.

(** Every dictionary returned was made for a week of the list and a row of
    that week's scoring. *)
Lemma weekly_rows_origin (weeks : list week_entry) (hr : frame HR.row)
    (act : frame Act.row) (out : list Weekly.row) (e : Weekly.row) :
  weekly_week_loop weeks hr act [] = Py.Ok out ->
  In e out ->
  exists w week_points p,
    In w weeks
    /\ calculate_hr_zone_points (week_hr_data w hr) = Py.Ok week_points
    /\ In p week_points
    /\ weekly_row w (week_activities w act) p = Py.Ok e.
Proof.
  intros H Hin. apply weekly_week_loop_ok in H.
  destruct H as (parts & -> & HF). cbn [app] in Hin.
  induction HF as [|w part weeks parts Hw HF IH]; [destruct Hin|].
  cbn [List.concat] in Hin. apply in_app_or in Hin. destruct Hin as [Hin|Hin].
  - destruct (is_empty (week_hr_data w hr)); [subst part; destruct Hin|].
    destruct Hw as (pts & Hc & HFe).
    assert (Hp : exists p, In p pts
                           /\ weekly_row w (week_activities w act) p = Py.Ok e).
    { clear Hc. induction HFe as [|p e' pts part Hpe HFe IHe]; [destruct Hin|].
      destruct Hin as [<-|Hin].
      - exists p. split; [now left|exact Hpe].
      - destruct (IHe Hin) as (p' & Hp' & He'). exists p'. split; [now right|].
        exact He'. }
    destruct Hp as (p & Hp & He). exists w, pts, p.
    repeat split; [now left|exact Hc|exact Hp|exact He].
  - destruct (IH Hin) as (w' & pts & p & Hw' & Hc & Hp & He).
    exists w', pts, p. repeat split; [now right|exact Hc|exact Hp|exact He].
Qed.

Lemma has_column_with_date {R : Type} (c : string) (df : frame R) :
  c <> "date"%string ->
  has_column c (with_date_column df) = has_column c df.
Proof.
  intros Hc. unfold with_date_column, has_column at 1 3. cbn [columns].
  destruct (has_column "date" df); [reflexivity|].
  rewrite existsb_app. cbn [existsb].
  destruct (String.eqb_spec c "date"); [contradiction|].
  now rewrite !orb_false_r.
Qed.

Lemma zone_name_not_date (suffix : string) :
  ("zone_" ++ suffix)%string <> "date"%string.
Proof.
  change ("zone_" ++ suffix)%string with (String "z" ("one_" ++ suffix)).
  discriminate.
Qed.

(** Adding the [date] column does not change what the engine answers. *)
Lemma scoring_ignores_date_column (df : frame HR.row) (l : list HR.row) :
  calculate_hr_zone_points (mk_frame (columns (with_date_column df)) l)
  = calculate_hr_zone_points (mk_frame (columns df) l).
Proof.
  assert (Hcol : forall c, c <> "date"%string ->
            has_column c (mk_frame (columns (with_date_column df)) l)
            = has_column c (mk_frame (columns df) l)).
  { intros c Hc. exact (has_column_with_date c df Hc). }
  rewrite !calculate_hr_zone_points_normal.
  rewrite (Hcol "athlete_name") by discriminate.
  rewrite (Hcol "activity_id") by discriminate.
  change (scored_rows (mk_frame (columns (with_date_column df)) l))
    with (scored_rows (mk_frame (columns df) l)).
  replace (zone_points_column (mk_frame (columns (with_date_column df)) l))
    with (zone_points_column (mk_frame (columns df) l)).
  2:{ unfold zone_points_column, get_zone_column.
      now rewrite !Hcol by discriminate. }
  replace (agg_zone_columns (mk_frame (columns (with_date_column df)) l))
    with (agg_zone_columns (mk_frame (columns df) l)); [reflexivity|].
  unfold agg_zone_columns. apply flat_map_ext. intros i.
  now rewrite !Hcol by apply zone_name_not_date.
Qed.

Lemma round0_whole (q : Q) : exists z, Pd.round0 q = inject_Z z.
Proof.
  unfold Pd.round0. destruct (_ ?= _)%Q; [destruct (Z.even _)| |]; eauto.
Qed.

Lemma int_of_whole (z : Z) : Py2.int (inject_Z z) = z.
Proof.
  unfold Py2.int. destruct (Qle_bool 0 (inject_Z z));
    [apply Qfloor_Z|apply Qceiling_Z].
Qed.

Lemma miles_of_value {R : Type} (df : frame R) (distance : R -> option Q)
    (l : list R) (m : Q) :
  miles_of df distance l = Py.Ok m ->
  m = match l with
      | [] => 0%Q
      | _ => (Pd.sum (map distance l) / METERS_PER_MILE)%Q
      end.
Proof.
  unfold miles_of. destruct l; [congruence|].
  destruct (has_column "distance" df); congruence.
Qed.

(** The fields of the dictionary made for a row of the scoring *)
Lemma weekly_row_fields (w : week_entry) (wa : frame Act.row)
    (p : Points.row) (e : Weekly.row) :
  weekly_row w wa p = Py.Ok e ->
  Weekly.Week e = ("Week " ++ Py.str (week w))%string
  /\ Weekly.Week_Number e = week w
  /\ Weekly.Athlete e = Points.athlete_name p
  /\ Weekly.Points e = Py2.int (Points.zone_points p)
  /\ Weekly.Activities e
     = Z.of_nat (List.length
                   (List.filter
                      (fun r => String.eqb (Act.athlete_name r)
                                  (Points.athlete_name p)) (rows wa)))
  /\ Weekly.Date_Range e = label w
  /\ Weekly.Cycling_Miles e
     = Py2.round1
         match List.filter
                 (fun r => String.eqb (Act.athlete_name r)
                             (Points.athlete_name p)
                           && cell_isin (Act.sport_type r) cycling_sport_types)
                 (rows wa) with
         | [] => 0%Q
         | cycling => (Pd.sum (map Act.distance cycling) / METERS_PER_MILE)%Q
         end.
Proof.
  unfold weekly_row. cbv zeta.
  destruct (negb (has_column "athlete_name" wa)); [discriminate|].
  destruct (negb (has_column "sport_type" wa)); [discriminate|].
  set (aa := List.filter _ (rows wa)).
  destruct (miles_of wa Act.distance aa) as [m|x] eqn:Em; cbn [Py.bind];
    [|discriminate].
  apply miles_of_value in Em.
  intros H. inversion H. cbn. repeat split. rewrite Em. now destruct aa.
Qed.

(** The points and the count of a row of an answer *)
Lemma scored_points (df : frame HR.row) (out : list Points.row)
    (p : Points.row) :
  calculate_hr_zone_points df = Py.Ok out -> In p out ->
  exists zone_points,
    zone_points_column df = Py.Ok zone_points
    /\ Points.zone_points p
       = Pd.round0 (raw_points zone_points (Points.athlete_name p) df)
    /\ Points.activity_count p
       = Pd.count (map HR.activity_id
                     (rows_of (Points.athlete_name p) (scored_rows df))).
Proof.
  rewrite calculate_hr_zone_points_normal.
  destruct (negb (has_column "athlete_name" df));
    [intros H; inversion H; intros []|].
  destruct (scored_rows df) as [|r l] eqn:E;
    [intros H; inversion H; intros []|].
  rewrite <- E. clear E r l.
  destruct (zone_points_column df) as [zp|x]; cbn [Py.bind]; [|discriminate].
  destruct (negb (has_column "activity_id" df)); [discriminate|].
  intros H Hp. inversion H. subst out. clear H.
  apply (Permutation_in _ (sort_values_desc_perm _ _ _)) in Hp.
  unfold groupby_agg in Hp. apply in_map_iff in Hp.
  destruct Hp as (a & <- & _). exists zp. repeat split.
Qed.

Lemma weekly_performance_ok (hr : frame HR.row) (act : frame Act.row)
    (out : list Weekly.row) :
  calculate_weekly_athlete_performance hr act = Py.Ok out ->
  out = []
  \/ weekly_week_loop get_competition_week_dates (with_date_column hr)
       (with_date_column act) [] = Py.Ok out.
Proof.
  unfold calculate_weekly_athlete_performance.
  destruct (is_empty hr); [intros H; inversion H; now left|].
  cbv zeta.
  destruct (negb (has_column "start_date" hr)); [discriminate|].
  destruct (negb (has_column "start_date" act)); [discriminate|].
  now right.
Qed.

(** X14: a dictionary is returned only for a competition week and an
    athlete with telemetry in it: its week number, name and label are
    those of a week of the list, and some heart-rate-zone record of the
    frame carries its athlete and a date within that week.  An athlete
    who has activities but no such record gets no dictionary. *)
Theorem weekly_rows_have_telemetry (hr_zones_df : frame HR.row)
    (activities_df : frame Act.row) (out : list Weekly.row) (e : Weekly.row) :
  calculate_weekly_athlete_performance hr_zones_df activities_df = Py.Ok out ->
  In e out ->
  exists w,
    In w get_competition_week_dates
    /\ Weekly.Week_Number e = week w
    /\ Weekly.Week e = ("Week " ++ Py.str (week w))%string
    /\ Weekly.Date_Range e = label w
    /\ exists r,
         In r (rows hr_zones_df)
         /\ HR.athlete_name r = Some (Weekly.Athlete e)
         /\ date_between (hr_date r) (week_start w) (week_end w) = true.
Proof.
  intros H Hin. apply weekly_performance_ok in H.
  destruct H as [->|H]; [destruct Hin|].
  destruct (weekly_rows_origin _ _ _ _ _ H Hin)
    as (w & pts & p & Hw & Hc & Hp & He).
  apply weekly_row_fields in He.
  destruct He as (H1 & H2 & H3 & _ & _ & H6 & _).
  exists w. repeat split; try assumption.
  destruct (scored_athletes _ _ Hc) as [_ Hnames].
  destruct (proj1 (Hnames (Points.athlete_name p))) as [_ Hs].
  { now apply in_map. }
  apply in_map_iff in Hs. destruct Hs as (r & Hr & Hrs).
  apply scored_rows_incl in Hrs. cbn [week_hr_data rows with_date_column] in Hrs.
  apply filter_In in Hrs. destruct Hrs as [Hrs Hd].
  exists r. rewrite H3. now repeat split.
Qed.

Lemma weekly_rows_have_telemetry_witness :
  let r := HR.mk_row (Some 1) (Some 600%Q) None None None None
             None None None None None
             None (Some "Ann Lee"%string) None (Some (mk_ts 739490 0)) None in
  let e := Weekly.mk_row "Week 3" 3 "Ann Lee" 10 (Py2.round1 0) 0
             "Week 3 (08/25 - 08/31)" in
  exists w,
    In w get_competition_week_dates
    /\ Weekly.Week_Number e = week w
    /\ Weekly.Week e = ("Week " ++ Py.str (week w))%string
    /\ Weekly.Date_Range e = label w
    /\ exists r',
         In r' [r]
         /\ HR.athlete_name r' = Some (Weekly.Athlete e)
         /\ date_between (hr_date r') (week_start w) (week_end w) = true.
Proof.
  intros r e.
  apply (weekly_rows_have_telemetry (mk_frame HR.column_names [r])
           (mk_frame Act.column_names []) [e] e); [reflexivity|].
  left. reflexivity.
Defined.

Lemma zone_points_column_week (w : week_entry) (hr : frame HR.row) :
  zone_points_column (week_hr_data w (with_date_column hr))
  = zone_points_column hr.
Proof.
  assert (Hcol : forall c, c <> "date"%string ->
            has_column c (week_hr_data w (with_date_column hr))
            = has_column c hr).
  { intros c Hc. exact (has_column_with_date c hr Hc). }
  unfold zone_points_column, get_zone_column.
  now rewrite !Hcol by discriminate.
Qed.

(** X15: what a dictionary holds.  Its points are the whole part of the
    points the scoring engine gives its athlete when it scores the
    records dated in its week; its activity count is the number of that
    athlete's activities dated in the week; its miles are 0 when none of
    those is a cycling activity. *)
Theorem weekly_row_values (hr_zones_df : frame HR.row)
    (activities_df : frame Act.row) (out : list Weekly.row) (e : Weekly.row) :
  calculate_weekly_athlete_performance hr_zones_df activities_df = Py.Ok out ->
  In e out ->
  exists w week_points p,
    In w get_competition_week_dates
    /\ Weekly.Week_Number e = week w
    /\ calculate_hr_zone_points (week_hr_data w hr_zones_df)
       = Py.Ok week_points
    /\ In p week_points
    /\ Points.athlete_name p = Weekly.Athlete e
    /\ Weekly.Points e = Py2.int (Points.zone_points p)
    /\ Weekly.Activities e
       = Z.of_nat
           (List.length
              (List.filter
                 (fun r => String.eqb (Act.athlete_name r) (Weekly.Athlete e))
                 (rows (week_activities w activities_df))))
    /\ (List.filter
          (fun r => String.eqb (Act.athlete_name r) (Weekly.Athlete e)
                    && cell_isin (Act.sport_type r) cycling_sport_types)
          (rows (week_activities w activities_df)) = [] ->
        (Weekly.Cycling_Miles e == 0)%Q).
Proof.
  intros H Hin. apply weekly_performance_ok in H.
  destruct H as [->|H]; [destruct Hin|].
  destruct (weekly_rows_origin _ _ _ _ _ H Hin)
    as (w & pts & p & Hw & Hc & Hp & He).
  apply weekly_row_fields in He.
  destruct He as (_ & H2 & H3 & H4 & H5 & _ & H7).
  change (week_hr_data w (with_date_column hr_zones_df))
    with (mk_frame (columns (with_date_column hr_zones_df))
            (rows (week_hr_data w hr_zones_df))) in Hc.
  rewrite scoring_ignores_date_column in Hc.
  exists w, pts, p. rewrite H3.
  repeat split; try assumption.
  intros Hnone. rewrite H7.
  change (rows (week_activities w (with_date_column activities_df)))
    with (rows (week_activities w activities_df)).
  now rewrite Hnone.
Qed.

Lemma weekly_row_values_witness :
  let r := HR.mk_row (Some 1) (Some 600%Q) None None None None
             None None None None None
             None (Some "Ann Lee"%string) None (Some (mk_ts 739490 0)) None in
  let e := Weekly.mk_row "Week 3" 3 "Ann Lee" 10 (Py2.round1 0) 0
             "Week 3 (08/25 - 08/31)" in
  exists w week_points p,
    In w get_competition_week_dates
    /\ Weekly.Week_Number e = week w
    /\ calculate_hr_zone_points (week_hr_data w (mk_frame HR.column_names [r]))
       = Py.Ok week_points
    /\ In p week_points
    /\ Points.athlete_name p = "Ann Lee"%string
    /\ 10 = Py2.int (Points.zone_points p).
Proof.
  intros r e.
  destruct (weekly_row_values (mk_frame HR.column_names [r])
              (mk_frame Act.column_names []) [e] e eq_refl
              (or_introl eq_refl))
    as (w & pts & p & H1 & H2 & H3 & H4 & H5 & H6 & _).
  now exists w, pts, p.
Defined.

(** The order of an answer: points descend and no athlete comes twice. *)
Lemma scored_order (df : frame HR.row) (out : list Points.row) :
  calculate_hr_zone_points df = Py.Ok out ->
  StronglySorted
    (fun p q => (Points.zone_points q <= Points.zone_points p)%Q
                /\ Points.athlete_name p <> Points.athlete_name q)
    out.
Proof.
  intros H. pose proof (scored_athletes _ _ H) as [Hnd _].
  apply calculate_hr_zone_points_inv in H.
  destruct H as [->|(zp & cols & l & ->)]; [constructor|].
  assert (Hs : StronglySorted
                 (fun p q => (Points.zone_points q <= Points.zone_points p)%Q)
                 (Pd.sort_values_desc Qle_bool Points.zone_points
                    (groupby_agg zp cols l))).
  { eapply StronglySorted_impl;
      [|apply sort_values_desc_stable with (T := fun _ _ => True)].
    - cbn beta. intros p q _ _ [H1 _]. now apply Qle_bool_iff.
    - intros a b. rewrite !Qle_bool_iff.
      destruct (Qlt_le_dec a b) as [Hlt|Hle]; [left|now right].
      now apply Qlt_le_weak.
    - intros a b c. rewrite !Qle_bool_iff. apply Qle_trans.
    - generalize (groupby_agg zp cols l). intros m.
      induction m; constructor; [assumption|]. now apply Forall_forall. }
  induction Hs as [|p out Hs IH Hp]; [constructor|].
  cbn [map] in Hnd. inversion Hnd as [|? ? Hn Hnd']; subst.
  constructor; [now apply IH|].
  rewrite Forall_forall in *. intros q Hq. split; [now apply Hp|].
  intros Heq. apply Hn. rewrite Heq. now apply in_map.
Qed.

Lemma int_monotone (a b : Q) : (a <= b)%Q -> Py2.int a <= Py2.int b.
Proof.
  intros H. unfold Py2.int.
  destruct (Qle_bool 0 a) eqn:Ea, (Qle_bool 0 b) eqn:Eb.
  - now apply Qfloor_resp_le.
  - apply Qle_bool_iff in Ea.
    assert (Hb : (0 <= b)%Q) by (eapply Qle_trans; eassumption).
    apply Qle_bool_iff in Hb. congruence.
  - apply Qle_bool_iff in Eb.
    assert (Ha : ~ (0 <= a)%Q) by (rewrite <- Qle_bool_iff; congruence).
    apply Qnot_le_lt in Ha.
    assert (H0 : Qceiling a <= Qceiling 0)
      by (apply Qceiling_resp_le; now apply Qlt_le_weak).
    assert (H1 : Qfloor 0 <= Qfloor b) by now apply Qfloor_resp_le.
    change (Qceiling 0) with 0 in H0. change (Qfloor 0) with 0 in H1. lia.
  - now apply Qceiling_resp_le.
Qed.

Lemma Forall2_sorted {A B : Type} (F : A -> B -> Prop)
    (T : A -> A -> Prop) (U : B -> B -> Prop) (l : list A) (m : list B) :
  (forall a b x y, F a x -> F b y -> T a b -> U x y) ->
  Forall2 F l m -> StronglySorted T l -> StronglySorted U m.
Proof.
  intros HTU HF. induction HF as [|a x l m Hax HF IH]; intros Hs;
    [constructor|].
  apply StronglySorted_inv in Hs. destruct Hs as [Hs Ha].
  constructor; [now apply IH|].
  rewrite Forall_forall in *. intros y Hy.
  clear IH Hs. induction HF as [|b y' l m Hby HF IH]; [destruct Hy|].
  destruct Hy as [<-|Hy].
  - eapply HTU; [exact Hax|exact Hby|]. apply Ha. now left.
  - apply IH; [|exact Hy]. intros z Hz. apply Ha. now right.
Qed.

Local Abbreviation weekly_order :=
  (fun a b : Weekly.row =>
     Weekly.Week_Number a < Weekly.Week_Number b
     \/ (Weekly.Week_Number a = Weekly.Week_Number b
         /\ Weekly.Points b <= Weekly.Points a
         /\ Weekly.Athlete a <> Weekly.Athlete b)).

Lemma weekly_week_loop_order (weeks : list week_entry) (hr : frame HR.row)
    (act : frame Act.row) (out : list Weekly.row) :
  StronglySorted (fun a b => week a < week b) weeks ->
  weekly_week_loop weeks hr act [] = Py.Ok out ->
  StronglySorted weekly_order out
  /\ Forall (fun e => exists w, In w weeks /\ Weekly.Week_Number e = week w) out.
Proof.
  intros Hw H. apply weekly_week_loop_ok in H.
  destruct H as (parts & -> & HF). cbn [app].
  induction HF as [|w part weeks parts Hpart HF IH];
    [split; constructor|].
  apply StronglySorted_inv in Hw. destruct Hw as [Hw Hlt].
  destruct (IH Hw) as [IHs IHn]. clear IH.
  assert (Hp : StronglySorted weekly_order part
               /\ Forall (fun e => Weekly.Week_Number e = week w) part).
  { destruct (is_empty (week_hr_data w hr)); [subst part; split; constructor|].
    destruct Hpart as (pts & Hc & HFe). split.
    - eapply Forall2_sorted; [|exact HFe|exact (scored_order _ _ Hc)].
      cbn beta. intros p q x y Hx Hy [Hle Hne].
      apply weekly_row_fields in Hx, Hy.
      destruct Hx as (_ & X2 & X3 & X4 & _), Hy as (_ & Y2 & Y3 & Y4 & _).
      right. rewrite X2, Y2, X3, Y3, X4, Y4.
      split; [reflexivity|]. split; [now apply int_monotone|exact Hne].
    - clear Hc. induction HFe as [|p x pts part Hx HFe IHe]; constructor;
        [|exact IHe].
      now apply weekly_row_fields in Hx. }
  destruct Hp as [Hps Hpn]. cbn [List.concat]. split.
  - apply StronglySorted_app; [exact Hps|exact IHs|].
    intros x y Hx Hy. left.
    rewrite Forall_forall in Hpn, IHn, Hlt.
    rewrite (Hpn x Hx). destruct (IHn y Hy) as (w' & Hw' & ->).
    now apply Hlt.
  - apply Forall_app. split.
    + eapply Forall_impl; [|exact Hpn]. cbn beta. intros x Hx.
      exists w. split; [now left|exact Hx].
    + eapply Forall_impl; [|exact IHn]. cbn beta. intros x (w' & Hw' & Hx).
      exists w'. split; [now right|exact Hx].
Qed.

Lemma week_numbers_increase :
  StronglySorted (fun a b => week a < week b) get_competition_week_dates.
Proof.
  assert (H : forall ws, StronglySorted Z.lt (map week ws) ->
                         StronglySorted (fun a b => week a < week b) ws).
  { induction ws as [|w ws IH]; cbn [map]; intros Hs; [constructor|].
    apply StronglySorted_inv in Hs. destruct Hs as [Hs Hw].
    constructor; [now apply IH|].
    rewrite Forall_forall in *. intros x Hx. apply Hw. now apply in_map. }
  apply H. change (map week get_competition_week_dates)
    with [1; 2; 3; 4; 5; 6; 7; 8].
  repeat (constructor; [|repeat (constructor; [lia|]); constructor]).
  constructor.
Qed.

(** X16: the dictionaries come week by week in ascending week number,
    within a week in descending order of points, and no week holds two
    dictionaries for one athlete. *)
Theorem weekly_rows_order (hr_zones_df : frame HR.row)
    (activities_df : frame Act.row) (out : list Weekly.row) :
  calculate_weekly_athlete_performance hr_zones_df activities_df = Py.Ok out ->
  StronglySorted
    (fun a b =>
       Weekly.Week_Number a < Weekly.Week_Number b
       \/ (Weekly.Week_Number a = Weekly.Week_Number b
           /\ Weekly.Points b <= Weekly.Points a
           /\ Weekly.Athlete a <> Weekly.Athlete b))
    out.
Proof.
  intros H. apply weekly_performance_ok in H.
  destruct H as [->|H]; [constructor|].
  now apply (weekly_week_loop_order _ _ _ _ week_numbers_increase) in H.
Qed.

Lemma weekly_rows_order_witness :
  let r id name z1 d :=
    HR.mk_row (Some id) (Some z1) None None None None None None None None None
      None (Some name) None (Some (mk_ts d 0)) None in
  let hr := mk_frame HR.column_names
              [r 1 "Zed"%string 600%Q 739474; r 2 "Amy"%string 1200%Q 739475;
               r 3 "Amy"%string 60%Q 739490] in
  exists out,
    calculate_weekly_athlete_performance hr (mk_frame Act.column_names [])
    = Py.Ok out
    /\ StronglySorted
         (fun a b =>
            Weekly.Week_Number a < Weekly.Week_Number b
            \/ (Weekly.Week_Number a = Weekly.Week_Number b
                /\ Weekly.Points b <= Weekly.Points a
                /\ Weekly.Athlete a <> Weekly.Athlete b))
         out.
Proof.
  intros r hr. eexists. split; [reflexivity|].
  apply (weekly_rows_order hr (mk_frame Act.column_names [])). reflexivity.
Defined.

Lemma filter_none {A : Type} (p : A -> bool) (l : list A) :
  (forall x, In x l -> p x = false) -> List.filter p l = [].
Proof.
  induction l as [|x l IH]; intros H; cbn; [reflexivity|].
  rewrite (H x (or_introl eq_refl)). apply IH. intros y Hy. apply H. now right.
Qed.

Lemma weekly_week_loop_outside (weeks : list week_entry) (hr : frame HR.row)
    (act : frame Act.row) (lo hi : Date.date) :
  Forall (fun w => lo <= week_start w /\ week_end w <= hi) weeks ->
  (forall r d, In r (rows hr) -> hr_date r = Some d -> d < lo \/ hi < d) ->
  weekly_week_loop weeks hr act [] = Py.Ok [].
Proof.
  intros Hw Hout. induction Hw as [|w weeks Hb Hw IH]; [reflexivity|].
  cbn [weekly_week_loop]. cbv zeta.
  assert (He : is_empty (week_hr_data w hr) = true).
  { unfold is_empty, week_hr_data. cbn [columns rows].
    rewrite filter_none.
    + now destruct (columns hr).
    + intros r Hr. unfold date_between.
      destruct (hr_date r) as [d|] eqn:Ed; [|reflexivity].
      destruct (Z.leb_spec (week_start w) d), (Z.leb_spec d (week_end w));
        try reflexivity.
      destruct (Hout r d Hr Ed); lia. }
  rewrite He. cbn [negb Py.bind]. exact IH.
Qed.

(** X17: the edges of the weekly aggregator.  An empty telemetry frame
    gives the empty result whatever the activities are.  With telemetry,
    a frame without the start_date column (an empty activities frame is
    one) raises KeyError.  Telemetry dated entirely outside the
    competition gives the empty result. *)
Theorem weekly_performance_edges (hr_zones_df : frame HR.row)
    (activities_df : frame Act.row) :
  (is_empty hr_zones_df = true ->
   calculate_weekly_athlete_performance hr_zones_df activities_df = Py.Ok [])
  /\ (is_empty hr_zones_df = false ->
      has_column "start_date" hr_zones_df = false
      \/ has_column "start_date" activities_df = false ->
      calculate_weekly_athlete_performance hr_zones_df activities_df
      = Py.Raise Py.KeyError)
  /\ (is_empty hr_zones_df = false ->
      has_column "start_date" hr_zones_df = true ->
      has_column "start_date" activities_df = true ->
      (forall r d, In r (rows hr_zones_df) -> hr_date r = Some d ->
                   d < COMPETITION_START \/ COMPETITION_END < d) ->
      calculate_weekly_athlete_performance hr_zones_df activities_df
      = Py.Ok []).
Proof.
  unfold calculate_weekly_athlete_performance. repeat split.
  - now intros ->.
  - intros -> [-> | H]; [reflexivity|].
    cbv zeta. destruct (negb (has_column "start_date" hr_zones_df));
      [reflexivity|]. now rewrite H.
  - intros -> -> -> Hout. cbv zeta. cbn [negb].
    apply (weekly_week_loop_outside _ _ _ COMPETITION_START COMPETITION_END);
      [|exact Hout].
    eapply Forall_impl;
      [|apply (week_loop_bounds COMPETITION_END
                 (Py.range 1 (COMPETITION_WEEKS + 1)) COMPETITION_START)].
    cbn beta. intros w H. lia.
Qed.

Lemma weekly_performance_edges_witness :
  let r d := HR.mk_row (Some 1) (Some 600%Q) None None None None
               None None None None None
               None (Some "Ann Lee"%string) None (Some (mk_ts d 0)) None in
  calculate_weekly_athlete_performance empty_frame empty_frame = Py.Ok []
  /\ calculate_weekly_athlete_performance
       (mk_frame HR.column_names [r 739490]) empty_frame
     = Py.Raise Py.KeyError
  /\ calculate_weekly_athlete_performance
       (mk_frame HR.column_names [r 739400]) (mk_frame Act.column_names [])
     = Py.Ok [].
Proof.
  intros r. split; [|split].
  - apply (proj1 (weekly_performance_edges _ _)). reflexivity.
  - apply (proj1 (proj2 (weekly_performance_edges _ _))); [reflexivity|].
    right. reflexivity.
  - apply (proj2 (proj2 (weekly_performance_edges _ _))); try reflexivity.
    intros r0 d [<-|[]] Hd. inversion Hd. left. reflexivity.
Defined.

(** ** Admin reclassification *)

Lemma cell_gt0_fillna (x : option Q) :
  cell_gt0 (Some (Pd.fillna0 x)) = cell_gt0 x.
Proof. now destruct x. Qed.

(** X18: the utility selects exactly the activities that the dashboard
    relabels from Peloton to Bike: a fetched activity is selected when
    its cleaned sport type is Peloton and it gained elevation, which is
    when it is not a Bike record by itself and
    [fetch_activities_by_date_range] shows it as Bike. *)
Theorem selected_are_relabelled (response_data : list Store.activity)
    (x : Store.activity) :
  In x (with_elevation response_data) <->
  In x response_data
  /\ clean_field (Store.sport_type x) <> Some "Bike"%string
  /\ map Act.sport_type (rows (fetch_activities_by_date_range [x]))
     = [Some "Bike"%string].
Proof.
  unfold with_elevation. cbv zeta. rewrite !filter_In, cell_gt0_fillna.
  change (clean_sport_type (Store.sport_type x))
    with (clean_field (Store.sport_type x)).
  rewrite fetched_activities_rows. cbn [map List.filter]. cbv zeta.
  cbn [Act.sport_type].
  destruct (cell_eq (clean_field (Store.sport_type x)) "Peloton") eqn:Ep;
    cbn [andb].
  - unfold cell_eq in Ep.
    destruct (clean_field (Store.sport_type x)) as [v|]; [|discriminate].
    apply String.eqb_eq in Ep. subst v.
    destruct (cell_gt0 (Store.total_elevation_gain x)); cbn.
    + split; [intros [[H _] _]|intros (H & _)]; repeat split; auto; discriminate.
    + split; [intros [_ H]; discriminate|intros (_ & _ & H); discriminate].
  - split; [intros [[_ H] _]; discriminate|].
    intros (_ & Hb & H). exfalso.
    destruct (cell_ne (clean_field (Store.sport_type x)) "Tennis");
      cbn in H; [|discriminate].
    inversion H. contradiction.
Qed.

Lemma update_loop_counts (execute : nat -> update_answer)
    (to_update : list Store.activity) (i : nat) (updated failed : Z) :
  let done := update_loop execute to_update i updated failed in
  fst done
  = updated
    + Z.of_nat (List.length
                  (List.filter
                     (fun k => match execute k with
                               | UpdateData => true
                               | _ => false
                               end)
                     (seq i (List.length to_update))))
  /\ fst done + snd done
     = updated + failed + Z.of_nat (List.length to_update).
Proof.
  cbv zeta. revert i updated failed.
  induction to_update as [|row rows IH]; intros i u f;
    cbn [update_loop List.length seq List.filter].
  - cbn. lia.
  - destruct (execute i); cbn [List.length];
      [destruct (IH (S i) (u + 1) f)|destruct (IH (S i) u (f + 1))
      |destruct (IH (S i) u (f + 1))]; lia.
Qed.

(** X19: a run that goes through with the updates visits every selected
    activity, whatever the store answers: the two counts add up to the
    number of activities selected, and the count of successes is the
    number of updates the store answered with data.  The run stops
    before any update when nothing is fetched, nothing is selected or
    the confirmation is not given. *)
Theorem update_tallies (response_data : list Store.activity)
    (confirmed : bool) (execute : nat -> update_answer) :
  match fix_existing_activities response_data confirmed execute with
  | UpdateComplete updated_count failed_count =>
      confirmed = true
      /\ updated_count + failed_count
         = Z.of_nat (List.length (with_elevation response_data))
      /\ updated_count
         = Z.of_nat
             (List.length
                (List.filter
                   (fun k => match execute k with
                             | UpdateData => true
                             | _ => false
                             end)
                   (seq 0 (List.length (with_elevation response_data)))))
      /\ 0 <= failed_count
  | NotConfirmed => confirmed = false /\ with_elevation response_data <> []
  | NoActivities => response_data = []
  | NoPelotonActivities | NothingToReclassify =>
      with_elevation response_data = []
  end.
Proof.
  unfold fix_existing_activities.
  destruct response_data as [|x data]; [reflexivity|].
  generalize (x :: data). intros l.
  destruct (List.filter _ l) as [|p ps] eqn:Ep.
  { unfold with_elevation. cbv zeta. now rewrite Ep. }
  destruct (with_elevation l) as [|y ys] eqn:Ew; [reflexivity|].
  destruct confirmed; [|split; [reflexivity|discriminate]].
  pose proof (update_loop_counts execute (y :: ys) 0 0 0) as Hc.
  cbv zeta in Hc.
  destruct (update_loop execute (y :: ys) 0 0 0) as [u f].
  cbn [fst snd] in Hc. destruct Hc as [Hu Hs].
  split; [reflexivity|]. split; [lia|]. split; [lia|].
  assert (Hle : (List.length
                   (List.filter
                      (fun k => match execute k with
                                | UpdateData => true
                                | _ => false
                                end)
                      (seq 0 (List.length (y :: ys))))
                 <= List.length (y :: ys))%nat).
  { match goal with
    | |- (List.length (List.filter ?f ?l) <= _)%nat =>
        pose proof (filter_length_le f l) as H
    end.
    now rewrite length_seq in H. }
  lia.
Qed.

(** X20: once Bike is written into a selected activity, the dashboard
    shows it as before and the utility no longer selects it, so a second
    run has nothing left to do for it. *)
Theorem reclassified_is_stable (response_data : list Store.activity)
    (x : Store.activity) :
  In x (with_elevation response_data) ->
  rows (fetch_activities_by_date_range [reclassified x])
  = rows (fetch_activities_by_date_range [x])
  /\ with_elevation [reclassified x] = [].
Proof.
  unfold with_elevation at 1. cbv zeta. rewrite !filter_In, cell_gt0_fillna.
  change (clean_sport_type (Store.sport_type x))
    with (clean_field (Store.sport_type x)).
  intros [[_ Hp] Hg]. split.
  - rewrite !fetched_activities_rows. cbn [map]. cbv zeta.
    cbn [reclassified Store.sport_type Store.id Store.athlete_id Store.name
         Store.start_date Store.distance Store.moving_time
         Store.total_elevation_gain Store.athletes].
    rewrite Hp, Hg. reflexivity.
  - reflexivity.
Qed.

Lemma reclassified_is_stable_witness :
  let x := Store.mk_activity 5 (Some 7) (Some "Evening"%string)
             (Some "root='Ride'"%string) (mk_ts 739474 0) None None
             (Some 120%Q) (Some (mk_athlete "Ann" "Lee")) in
  rows (fetch_activities_by_date_range [reclassified x])
  = rows (fetch_activities_by_date_range [x])
  /\ with_elevation [reclassified x] = [].
Proof.
  intros x. apply (reclassified_is_stable [x] x). left. reflexivity.
Defined.

(** ** Date ranges and progress in [main] *)

(** X21: the default range and the ranges the two quick buttons store
    are never rejected by the range validation and never reach past
    today: start <= end <= today, whatever today is. *)
Theorem quick_ranges_valid (today : Date.date) :
  Forall (fun range => fst range <= snd range <= today)
    [default_range today; full_competition_range today;
     current_week_range today].
Proof.
  unfold default_range, full_competition_range, current_week_range,
    get_current_competition_week_dates, Date.weekday.
  rewrite COMPETITION_START_ord, COMPETITION_END_ord.
  repeat constructor;
    repeat match goal with
           | |- context [?a <? ?b] => destruct (Z.ltb_spec a b)
           | |- context [?a <=? ?b] => destruct (Z.leb_spec a b)
           end;
    cbn [orb fst snd]; Z.to_euclidean_division_equations; lia.
Qed.

(** X22: the progress shown is 0 before the competition and 100 after it;
    on a day of the competition it is above 0 and at most 100, it grows
    from one day to the next, and it reaches 100 on the last day only. *)
Theorem progress_percent_bounds (today : Date.date) :
  (today < COMPETITION_START -> progress_percent today = 0%Q)
  /\ (COMPETITION_END < today -> progress_percent today = 100%Q)
  /\ (COMPETITION_START <= today <= COMPETITION_END ->
      (0 < progress_percent today <= 100)%Q
      /\ ((progress_percent today == 100)%Q <-> today = COMPETITION_END)
      /\ (today < COMPETITION_END ->
          (progress_percent today < progress_percent (today + 1)%Z)%Q)).
Proof.
  unfold progress_percent.
  rewrite COMPETITION_START_ord, COMPETITION_END_ord.
  change (739529 - 739474 + 1) with 56. cbv zeta.
  split; [|split]; intros H.
  - destruct (Z.ltb_spec today 739474); [reflexivity|lia].
  - destruct (Z.ltb_spec today 739474); [lia|].
    destruct (Z.ltb_spec 739529 today); [reflexivity|lia].
  - destruct (Z.ltb_spec today 739474); [lia|].
    destruct (Z.ltb_spec 739529 today); [lia|].
    repeat split.
    + unfold Qlt, Qdiv, Qmult, Qinv, inject_Z. cbn. lia.
    + unfold Qle, Qdiv, Qmult, Qinv, inject_Z. cbn. lia.
    + unfold Qeq, Qdiv, Qmult, Qinv, inject_Z. cbn. lia.
    + intros ->. reflexivity.
    + intros Hlt.
      destruct (Z.ltb_spec (today + 1) 739474); [lia|].
      destruct (Z.ltb_spec 739529 (today + 1)); [lia|].
      unfold Qlt, Qdiv, Qmult, Qinv, inject_Z. cbn. lia.
Qed.

Lemma progress_percent_bounds_witness :
  progress_percent 739473 = 0%Q /\ progress_percent 739530 = 100%Q
  /\ (0 < progress_percent 739500%Z <= 100)%Q.
Proof.
  split; [|split].
  - apply (proj1 (progress_percent_bounds 739473)). reflexivity.
  - apply (proj1 (proj2 (progress_percent_bounds 739530))). reflexivity.
  - apply (proj2 (proj2 (progress_percent_bounds 739500))).
    split; discriminate.
Defined.

(** ** Formatting *)

Lemma Qfloor_unique (x : Q) (z : Z) :
  (inject_Z z <= x)%Q -> (x < inject_Z (z + 1))%Q -> Qfloor x = z.
Proof.
  intros Hle Hlt.
  assert (H1 : z <= Qfloor x).
  { rewrite <- (Qfloor_Z z). now apply Qfloor_resp_le. }
  assert (H2 : Qfloor x < z + 1).
  { rewrite Zlt_Qlt. eapply Qle_lt_trans; [apply Qfloor_le|exact Hlt]. }
  lia.
Qed.

Lemma Qfloor_div (x : Q) (k : Z) :
  0 < k -> Qfloor (x / inject_Z k) = Qfloor x / k.
Proof.
  intros Hk.
  assert (Hk' : (0 < inject_Z k)%Q) by (rewrite <- (Zlt_Qlt 0); exact Hk).
  apply Qfloor_unique.
  - apply Qle_shift_div_l; [exact Hk'|].
    rewrite <- inject_Z_mult.
    eapply Qle_trans; [|apply Qfloor_le].
    rewrite <- Zle_Qle. rewrite Z.mul_comm. now apply Z.mul_div_le.
  - apply Qlt_shift_div_r; [exact Hk'|].
    rewrite <- inject_Z_mult.
    eapply Qlt_le_trans; [apply Qlt_floor|].
    rewrite <- Zle_Qle.
    pose proof (Z.mul_succ_div_gt (Qfloor x) k Hk). lia.
Qed.

Lemma Qfloor_sub (x : Q) (k : Z) :
  Qfloor (x - inject_Z k) = Qfloor x - k.
Proof.
  apply Qfloor_unique.
  - unfold Z.sub at 1. rewrite inject_Z_plus, inject_Z_opp.
    apply Qplus_le_compat; [apply Qfloor_le|apply Qle_refl].
  - replace (Qfloor x - k + 1) with ((Qfloor x + 1) + - k) by lia.
    rewrite inject_Z_plus, inject_Z_opp.
    apply Qplus_lt_le_compat; [apply Qlt_floor|apply Qle_refl].
Qed.

(** The floor of [a % k] and of [(a % k') // k] *)
Lemma Qfloor_fmod (a : Q) (k : Z) :
  0 < k ->
  (0 <= fmod a (inject_Z k))%Q
  /\ Qfloor (fmod a (inject_Z k)) = Qfloor a mod k.
Proof.
  intros Hk. unfold fmod, floordiv.
  rewrite (Qfloor_div a k Hk), <- inject_Z_mult.
  split.
  - unfold Qminus. rewrite <- Qle_minus_iff.
    eapply Qle_trans; [|apply Qfloor_le].
    rewrite <- Zle_Qle. now apply Z.mul_div_le.
  - rewrite Qfloor_sub. rewrite Z.mod_eq by lia. reflexivity.
Qed.

Lemma int_of_nonneg (q : Q) : (0 <= q)%Q -> Py2.int q = Qfloor q.
Proof.
  intros H. unfold Py2.int. apply Qle_bool_iff in H. now rewrite H.
Qed.

(** X23: a null and a zero are shown as N/A.  A positive duration is
    shown by its whole seconds n, split as n / 3600 hours, (n mod 3600) /
    60 minutes and n mod 60 seconds; the hours are shown from one hour
    on, the minutes from one minute on. *)
Theorem format_duration_parts (seconds : Q) :
  format_duration None = "N/A"%string
  /\ format_duration (Some 0%Q) = "N/A"%string
  /\ ((0 < seconds)%Q ->
      let n := Qfloor seconds in
      let h := n / 3600 in
      let m := (n mod 3600) / 60 in
      let s := n mod 60 in
      3600 * h + 60 * m + s = n
      /\ format_duration (Some seconds)
         = if 3600 <=? n then
             (Py.str h ++ "h " ++ Py.str m ++ "m " ++ Py.str s ++ "s")%string
           else if 60 <=? n then
             (Py.str m ++ "m " ++ Py.str s ++ "s")%string
           else (Py.str s ++ "s")%string).
Proof.
  split; [reflexivity|]. split; [reflexivity|].
  intros Hpos. cbv zeta. split.
  { Z.to_euclidean_division_equations; lia. }
  unfold format_duration.
  assert (Hnz : Qeq_bool seconds 0 = false).
  { destruct (Qeq_bool seconds 0) eqn:E; [|reflexivity].
    apply Qeq_bool_iff in E. rewrite E in Hpos. discriminate. }
  rewrite Hnz. cbv zeta.
  assert (Hn : 0 <= Qfloor seconds).
  { change 0 with (Qfloor 0). apply Qfloor_resp_le. now apply Qlt_le_weak. }
  assert (Hh : Py2.int (floordiv seconds 3600) = Qfloor seconds / 3600).
  { unfold floordiv. rewrite int_of_whole. apply (Qfloor_div seconds 3600). lia. }
  assert (Hm : Py2.int (floordiv (fmod seconds 3600) 60)
               = (Qfloor seconds mod 3600) / 60).
  { unfold floordiv at 1. rewrite int_of_whole.
    change (Qfloor (fmod seconds 3600 / 60))
      with (Qfloor (fmod seconds (inject_Z 3600) / inject_Z 60)).
    rewrite (Qfloor_div _ 60) by lia.
    now rewrite (proj2 (Qfloor_fmod seconds 3600 ltac:(lia))). }
  assert (Hs : Py2.int (fmod seconds 60) = Qfloor seconds mod 60).
  { destruct (Qfloor_fmod seconds 60 ltac:(lia)) as [H0 H1].
    change (fmod seconds 60) with (fmod seconds (inject_Z 60)).
    now rewrite int_of_nonneg. }
  rewrite Hh, Hm, Hs.
  destruct (Z.ltb_spec 0 (Qfloor seconds / 3600)),
    (Z.leb_spec 3600 (Qfloor seconds));
    try reflexivity; try (exfalso; Z.to_euclidean_division_equations; lia).
  destruct (Z.ltb_spec 0 (Qfloor seconds mod 3600 / 60)),
    (Z.leb_spec 60 (Qfloor seconds));
    try reflexivity; exfalso; Z.to_euclidean_division_equations; lia.
Qed.

Lemma format_duration_parts_witness :
  format_duration (Some 3725%Q) = "1h 2m 5s"%string
  /\ format_duration (Some (119 # 2)%Q) = "59s"%string.
Proof.
  split.
  - exact (proj2 (proj2 (proj2 (format_duration_parts 3725%Q)) eq_refl)).
  - exact (proj2 (proj2 (proj2 (format_duration_parts (119 # 2)%Q)) eq_refl)).
Defined.

(** ** Athlete cards *)

Lemma dict_set_fresh {V : Type} (k : string) (v : V) (d : list (string * V)) :
  ~ In k (map fst d) -> dict_set k v d = d ++ [(k, v)].
Proof.
  induction d as [|[k' v'] d IH]; cbn [dict_set map fst In app]; intros H;
    [reflexivity|].
  destruct (String.eqb_spec k' k) as [->|_]; [exfalso; apply H; now left|].
  f_equal. apply IH. intros Hin. apply H. now right.
Qed.

Lemma with_date_column_idem {R : Type} (df : frame R) :
  with_date_column (with_date_column df) = with_date_column df.
Proof.
  unfold with_date_column at 1. 
  assert (H : has_column "date" (with_date_column df) = true).
  { unfold with_date_column. destruct (has_column "date" df) eqn:E.
    - exact E.
    - unfold has_column. cbn [columns]. rewrite existsb_app. cbn.
      now rewrite orb_true_r. }
  rewrite H. reflexivity.
Qed.

(** The frame a turn of the loop hands to the next one *)
Local Abbreviation dated hr :=
  (if negb (is_empty hr) && has_column "athlete_name" hr
   then with_date_column hr else hr).

Lemma is_empty_with_date {R : Type} (c : string) (df : frame R) :
  has_column c df = true -> is_empty (with_date_column df) = is_empty df.
Proof.
  unfold has_column, is_empty, with_date_column. cbn [columns rows].
  destruct (columns df) as [|c0 cs]; [discriminate|]. intros _.
  destruct (has_column "date" df); reflexivity.
Qed.

Lemma athlete_weekly_zone_points_frame (hr : frame HR.row)
    (monday sunday : Date.date) (athlete : string) (q : Q) (f : frame HR.row) :
  athlete_weekly_zone_points hr monday sunday athlete = Py.Ok (q, f) ->
  f = dated hr.
Proof.
  unfold athlete_weekly_zone_points. cbv zeta.
  destruct (negb (is_empty hr) && has_column "athlete_name" hr);
    [|congruence].
  destruct (negb (has_column "start_date" hr)); [discriminate|].
  destruct (negb (is_empty _)); [|congruence].
  destruct (calculate_hr_zone_points _) as [[|p l]|x]; cbn [Py.bind];
    congruence.
Qed.

Lemma athlete_weekly_zone_points_dated (hr : frame HR.row)
    (monday sunday : Date.date) (athlete : string) :
  athlete_weekly_zone_points (dated hr) monday sunday athlete
  = athlete_weekly_zone_points hr monday sunday athlete.
Proof.
  destruct (negb (is_empty hr) && has_column "athlete_name" hr) eqn:E;
    [|reflexivity].
  apply andb_true_iff in E. destruct E as [He Hn].
  unfold athlete_weekly_zone_points. cbv zeta.
  rewrite (is_empty_with_date _ _ Hn), !has_column_with_date by discriminate.
  rewrite with_date_column_idem, He, Hn. reflexivity.
Qed.

Lemma athlete_cycling_stats_dated (act : frame Act.row) (hr : frame HR.row)
    (monday sunday : Date.date) (athlete : string) :
  athlete_cycling_stats act (dated hr) monday sunday athlete
  = athlete_cycling_stats act hr monday sunday athlete.
Proof.
  unfold athlete_cycling_stats. cbv zeta.
  now rewrite athlete_weekly_zone_points_dated.
Qed.

Lemma athlete_cycling_stats_frame (act : frame Act.row) (hr : frame HR.row)
    (monday sunday : Date.date) (athlete : string) (body : Stats.entry * frame HR.row) :
  athlete_cycling_stats act hr monday sunday athlete = Py.Ok body ->
  snd body = dated hr.
Proof.
  unfold athlete_cycling_stats. cbv zeta.
  destruct (negb (has_column "sport_type" act)); [discriminate|].
  destruct (miles_of _ _ _); cbn [Py.bind]; [|discriminate].
  destruct (miles_of _ _ _); cbn [Py.bind]; [|discriminate].
  destruct (athlete_weekly_zone_points hr monday sunday athlete)
    as [[q f]|x] eqn:E; cbn [Py.bind]; [|discriminate].
  intros H. inversion H. cbn [snd].
  exact (athlete_weekly_zone_points_frame _ _ _ _ _ _ E).
Qed.

Lemma dated_idem (hr : frame HR.row) : dated (dated hr) = dated hr.
Proof.
  destruct (negb (is_empty hr) && has_column "athlete_name" hr) eqn:E.
  - apply andb_true_iff in E. destruct E as [He Hn].
    rewrite (is_empty_with_date _ _ Hn), has_column_with_date by discriminate.
    now rewrite He, Hn, with_date_column_idem.
  - now rewrite E.
Qed.

(** The entries the loop sets, one per athlete, each computed from the
    frames as they were handed to the function *)
Lemma cycling_stats_loop_ok (athletes : list string) (act : frame Act.row)
    (hr : frame HR.row) (monday sunday : Date.date)
    (stats out : list (string * Stats.entry)) :
  cycling_stats_loop athletes act hr monday sunday stats = Py.Ok out ->
  exists entries,
    Forall2 (fun a e => exists f,
               athlete_cycling_stats act hr monday sunday a = Py.Ok (e, f))
      athletes entries
    /\ out = fold_left (fun d ae => dict_set (fst ae) (snd ae) d)
               (combine athletes entries) stats.
Proof.
  revert hr stats. induction athletes as [|a athletes IH]; intros hr stats;
    cbn [cycling_stats_loop].
  - intros H. inversion H. exists []. split; [constructor|reflexivity].
  - destruct (athlete_cycling_stats act hr monday sunday a) as [[e f]|x] eqn:E;
      cbn [Py.bind]; [|discriminate].
    cbn [fst snd]. pose proof (athlete_cycling_stats_frame _ _ _ _ _ _ E) as Hf.
    cbn [snd] in Hf. subst f. intros H. apply IH in H.
    destruct H as (entries & HF & ->). exists (e :: entries). split.
    + constructor; [eauto|].
      eapply Forall2_impl; [|exact HF]. cbn beta. intros a' e' (f & Hf).
      rewrite athlete_cycling_stats_dated in Hf. eauto.
    + reflexivity.
Qed.

Lemma dict_set_all_fresh {V : Type} (keys : list string) (vals : list V)
    (d : list (string * V)) :
  NoDup keys -> (forall k, In k keys -> ~ In k (map fst d)) ->
  List.length vals = List.length keys ->
  fold_left (fun d kv => dict_set (fst kv) (snd kv) d) (combine keys vals) d
  = d ++ combine keys vals.
Proof.
  revert vals d. induction keys as [|k keys IH]; intros vals d Hnd Hd Hlen.
  - cbn. now rewrite app_nil_r.
  - destruct vals as [|v vals]; [discriminate|].
    cbn [combine fold_left fst snd]. inversion Hnd as [|? ? Hk Hnd']; subst.
    rewrite dict_set_fresh by (apply Hd; now left).
    rewrite IH.
    + now rewrite <- app_assoc.
    + exact Hnd'.
    + intros k' Hk'. rewrite map_app, in_app_iff. cbn.
      intros [H|[H|[]]].
      * apply (Hd k'); [now right|exact H].
      * subst k'. contradiction.
    + cbn in Hlen. lia.
Qed.


Local Abbreviation athletes_of act :=
  (Pd.drop_duplicates String.eqb (fun s : string => s)
     (map Act.athlete_name (rows act))).

Lemma string_eqb_eq (a b : string) : String.eqb a b = true <-> a = b.
Proof. apply String.eqb_eq. Qed.

Lemma athletes_of_NoDup (act : frame Act.row) : NoDup (athletes_of act).
Proof.
  pose proof (drop_dups_from_keys String.eqb (fun s : string => s)
                string_eqb_eq [] (map Act.athlete_name (rows act))) as H.
  rewrite map_id in H. apply H.
Qed.

Lemma Forall2_length' {A B : Type} (F : A -> B -> Prop) (l : list A)
    (l' : list B) :
  Forall2 F l l' -> List.length l' = List.length l.
Proof. induction 1; cbn; congruence. Qed.

Lemma cycling_stats_ok (act : frame Act.row) (hr : frame HR.row)
    (today : Date.date) (stats : list (string * Stats.entry)) :
  calculate_athlete_cycling_stats act hr today = Py.Ok stats ->
  (is_empty act = true /\ stats = [])
  \/ (is_empty act = false
      /\ has_column "start_date" act = true
      /\ has_column "athlete_name" act = true
      /\ exists entries,
           stats = combine (athletes_of act) entries
           /\ Forall2
                (fun a e =>
                   exists f,
                     athlete_cycling_stats (with_date_column act) hr
                       (fst (get_current_competition_week_dates today))
                       (snd (get_current_competition_week_dates today)) a
                     = Py.Ok (e, f))
                (athletes_of act) entries).
Proof.
  unfold calculate_athlete_cycling_stats. cbv zeta.
  destruct (is_empty act); [intros H; inversion H; now left|].
  destruct (get_current_competition_week_dates today) as [monday sunday].
  destruct (has_column "start_date" act); cbn [negb]; [|discriminate].
  rewrite has_column_with_date by discriminate.
  destruct (has_column "athlete_name" act); cbn [negb]; [|discriminate].
  intros H. right. repeat split.
  apply cycling_stats_loop_ok in H. destruct H as (entries & HF & ->).
  exists entries. split; [|exact HF].
  change (rows (with_date_column act)) with (rows act).
  rewrite dict_set_all_fresh; [reflexivity|apply athletes_of_NoDup|
                               intros k _ []|].
  exact (Forall2_length' _ _ _ HF).
Qed.

Lemma map_fst_combine {A B : Type} (l : list A) (l' : list B) :
  List.length l' = List.length l -> map fst (combine l l') = l.
Proof.
  revert l'. induction l as [|a l IH]; intros [|b l']; cbn; try congruence.
  intros H. f_equal. apply IH. congruence.
Qed.

Lemma athletes_of_In (act : frame Act.row) (a : string) :
  In a (athletes_of act) <-> In a (map Act.athlete_name (rows act)).
Proof.
  split.
  - apply drop_duplicates_incl.
  - intros H.
    pose proof (drop_dups_from_covers String.eqb (fun s : string => s)
                  string_eqb_eq [] (map Act.athlete_name (rows act)) a) as Hc.
    rewrite !map_id in Hc. apply Hc; [exact H|intros []].
Qed.

Lemma is_empty_true {R : Type} (df : frame R) :
  is_empty df = true -> columns df = [] \/ rows df = [].
Proof.
  unfold is_empty. destruct (columns df); [now left|].
  destruct (rows df); [now right|discriminate].
Qed.

(** X24: the cards are one per athlete of the activities frame, in the
    order in which the athletes first appear in it; nobody without an
    activity gets a card. *)
Theorem cycling_stats_cards (activities_df : frame Act.row)
    (hr_zones_df : frame HR.row) (today : Date.date)
    (stats : list (string * Stats.entry)) :
  calculate_athlete_cycling_stats activities_df hr_zones_df today
  = Py.Ok stats ->
  NoDup (map fst stats)
  /\ (forall athlete,
        In athlete (map fst stats)
        <-> has_column "athlete_name" activities_df = true
            /\ In athlete (map Act.athlete_name (rows activities_df)))
  /\ (is_empty activities_df = false ->
      map fst stats
      = Pd.drop_duplicates String.eqb (fun s => s)
          (map Act.athlete_name (rows activities_df))).
Proof.
  intros H. apply cycling_stats_ok in H.
  destruct H as [[He ->]|(He & _ & Hn & entries & -> & HF)].
  - split; [constructor|]. split; [|congruence].
    intros a. split; [intros []|]. intros [Hc Hin].
    destruct (is_empty_true _ He) as [E|E].
    + unfold has_column in Hc. rewrite E in Hc. discriminate.
    + rewrite E in Hin. destruct Hin.
  - rewrite (map_fst_combine _ _ (Forall2_length' _ _ _ HF)).
    split; [apply athletes_of_NoDup|]. split; [|reflexivity].
    intros a. rewrite athletes_of_In. tauto.
Qed.

Lemma cycling_stats_cards_witness :
  let act := mk_frame Act.column_names
               [Act.mk_row 1 (Some 7) (Some "Lunch Ride"%string)
                  (Some "Bike"%string) (mk_ts 739480 0) (Some 16093%Q)
                  None (Some 120%Q) "Ann Lee";
                Act.mk_row 2 (Some 8) None (Some "Run"%string)
                  (mk_ts 739481 0) (Some 5000%Q) None None "Bo Roy";
                Act.mk_row 3 (Some 7) None (Some "Peloton"%string)
                  (mk_ts 739482 0) (Some 8000%Q) None None "Ann Lee"] in
  exists stats,
    calculate_athlete_cycling_stats act empty_frame 739481 = Py.Ok stats
    /\ map fst stats = ["Ann Lee"; "Bo Roy"]%string.
Proof.
  intros act. eexists. split; [reflexivity|].
  apply (proj2 (proj2 (cycling_stats_cards act empty_frame 739481 _ eq_refl))).
  reflexivity.
Defined.

Lemma miles_of_ok {R : Type} (df : frame R) (distance : R -> option Q)
    (l : list R) :
  has_column "distance" df = true ->
  exists m, miles_of df distance l = Py.Ok m.
Proof.
  intros H. unfold miles_of. rewrite H. destruct l; eauto.
Qed.

(** When the body raises for every athlete the loop raises in its first
    turn; when the body answers for every athlete so does the loop. *)
Lemma cycling_stats_loop_raise (athletes : list string) (act : frame Act.row)
    (hr : frame HR.row) (monday sunday : Date.date)
    (stats : list (string * Stats.entry)) (x : Py.exn) :
  athletes <> [] ->
  (forall a, athlete_cycling_stats act hr monday sunday a = Py.Raise x) ->
  cycling_stats_loop athletes act hr monday sunday stats = Py.Raise x.
Proof.
  destruct athletes as [|a athletes]; [contradiction|]. intros _ H.
  cbn [cycling_stats_loop]. now rewrite H.
Qed.

Lemma cycling_stats_loop_total (athletes : list string) (act : frame Act.row)
    (hr : frame HR.row) (monday sunday : Date.date)
    (stats : list (string * Stats.entry)) :
  (forall a, exists body,
     athlete_cycling_stats act hr monday sunday a = Py.Ok body) ->
  exists out, cycling_stats_loop athletes act hr monday sunday stats
              = Py.Ok out.
Proof.
  revert hr stats. induction athletes as [|a athletes IH]; intros hr stats H;
    cbn [cycling_stats_loop]; [eauto|].
  destruct (H a) as (body & Hb). rewrite Hb. cbn [Py.bind].
  apply IH. intros a'.
  rewrite (athlete_cycling_stats_frame _ _ _ _ _ _ Hb).
  rewrite athlete_cycling_stats_dated. apply H.
Qed.

Lemma athlete_weekly_zone_points_off (hr : frame HR.row)
    (monday sunday : Date.date) (athlete : string) :
  is_empty hr = true \/ has_column "athlete_name" hr = false ->
  athlete_weekly_zone_points hr monday sunday athlete = Py.Ok (0%Q, hr).
Proof.
  unfold athlete_weekly_zone_points. cbv zeta.
  intros [->| ->]; [reflexivity|]. now rewrite andb_false_r.
Qed.

(** X26: an empty activities frame gives the empty dictionary whatever
    the telemetry frame is.  A non-empty one that lacks the start_date,
    athlete_name or sport_type column raises KeyError.  With those and
    the distance column present, a telemetry frame that is empty or has
    no athlete_name column is not read at all: there is an answer and
    every card has 0 weekly points; a non-empty telemetry frame with the
    athlete_name column but without start_date raises KeyError. *)
Theorem cycling_stats_errors (activities_df : frame Act.row)
    (hr_zones_df : frame HR.row) (today : Date.date) :
  (is_empty activities_df = true ->
   calculate_athlete_cycling_stats activities_df hr_zones_df today = Py.Ok [])
  /\ (is_empty activities_df = false ->
      (has_column "start_date" activities_df
       && has_column "athlete_name" activities_df
       && has_column "sport_type" activities_df = false ->
       calculate_athlete_cycling_stats activities_df hr_zones_df today
       = Py.Raise Py.KeyError)
      /\ (has_column "start_date" activities_df
          && has_column "athlete_name" activities_df
          && has_column "sport_type" activities_df
          && has_column "distance" activities_df = true ->
          (is_empty hr_zones_df = true
           \/ has_column "athlete_name" hr_zones_df = false ->
           exists stats,
             calculate_athlete_cycling_stats activities_df hr_zones_df today
             = Py.Ok stats
             /\ Forall (fun card => Stats.weekly_zone_points (snd card) = 0%Q)
                  stats)
          /\ (is_empty hr_zones_df = false ->
              has_column "athlete_name" hr_zones_df = true ->
              has_column "start_date" hr_zones_df = false ->
              calculate_athlete_cycling_stats activities_df hr_zones_df today
              = Py.Raise Py.KeyError))).
Proof.
  split; [|intros H; split].
  - intros He. unfold calculate_athlete_cycling_stats. now rewrite He.
  - intros Hc. unfold calculate_athlete_cycling_stats. cbv zeta. rewrite H.
    destruct (get_current_competition_week_dates today) as [monday sunday].
    destruct (has_column "start_date" activities_df); cbn [negb];
      [|reflexivity].
    rewrite has_column_with_date by discriminate.
    destruct (has_column "athlete_name" activities_df); cbn [negb];
      [|reflexivity].
    cbn [andb] in Hc. apply cycling_stats_loop_raise.
    + change (rows (with_date_column activities_df))
        with (rows activities_df).
      unfold is_empty in H.
      destruct (columns activities_df); [discriminate|].
      destruct (rows activities_df) as [|r0 rs]; [discriminate|].
      unfold Pd.drop_duplicates. cbn. discriminate.
    + intros a. unfold athlete_cycling_stats. cbv zeta.
      rewrite has_column_with_date by discriminate. now rewrite Hc.
  - intros Hc. apply andb_true_iff in Hc. destruct Hc as [Hc Hd].
    apply andb_true_iff in Hc. destruct Hc as [Hc Hs].
    apply andb_true_iff in Hc. destruct Hc as [Hsd Hn].
    assert (Hmiles : forall l, exists m,
              miles_of (with_date_column activities_df) Act.distance l
              = Py.Ok m).
    { intros l. apply miles_of_ok.
      now rewrite has_column_with_date by discriminate. }
    split.
    + intros Hoff.
      assert (Hbody : forall monday sunday a, exists e,
                athlete_cycling_stats (with_date_column activities_df)
                  hr_zones_df monday sunday a = Py.Ok (e, hr_zones_df)
                /\ Stats.weekly_zone_points e = 0%Q).
      { intros monday sunday a. unfold athlete_cycling_stats. cbv zeta.
        rewrite has_column_with_date by discriminate. rewrite Hs.
        cbn [negb].
        destruct (Hmiles (List.filter
                   (fun r => cell_isin (Act.sport_type r) cycling_sport_types)
                   (List.filter (fun r => String.eqb (Act.athlete_name r) a)
                      (rows (with_date_column activities_df)))))
          as (m1 & ->).
        cbn [Py.bind].
        match goal with
        | |- context [miles_of ?df ?d ?l] => destruct (Hmiles l) as (m2 & ->)
        end.
        cbn [Py.bind].
        rewrite (athlete_weekly_zone_points_off _ _ _ _ Hoff). cbn [Py.bind].
        eexists. split; reflexivity. }
      destruct (calculate_athlete_cycling_stats activities_df hr_zones_df today)
        as [stats|x] eqn:E.
      * exists stats. split; [reflexivity|].
        apply cycling_stats_ok in E.
        destruct E as [[_ ->]|(_ & _ & _ & entries & -> & HF)];
          [constructor|].
        induction HF as [|a e names es (f & Ha) HF IH]; [constructor|].
        cbn [combine]. constructor; [|exact IH]. cbn [snd].
        destruct (Hbody (fst (get_current_competition_week_dates today))
                    (snd (get_current_competition_week_dates today)) a)
          as (e' & He' & Hz).
        rewrite He' in Ha. inversion Ha. now subst e.
      * exfalso. revert E. unfold calculate_athlete_cycling_stats. cbv zeta.
        rewrite H.
        destruct (get_current_competition_week_dates today) as [monday sunday].
        rewrite Hsd. cbn [negb].
        rewrite has_column_with_date by discriminate. rewrite Hn. cbn [negb].
        match goal with
        | |- cycling_stats_loop ?names ?act ?hr ?m ?s ?st = _ -> _ =>
            destruct (cycling_stats_loop_total names act hr m s st) as (out & ->)
        end; [|discriminate].
        intros a. destruct (Hbody monday sunday a) as (e & He & _). eauto.
    + intros He Hhn Hhs. unfold calculate_athlete_cycling_stats. cbv zeta.
      rewrite H.
      destruct (get_current_competition_week_dates today) as [monday sunday].
      rewrite Hsd. cbn [negb].
      rewrite has_column_with_date by discriminate. rewrite Hn. cbn [negb].
      apply cycling_stats_loop_raise.
      * change (rows (with_date_column activities_df))
          with (rows activities_df).
        unfold is_empty in H.
        destruct (columns activities_df); [discriminate|].
        destruct (rows activities_df) as [|r0 rs]; [discriminate|].
        unfold Pd.drop_duplicates. cbn. discriminate.
      * intros a. unfold athlete_cycling_stats. cbv zeta.
        rewrite has_column_with_date by discriminate. rewrite Hs.
        cbn [negb].
        destruct (Hmiles (List.filter
                   (fun r => cell_isin (Act.sport_type r) cycling_sport_types)
                   (List.filter (fun r => String.eqb (Act.athlete_name r) a)
                      (rows (with_date_column activities_df)))))
          as (m1 & ->).
        cbn [Py.bind].
        match goal with
        | |- context [miles_of ?df ?d ?l] => destruct (Hmiles l) as (m2 & ->)
        end.
        cbn [Py.bind].
        unfold athlete_weekly_zone_points. cbv zeta.
        now rewrite He, Hhn, Hhs.
Qed.

(** *** Miles *)

(** What a card holds *)
Lemma athlete_cycling_stats_fields (act : frame Act.row) (hr : frame HR.row)
    (monday sunday : Date.date) (a : string) (e : Stats.entry)
    (f : frame HR.row) :
  athlete_cycling_stats act hr monday sunday a = Py.Ok (e, f) ->
  let cycling :=
    List.filter (fun r => cell_isin (Act.sport_type r) cycling_sport_types)
      (List.filter (fun r => String.eqb (Act.athlete_name r) a) (rows act)) in
  let miles l :=
    match l with
    | [] => 0%Q
    | _ => (Pd.sum (map Act.distance l) / METERS_PER_MILE)%Q
    end in
  Stats.total_cycling_miles e = miles cycling
  /\ Stats.weekly_cycling_miles e
     = miles (List.filter
                (fun r => date_between (Some (Act.date r)) monday sunday)
                cycling)
  /\ athlete_weekly_zone_points hr monday sunday a
     = Py.Ok (Stats.weekly_zone_points e, f).
Proof.
  unfold athlete_cycling_stats. cbv zeta.
  destruct (negb (has_column "sport_type" act)); [discriminate|].
  match goal with
  | |- context [Py.bind (miles_of ?d ?g ?l)] =>
      destruct (miles_of d g l) as [m1|x] eqn:E1; cbn [Py.bind];
        [|discriminate]
  end.
  match goal with
  | |- context [Py.bind (miles_of ?d ?g ?l)] =>
      destruct (miles_of d g l) as [m2|x] eqn:E2; cbn [Py.bind];
        [|discriminate]
  end.
  destruct (athlete_weekly_zone_points hr monday sunday a) as [[q f']|x];
    cbn [Py.bind]; [|discriminate].
  intros H. inversion H. subst. cbn [Stats.total_cycling_miles
    Stats.weekly_cycling_miles Stats.weekly_zone_points].
  apply miles_of_value in E1, E2. subst m1 m2. repeat split.
Qed.

Lemma Forall2_combine_Forall {A B : Type} (F : A -> B -> Prop)
    (l : list A) (l' : list B) :
  Forall2 F l l' -> Forall (fun p => F (fst p) (snd p)) (combine l l').
Proof. induction 1; cbn [combine]; constructor; assumption. Qed.

(** The body of the loop that made a card *)
Lemma cycling_stats_card (act : frame Act.row) (hr : frame HR.row)
    (today : Date.date) (stats : list (string * Stats.entry))
    (a : string) (e : Stats.entry) :
  calculate_athlete_cycling_stats act hr today = Py.Ok stats ->
  In (a, e) stats ->
  exists f,
    athlete_cycling_stats (with_date_column act) hr
      (fst (get_current_competition_week_dates today))
      (snd (get_current_competition_week_dates today)) a
    = Py.Ok (e, f).
Proof.
  intros H Hin. apply cycling_stats_ok in H.
  destruct H as [[_ ->]|(_ & _ & _ & entries & -> & HF)]; [destruct Hin|].
  apply Forall2_combine_Forall in HF. rewrite Forall_forall in HF.
  exact (HF _ Hin).
Qed.

(** X25: the miles on an athlete's card are computed from that athlete's
    own cycling activities and nothing else.  Two calls whose activities
    frames agree on them give the athlete the same total and weekly
    miles, whatever else the frames hold (other sports, other athletes,
    telemetry).  Without a cycling activity both figures are 0, and
    without one dated in the current week the weekly figure is 0. *)
Theorem cycling_miles_own_rides (activities_df activities_df' : frame Act.row)
    (hr_zones_df hr_zones_df' : frame HR.row) (today : Date.date)
    (stats stats' : list (string * Stats.entry)) (athlete : string)
    (card card' : Stats.entry) :
  calculate_athlete_cycling_stats activities_df hr_zones_df today
  = Py.Ok stats ->
  In (athlete, card) stats ->
  let monday := fst (get_current_competition_week_dates today) in
  let sunday := snd (get_current_competition_week_dates today) in
  let rides df :=
    List.filter (fun r => cell_isin (Act.sport_type r) cycling_sport_types)
      (List.filter (fun r => String.eqb (Act.athlete_name r) athlete)
         (rows df)) in
  let this_week l :=
    List.filter (fun r => date_between (Some (Act.date r)) monday sunday) l in
  (rides activities_df = [] ->
   Stats.total_cycling_miles card = 0%Q
   /\ Stats.weekly_cycling_miles card = 0%Q)
  /\ (this_week (rides activities_df) = [] ->
      Stats.weekly_cycling_miles card = 0%Q)
  /\ (calculate_athlete_cycling_stats activities_df' hr_zones_df' today
      = Py.Ok stats' ->
      In (athlete, card') stats' ->
      rides activities_df' = rides activities_df ->
      Stats.total_cycling_miles card' = Stats.total_cycling_miles card
      /\ Stats.weekly_cycling_miles card' = Stats.weekly_cycling_miles card).
Proof.
  intros H Hin. cbv zeta.
  destruct (cycling_stats_card _ _ _ _ _ _ H Hin) as (f & Hb).
  apply athlete_cycling_stats_fields in Hb. cbv zeta in Hb.
  change (rows (with_date_column activities_df))
    with (rows activities_df) in Hb.
  destruct Hb as (Ht & Hw & _). split; [|split].
  - intros Hnone. rewrite Ht, Hw, Hnone. split; reflexivity.
  - intros Hnone. rewrite Hw, Hnone. reflexivity.
  - intros H' Hin' Hsame.
    destruct (cycling_stats_card _ _ _ _ _ _ H' Hin') as (f' & Hb').
    apply athlete_cycling_stats_fields in Hb'. cbv zeta in Hb'.
    change (rows (with_date_column activities_df'))
      with (rows activities_df') in Hb'.
    destruct Hb' as (Ht' & Hw' & _).
    rewrite Ht, Ht', Hw, Hw', Hsame. split; reflexivity.
Qed.

(** *** Weekly points of a card *)

Lemma cell_eq_Some (x : option string) (s : string) :
  cell_eq x s = true <-> x = Some s.
Proof.
  destruct x as [v|]; cbn; [|split; discriminate].
  rewrite String.eqb_eq. split; congruence.
Qed.

Lemma weekly_hr_data_names (hr : frame HR.row) (monday sunday : Date.date)
    (a : string) (r : HR.row) :
  In r (rows (weekly_hr_data hr monday sunday a)) ->
  HR.athlete_name r = Some a.
Proof.
  unfold weekly_hr_data. cbn [rows]. intros H. apply filter_In in H.
  destruct H as [_ H]. apply andb_true_iff in H. now apply cell_eq_Some.
Qed.

(** The scoring of the records of one athlete is one row *)
Lemma scoring_one_athlete (df : frame HR.row) (a : string)
    (pts : list Points.row) :
  rows df <> [] ->
  (forall r, In r (rows df) -> HR.athlete_name r = Some a) ->
  calculate_hr_zone_points df = Py.Ok pts ->
  has_column "athlete_name" df = true ->
  exists zone_points,
    zone_points_column df = Py.Ok zone_points
    /\ pts = [Points.mk_row a
                (Pd.round0 (raw_points zone_points a df))
                (Pd.count (map HR.activity_id (rows_of a (scored_rows df))))
                (map (fun cf => (fst cf,
                                 Pd.round0 (Pd.sum (map (snd cf)
                                                      (rows_of a (scored_rows df))))))
                   (agg_zone_columns df))].
Proof.
  intros Hne Hall. rewrite calculate_hr_zone_points_normal.
  intros H Hcol. rewrite Hcol in H. cbn [negb] in H.
  assert (Hkeys : group_keys (scored_rows df) = [a]).
  { assert (Hin : forall x, In x (group_keys (scored_rows df)) <-> x = a).
    { intros x. rewrite group_keys_In, in_map_iff. split.
      - intros (r & Hr & Hin). apply scored_rows_incl, Hall in Hin. congruence.
      - intros ->. destruct (rows df) as [|r l] eqn:E; [contradiction|].
        assert (Hr : HR.athlete_name r = Some a) by (apply Hall; now left).
        exists r. split; [exact Hr|].
        unfold scored_rows. rewrite E. cbn [List.filter].
        rewrite Hr. cbn [notna]. unfold Pd.drop_duplicates. cbn. now left. }
    pose proof (group_keys_NoDup (scored_rows df)) as Hnd.
    destruct (group_keys (scored_rows df)) as [|k [|k' ks]].
    - exfalso. now apply (Hin a).
    - f_equal. apply Hin. now left.
    - exfalso. inversion Hnd as [|? ? Hk _]; subst. apply Hk.
      assert (k = a) by (apply Hin; now left).
      assert (k' = a) by (apply Hin; right; now left).
      subst. now left. }
  destruct (scored_rows df) as [|r l] eqn:E.
  { unfold group_keys in Hkeys. cbn in Hkeys. discriminate. }
  rewrite <- E in *. clear E r l.
  destruct (zone_points_column df) as [zp|x]; cbn [Py.bind] in H;
    [|discriminate].
  destruct (negb (has_column "activity_id" df)); [discriminate|].
  inversion H. exists zp. split; [reflexivity|].
  unfold groupby_agg. rewrite Hkeys. reflexivity.
Qed.

Lemma athlete_weekly_zone_points_value (hr : frame HR.row)
    (monday sunday : Date.date) (a : string) (q : Q) (f : frame HR.row) :
  athlete_weekly_zone_points hr monday sunday a = Py.Ok (q, f) ->
  negb (is_empty hr) && has_column "athlete_name" hr = true ->
  match rows (weekly_hr_data hr monday sunday a) with
  | [] => q = 0%Q
  | _ =>
      exists zone_points,
        zone_points_column hr = Py.Ok zone_points
        /\ (q == Pd.round0 (raw_points zone_points a
                              (weekly_hr_data hr monday sunday a)))%Q
  end.
Proof.
  unfold athlete_weekly_zone_points. cbv zeta. intros H Hc. rewrite Hc in H.
  apply andb_true_iff in Hc. destruct Hc as [_ Hn].
  destruct (negb (has_column "start_date" hr)); [discriminate|].
  change (weekly_hr_data (with_date_column hr) monday sunday a)
    with (mk_frame (columns (with_date_column hr))
            (rows (weekly_hr_data hr monday sunday a))) in H.
  rewrite scoring_ignores_date_column in H.
  change (mk_frame (columns hr) (rows (weekly_hr_data hr monday sunday a)))
    with (weekly_hr_data hr monday sunday a) in H.
  assert (He : is_empty
                 (mk_frame (columns (with_date_column hr))
                    (rows (weekly_hr_data hr monday sunday a)))
               = match rows (weekly_hr_data hr monday sunday a) with
                 | [] => true
                 | _ => false
                 end).
  { unfold is_empty. cbn [columns rows]. unfold with_date_column.
    cbn [columns]. unfold has_column in Hn.
    destruct (columns hr) as [|c cs]; [discriminate|].
    now destruct (has_column "date" hr). }
  rewrite He in H. clear He.
  destruct (rows (weekly_hr_data hr monday sunday a)) as [|r l] eqn:E;
    cbn [negb] in H; [congruence|].
  destruct (calculate_hr_zone_points (weekly_hr_data hr monday sunday a))
    as [pts|x] eqn:Ec; cbn [Py.bind] in H; [|discriminate].
  apply (scoring_one_athlete _ a) in Ec.
  - destruct Ec as (zp & Hzp & ->). exists zp. split; [exact Hzp|].
    inversion H. cbn [map fold_right Points.zone_points]. apply Qplus_0_r.
  - rewrite E. discriminate.
  - apply weekly_hr_data_names.
  - exact Hn.
Qed.

Lemma NoDup_map_filter {A B : Type} (f : A -> B) (p : A -> bool)
    (l : list A) :
  NoDup (map f l) -> NoDup (map f (List.filter p l)).
Proof.
  induction l as [|a l IH]; cbn [map List.filter]; [constructor|].
  intros H. inversion H as [|? ? Ha Hl]; subst.
  destruct (p a); cbn [map]; [|now apply IH].
  constructor; [|now apply IH].
  intros Hin. apply Ha. apply in_map_iff in Hin.
  destruct Hin as (x & Hx & Hin). apply filter_In in Hin.
  apply in_map_iff. exists x. tauto.
Qed.

Lemma scored_rows_nodup (df : frame HR.row) :
  NoDup (map HR.activity_id (rows df)) ->
  scored_rows df
  = List.filter (fun r => notna (HR.athlete_name r)) (rows df).
Proof.
  intros H. unfold scored_rows, Pd.drop_duplicates.
  apply (drop_dups_from_nodup _ _ option_Z_eqb_eq).
  - now apply NoDup_map_filter.
  - intros k _ [].
Qed.

(** With one record per activity, the points of an athlete in the week
    are the same whether the athlete's records are scored alone or with
    everyone's. *)
Lemma raw_points_alone (hr : frame HR.row) (w : week_entry)
    (zone_points : HR.row -> Q) (a : string) :
  NoDup (map HR.activity_id (rows hr)) ->
  raw_points zone_points a
    (weekly_hr_data hr (week_start w) (week_end w) a)
  = raw_points zone_points a (week_hr_data w hr).
Proof.
  intros H. unfold raw_points.
  rewrite !scored_rows_nodup
    by (unfold weekly_hr_data, week_hr_data; cbn [rows];
        now apply NoDup_map_filter).
  unfold weekly_hr_data, week_hr_data, rows_of. cbn [rows].
  f_equal. f_equal. clear H.
  induction (rows hr) as [|r l IH]; [reflexivity|]. cbn [List.filter].
  destruct (cell_eq (HR.athlete_name r) a) eqn:Ea,
    (date_between (hr_date r) (week_start w) (week_end w)) eqn:Ed;
    cbn [andb List.filter]; try exact IH.
  - destruct (notna (HR.athlete_name r)); cbn [List.filter];
      rewrite ?Ea, IH; reflexivity.
  - destruct (notna (HR.athlete_name r)); cbn [List.filter];
      rewrite ?Ea, IH; reflexivity.
Qed.

Lemma Forall2_In_l {A B : Type} (F : A -> B -> Prop) (l : list A)
    (l' : list B) (x : A) :
  Forall2 F l l' -> In x l -> exists y, In y l' /\ F x y.
Proof.
  induction 1 as [|a b l l' Hab _ IH]; [intros []|].
  intros [<-|Hin].
  - exists b. split; [now left|exact Hab].
  - destruct (IH Hin) as (y & Hy & Hxy). exists y. split; [now right|exact Hxy].
Qed.

Lemma week_entry_unique (weeks : list week_entry) (w w' : week_entry) :
  StronglySorted (fun a b => week a < week b) weeks ->
  In w weeks -> In w' weeks -> week w = week w' -> w = w'.
Proof.
  induction 1 as [|a l Hl IH Ha]; [intros []|].
  rewrite Forall_forall in Ha.
  intros [<-|Hw] [<-|Hw'] E; try reflexivity.
  - apply Ha in Hw'. lia.
  - apply Ha in Hw. lia.
  - now apply IH.
Qed.

(** The dictionaries of one week of the list are the rows of that week's
    scoring, all of them. *)
Lemma weekly_rows_of_week (weeks : list week_entry) (hr : frame HR.row)
    (act : frame Act.row) (out : list Weekly.row) (w0 : week_entry) :
  weekly_week_loop weeks hr act [] = Py.Ok out ->
  StronglySorted (fun a b => week a < week b) weeks ->
  In w0 weeks ->
  (forall e, In e out -> Weekly.Week_Number e = week w0 ->
     exists pts p,
       calculate_hr_zone_points (week_hr_data w0 hr) = Py.Ok pts
       /\ In p pts
       /\ weekly_row w0 (week_activities w0 act) p = Py.Ok e)
  /\ (is_empty (week_hr_data w0 hr) = false ->
      exists pts,
        calculate_hr_zone_points (week_hr_data w0 hr) = Py.Ok pts
        /\ forall p, In p pts ->
             exists e, In e out
                       /\ weekly_row w0 (week_activities w0 act) p = Py.Ok e).
Proof.
  intros H Hs Hw0. split.
  - intros e He Hn.
    destruct (weekly_rows_origin _ _ _ _ _ H He)
      as (w & pts & p & Hw & Hc & Hp & Hrow).
    assert (w = w0).
    { apply (week_entry_unique weeks); try assumption.
      apply weekly_row_fields in Hrow. destruct Hrow as (_ & Hk & _).
      congruence. }
    subst w. eauto.
  - intros Hne. apply weekly_week_loop_ok in H.
    destruct H as (parts & -> & HF). cbn [app].
    destruct (Forall2_In_l _ _ _ _ HF Hw0) as (part & Hpart & Hwp).
    cbv beta in Hwp. rewrite Hne in Hwp. destruct Hwp as (pts & Hc & HFp).
    exists pts. split; [exact Hc|]. intros p Hp.
    destruct (Forall2_In_l _ _ _ _ HFp Hp) as (e & He & Hrow).
    exists e. split; [|exact Hrow]. apply in_concat. eauto.
Qed.

Lemma inject_int_round0 (q : Q) : inject_Z (Py2.int (Pd.round0 q)) = Pd.round0 q.
Proof.
  destruct (round0_whole q) as (z & Hz). now rewrite Hz, int_of_whole.
Qed.

(** X27: on a day of the competition, with one telemetry record per
    activity, the weekly points on an athlete's card are the points of
    the athlete's dictionary for the current week in the weekly table,
    and 0 when the table has no such dictionary. *)
Theorem card_points_match_weekly_table (activities_df : frame Act.row)
    (hr_zones_df : frame HR.row) (today : Date.date)
    (stats : list (string * Stats.entry)) (weekly_data : list Weekly.row) :
  calculate_athlete_cycling_stats activities_df hr_zones_df today
  = Py.Ok stats ->
  calculate_weekly_athlete_performance hr_zones_df activities_df
  = Py.Ok weekly_data ->
  COMPETITION_START <= today <= COMPETITION_END ->
  NoDup (map HR.activity_id (rows hr_zones_df)) ->
  Forall
    (fun card =>
       Stats.weekly_zone_points (snd card)
       == match
            find (fun e =>
                    (Weekly.Week_Number e
                     =? fst (get_current_competition_week today))
                    && String.eqb (Weekly.Athlete e) (fst card))
              weekly_data
          with
          | Some e => inject_Z (Weekly.Points e)
          | None => 0
          end)%Q
    stats.
Proof.
  intros H1 H2 Htoday Hnd. apply cycling_stats_ok in H1.
  destruct H1 as [[_ ->]|(_ & _ & _ & entries & -> & HF)]; [constructor|].
  destruct (week_of_day today Htoday) as (w0 & Hnth & Hn & Hb & _).
  apply nth_error_In in Hnth. rewrite <- Hn. rewrite <- Hb in HF.
  cbn [fst snd] in HF. clear Hb Hn Htoday.
  apply Forall2_combine_Forall in HF.
  eapply Forall_impl; [|exact HF]. clear HF. cbv beta.
  intros [a e] (f & Hbody). cbn [fst snd] in *.
  apply athlete_cycling_stats_fields in Hbody. cbv zeta in Hbody.
  destruct Hbody as (_ & _ & Hq).
  set (pred := fun e0 : Weekly.row => _ && _).
  destruct (negb (is_empty hr_zones_df)
            && has_column "athlete_name" hr_zones_df) eqn:Ec.
  - (* telemetry with athlete names *)
    pose proof (athlete_weekly_zone_points_value _ _ _ _ _ _ Hq Ec) as Hv.
    apply andb_true_iff in Ec. destruct Ec as [He Hname].
    apply negb_true_iff in He.
    unfold calculate_weekly_athlete_performance in H2. rewrite He in H2.
    cbv zeta in H2.
    destruct (negb (has_column "start_date" hr_zones_df)); [discriminate|].
    destruct (negb (has_column "start_date" activities_df)); [discriminate|].
    destruct (weekly_rows_of_week _ _ _ _ w0 H2 week_numbers_increase Hnth)
      as [P1 P2].
    assert (Hname' : has_column "athlete_name"
                       (week_hr_data w0 (with_date_column hr_zones_df))
                     = true).
    { change (has_column "athlete_name" (with_date_column hr_zones_df) = true).
      now rewrite has_column_with_date by discriminate. }
    assert (Hrow : forall e0, In e0 weekly_data -> pred e0 = true ->
              exists zp,
                zone_points_column hr_zones_df = Py.Ok zp
                /\ inject_Z (Weekly.Points e0)
                   = Pd.round0
                       (raw_points zp a
                          (weekly_hr_data hr_zones_df (week_start w0)
                             (week_end w0) a))
                /\ In (Some a)
                     (map HR.athlete_name
                        (scored_rows
                           (week_hr_data w0 (with_date_column hr_zones_df))))).
    { intros e0 He0 Hp. unfold pred in Hp. apply andb_true_iff in Hp.
      destruct Hp as [Hk Ha]. apply Z.eqb_eq in Hk. apply String.eqb_eq in Ha.
      destruct (P1 e0 He0 Hk) as (pts & p & Hc & Hp & Hr).
      apply weekly_row_fields in Hr.
      destruct Hr as (_ & _ & Hath & Hpts & _).
      destruct (scored_points _ _ _ Hc Hp) as (zp & Hzp & Hval & _).
      rewrite zone_points_column_week in Hzp.
      exists zp. split; [exact Hzp|]. split.
      - rewrite Hpts, Hval, inject_int_round0, <- Hath, Ha.
        rewrite (raw_points_alone _ _ _ _ Hnd). reflexivity.
      - apply (scored_athletes _ _ Hc). apply in_map_iff.
        exists p. split; [congruence|exact Hp]. }
    destruct (rows (weekly_hr_data hr_zones_df (week_start w0) (week_end w0) a))
      as [|r l] eqn:Er.
    + (* no record of the athlete this week *)
      rewrite Hv. destruct (find pred weekly_data) as [e0|] eqn:Ef;
        [|reflexivity].
      exfalso. apply find_some in Ef. destruct Ef as [He0 Hp].
      destruct (Hrow e0 He0 Hp) as (_ & _ & _ & Hin).
      apply in_map_iff in Hin. destruct Hin as (r & Hr & Hin).
      apply scored_rows_incl in Hin. unfold week_hr_data in Hin.
      cbn [rows] in Hin. apply filter_In in Hin. destruct Hin as [Hin Hd].
      assert (Hin' : In r (rows (weekly_hr_data hr_zones_df (week_start w0)
                                   (week_end w0) a))).
      { unfold weekly_hr_data. cbn [rows]. apply filter_In.
        split; [exact Hin|]. rewrite Hd, andb_true_r.
        now apply cell_eq_Some. }
      rewrite Er in Hin'. destruct Hin'.
    + destruct Hv as (zp & Hzp & Hv). rewrite Hv.
      assert (Hr : In r (rows (weekly_hr_data hr_zones_df (week_start w0)
                                 (week_end w0) a)))
        by (rewrite Er; now left).
      pose proof (weekly_hr_data_names _ _ _ _ _ Hr) as Hra.
      unfold weekly_hr_data in Hr. cbn [rows] in Hr. apply filter_In in Hr.
      destruct Hr as [Hr Hd]. apply andb_true_iff in Hd.
      destruct Hd as [_ Hd].
      assert (Hrw : In r (rows (week_hr_data w0
                                  (with_date_column hr_zones_df)))).
      { unfold week_hr_data. cbn [rows]. apply filter_In. now split. }
      assert (Hne : is_empty (week_hr_data w0 (with_date_column hr_zones_df))
                    = false).
      { unfold is_empty.
        destruct (rows (week_hr_data w0 (with_date_column hr_zones_df)));
          [destruct Hrw|].
        unfold has_column in Hname'.
        now destruct (columns (week_hr_data w0 (with_date_column hr_zones_df))). }
      destruct (P2 Hne) as (pts & Hc & Hall).
      assert (Hin : In a (map Points.athlete_name pts)).
      { apply (scored_athletes _ _ Hc). split; [exact Hname'|].
        rewrite scored_rows_nodup
          by (unfold week_hr_data; cbn [rows]; now apply NoDup_map_filter).
        apply in_map_iff. exists r. split; [exact Hra|].
        apply filter_In. split; [exact Hrw|]. now rewrite Hra. }
      apply in_map_iff in Hin. destruct Hin as (p & Hpa & Hp).
      destruct (Hall p Hp) as (e0 & He0 & Hr0).
      apply weekly_row_fields in Hr0. destruct Hr0 as (_ & Hk & Hath & _).
      assert (Hpred : pred e0 = true).
      { unfold pred. rewrite Hk, Z.eqb_refl, Hath, Hpa. apply String.eqb_refl. }
      destruct (find pred weekly_data) as [e1|] eqn:Ef.
      * apply find_some in Ef. destruct Ef as [He1 Hp1].
        destruct (Hrow e1 He1 Hp1) as (zp' & Hzp' & Hval & _).
        rewrite Hval. assert (zp' = zp) by congruence. subst zp'.
        reflexivity.
      * pose proof (find_none _ _ Ef e0 He0). congruence.
  - (* no usable telemetry *)
    assert (Hoff : is_empty hr_zones_df = true
                   \/ has_column "athlete_name" hr_zones_df = false).
    { apply andb_false_iff in Ec. destruct Ec as [Ec|Ec]; [left|now right].
      now apply negb_false_iff in Ec. }
    rewrite (athlete_weekly_zone_points_off _ _ _ _ Hoff) in Hq.
    inversion Hq as [[Hz Hf]]. 
    destruct (find pred weekly_data) as [e0|] eqn:Ef; [|reflexivity].
    exfalso. apply find_some in Ef. destruct Ef as [He0 _].
    unfold calculate_weekly_athlete_performance in H2.
    destruct (is_empty hr_zones_df) eqn:He.
    + inversion H2. subst. destruct He0.
    + destruct Hoff as [Hoff|Hoff]; [discriminate|]. cbv zeta in H2.
      destruct (negb (has_column "start_date" hr_zones_df)); [discriminate|].
      destruct (negb (has_column "start_date" activities_df)); [discriminate|].
      destruct (weekly_rows_origin _ _ _ _ _ H2 He0)
        as (w & pts & p & _ & Hc & Hp & _).
      assert (Hin : In (Points.athlete_name p) (map Points.athlete_name pts))
        by (now apply in_map).
      apply (scored_athletes _ _ Hc) in Hin. destruct Hin as [Hcol _].
      change (has_column "athlete_name" (with_date_column hr_zones_df) = true)
        in Hcol.
      rewrite has_column_with_date in Hcol by discriminate. congruence.
Qed.

Lemma cycling_stats_errors_witness :
  let act := mk_frame Act.column_names
               [Act.mk_row 1 (Some 7) None (Some "Bike"%string)
                  (mk_ts 739480 0) (Some 16093%Q) None (Some 120%Q)
                  "Ann Lee"] in
  let hr := mk_frame ["activity_id"; "athlete_name"]%string
              [HR.mk_row (Some 1) None None None None None
                 None None None None None
                 None (Some "Ann Lee"%string) None None None] in
  calculate_athlete_cycling_stats act hr 739481 = Py.Raise Py.KeyError.
Proof.
  intros act hr.
  apply (proj2 (proj2 (proj2 (cycling_stats_errors act hr 739481) eq_refl)
                  eq_refl));
    reflexivity.
Defined.

Lemma cycling_miles_own_rides_witness :
  let ride id d name :=
    Act.mk_row id (Some 7) None (Some "Bike"%string) (mk_ts d 0)
      (Some 16093%Q) None (Some 120%Q) name in
  let run id d name :=
    Act.mk_row id (Some 8) None (Some "Run"%string) (mk_ts d 0)
      (Some 5000%Q) None None name in
  let act := mk_frame Act.column_names
               [ride 1 739480 "Ann Lee"; run 2 739481 "Bo Roy"] in
  let act' := mk_frame Act.column_names
                [run 3 739479 "Ann Lee"; ride 4 739481 "Bo Roy";
                 ride 1 739480 "Ann Lee"] in
  exists stats stats' card card',
    calculate_athlete_cycling_stats act empty_frame 739481 = Py.Ok stats
    /\ calculate_athlete_cycling_stats act' empty_frame 739481 = Py.Ok stats'
    /\ In ("Ann Lee"%string, card) stats
    /\ In ("Ann Lee"%string, card') stats'
    /\ Stats.total_cycling_miles card' = Stats.total_cycling_miles card
    /\ Stats.weekly_cycling_miles card' = Stats.weekly_cycling_miles card.
Proof.
  intros ride run act act'. do 4 eexists.
  split; [reflexivity|]. split; [reflexivity|].
  split; [left; reflexivity|]. split; [left; reflexivity|].
  apply (proj2 (proj2 (cycling_miles_own_rides act act' empty_frame
                         empty_frame 739481 _ _ "Ann Lee" _ _ eq_refl
                         (or_introl eq_refl))) eq_refl (or_introl eq_refl)).
  reflexivity.
Defined.

Lemma card_points_match_weekly_table_witness :
  let act := mk_frame Act.column_names
               [Act.mk_row 1 (Some 7) None (Some "Bike"%string)
                  (mk_ts 739480 0) (Some 16093%Q) None (Some 120%Q)
                  "Ann Lee";
                Act.mk_row 2 (Some 8) None (Some "Run"%string)
                  (mk_ts 739481 0) (Some 5000%Q) None None "Bo Roy"] in
  let hr := mk_frame HR.column_names
              [HR.mk_row (Some 1) (Some 600%Q) (Some 1230%Q) None None None
                 None None None None None
                 (Some 7) (Some "Ann Lee"%string) None
                 (Some (mk_ts 739480 0)) (Some "Bike"%string);
               HR.mk_row (Some 4) (Some 900%Q) None None None None
                 None None None None None
                 (Some 7) (Some "Ann Lee"%string) None
                 (Some (mk_ts 739470 0)) (Some "Bike"%string)] in
  exists stats weekly_data,
    calculate_athlete_cycling_stats act hr 739480 = Py.Ok stats
    /\ calculate_weekly_athlete_performance hr act = Py.Ok weekly_data
    /\ Forall
         (fun card =>
            Stats.weekly_zone_points (snd card)
            == match
                 find (fun e =>
                         (Weekly.Week_Number e
                          =? fst (get_current_competition_week 739480%Z))
                         && String.eqb (Weekly.Athlete e) (fst card))
                   weekly_data
               with
               | Some e => inject_Z (Weekly.Points e)
               | None => 0
               end)%Q
         stats.
Proof.
  intros act hr. eexists. eexists.
  split; [reflexivity|]. split; [reflexivity|].
  apply (card_points_match_weekly_table act hr 739480 _ _ eq_refl eq_refl).
  - split; discriminate.
  - repeat constructor; cbn; intuition discriminate.
Defined.

(** ** The computations of [main] on fetched data *)

Lemma scoring_total (df : frame HR.row) :
  has_column "activity_id" df = true -> has_zone_columns df = true ->
  exists out, calculate_hr_zone_points df = Py.Ok out.
Proof.
  intros Hid Hz. rewrite calculate_hr_zone_points_normal.
  destruct (negb (has_column "athlete_name" df)); [eauto|].
  destruct (scored_rows df); [eauto|].
  pose proof (zone_points_column_result df) as Hr.
  destruct (zone_points_column df) as [zp|x]; cbn [Py.bind].
  - rewrite Hid. cbn [negb]. eauto.
  - destruct Hr as [_ Hr]. congruence.
Qed.

Lemma weekly_athlete_loop_total (w : week_entry) (wa : frame Act.row)
    (index : list Points.row) (weekly_data : list Weekly.row) :
  has_column "athlete_name" wa = true -> has_column "sport_type" wa = true ->
  has_column "distance" wa = true ->
  exists out, weekly_athlete_loop w wa index weekly_data = Py.Ok out.
Proof.
  intros Hn Hs Hd. revert weekly_data.
  induction index as [|p index IH]; intros acc; cbn [weekly_athlete_loop];
    [eauto|].
  unfold weekly_row. cbv zeta. rewrite Hn, Hs. cbn [negb].
  match goal with
  | |- context [miles_of ?df ?d ?l] =>
      destruct (miles_of_ok df d l Hd) as (m & ->)
  end.
  cbn [Py.bind]. apply IH.
Qed.

Lemma weekly_week_loop_total (weeks : list week_entry) (hr : frame HR.row)
    (act : frame Act.row) (weekly_data : list Weekly.row) :
  has_column "activity_id" hr = true -> has_zone_columns hr = true ->
  has_column "athlete_name" act = true -> has_column "sport_type" act = true ->
  has_column "distance" act = true ->
  exists out, weekly_week_loop weeks hr act weekly_data = Py.Ok out.
Proof.
  intros Hid Hz Hn Hs Hd. revert weekly_data.
  induction weeks as [|w weeks IH]; intros acc; cbn [weekly_week_loop];
    [eauto|].
  cbv zeta. destruct (negb (is_empty (week_hr_data w hr))); cbn [Py.bind];
    [|apply IH].
  destruct (scoring_total (week_hr_data w hr) Hid Hz) as (pts & ->).
  cbn [Py.bind].
  destruct (weekly_athlete_loop_total w (week_activities w act) pts acc
              Hn Hs Hd) as (acc' & ->).
  cbn [Py.bind]. apply IH.
Qed.

Lemma has_zone_columns_with_date (df : frame HR.row) :
  has_zone_columns (with_date_column df) = has_zone_columns df.
Proof.
  unfold has_zone_columns. cbn [forallb fst snd].
  now rewrite !has_column_with_date by discriminate.
Qed.

Lemma weekly_performance_total (hr : frame HR.row) (act : frame Act.row) :
  is_empty hr = true
  \/ (has_column "activity_id" hr = true /\ has_zone_columns hr = true
      /\ has_column "start_date" hr = true
      /\ has_column "start_date" act = true
      /\ has_column "athlete_name" act = true
      /\ has_column "sport_type" act = true
      /\ has_column "distance" act = true) ->
  exists out, calculate_weekly_athlete_performance hr act = Py.Ok out.
Proof.
  unfold calculate_weekly_athlete_performance.
  intros [->|(Hid & Hz & Hsd & Had & Hn & Hs & Hd)]; [eauto|].
  destruct (is_empty hr); [eauto|]. cbv zeta. rewrite Hsd, Had. cbn [negb].
  apply weekly_week_loop_total;
    rewrite ?has_zone_columns_with_date, ?has_column_with_date by discriminate;
    assumption.
Qed.

Lemma cycling_stats_total (act : frame Act.row) (hr : frame HR.row)
    (today : Date.date) :
  is_empty act = true
  \/ (has_column "start_date" act = true
      /\ has_column "athlete_name" act = true
      /\ has_column "sport_type" act = true
      /\ has_column "distance" act = true) ->
  is_empty hr = true
  \/ (has_column "activity_id" hr = true /\ has_zone_columns hr = true
      /\ has_column "start_date" hr = true) ->
  exists stats, calculate_athlete_cycling_stats act hr today = Py.Ok stats.
Proof.
  unfold calculate_athlete_cycling_stats. cbv zeta.
  intros [->|(Had & Hn & Hs & Hd)] Hhr; [eauto|].
  destruct (is_empty act); [eauto|].
  destruct (get_current_competition_week_dates today) as [monday sunday].
  rewrite Had. cbn [negb]. rewrite has_column_with_date by discriminate.
  rewrite Hn. cbn [negb].
  apply cycling_stats_loop_total. intros a.
  unfold athlete_cycling_stats. cbv zeta.
  rewrite has_column_with_date by discriminate. rewrite Hs. cbn [negb].
  assert (Hmiles : forall l, exists m,
            miles_of (with_date_column act) Act.distance l = Py.Ok m).
  { intros l. apply miles_of_ok.
    now rewrite has_column_with_date by discriminate. }
  match goal with
  | |- context [Py.bind (miles_of ?df ?d ?l)] =>
      destruct (Hmiles l) as (m1 & ->); cbn [Py.bind]
  end.
  match goal with
  | |- context [Py.bind (miles_of ?df ?d ?l)] =>
      destruct (Hmiles l) as (m2 & ->); cbn [Py.bind]
  end.
  assert (Hp : exists p, athlete_weekly_zone_points hr monday sunday a
                         = Py.Ok p).
  { unfold athlete_weekly_zone_points. cbv zeta.
    destruct Hhr as [->|(Hid & Hz & Hsd)]; [cbn; eauto|].
    destruct (negb (is_empty hr) && has_column "athlete_name" hr); [|eauto].
    rewrite Hsd. cbn [negb].
    destruct (negb (is_empty _)); [|eauto].
    match goal with
    | |- context [calculate_hr_zone_points ?df] =>
        destruct (scoring_total df) as (pts & ->)
    end.
    - change (has_column "activity_id" (with_date_column hr) = true).
      now rewrite has_column_with_date by discriminate.
    - change (has_zone_columns (with_date_column hr) = true).
      now rewrite has_zone_columns_with_date.
    - cbn [Py.bind]. destruct pts; eauto. }
  destruct Hp as (p & ->). cbn [Py.bind]. eauto.
Qed.

Lemma fetched_activities_columns (response_data : list Store.activity) :
  response_data <> [] ->
  columns (fetch_activities_by_date_range response_data) = Act.column_names.
Proof.
  unfold fetch_activities_by_date_range.
  destruct response_data as [|x data]; [contradiction|reflexivity].
Qed.

Lemma fetched_activities_ready (response_data : list Store.activity)
    (dated : bool) :
  response_data <> [] ->
  let df := fetch_activities_by_date_range response_data in
  let df := if dated then with_date_column df else df in
  has_column "start_date" df = true
  /\ has_column "athlete_name" df = true
  /\ has_column "sport_type" df = true
  /\ has_column "distance" df = true.
Proof.
  intros Hne. cbv zeta.
  pose proof (fetched_activities_columns response_data Hne) as Hc.
  set (df := fetch_activities_by_date_range response_data) in *.
  assert (H : forall c, existsb (String.eqb c) Act.column_names = true ->
              c <> "date"%string ->
              has_column c (if dated then with_date_column df else df) = true).
  { intros c Hin Hd. destruct dated;
      rewrite ?has_column_with_date by exact Hd;
      unfold has_column; now rewrite Hc. }
  repeat split; apply H; (reflexivity || discriminate).
Qed.

Lemma fetched_zones_ready (response_data : list Store.hr_zone)
    (dated : bool) :
  response_data <> [] ->
  let df := fetch_heart_rate_zones_by_date response_data in
  let df := if dated then with_date_column df else df in
  has_column "activity_id" df = true /\ has_zone_columns df = true
  /\ has_column "start_date" df = true.
Proof.
  intros Hne. cbv zeta.
  pose proof (fetched_zones_columns response_data Hne) as Hc.
  set (df := fetch_heart_rate_zones_by_date response_data) in *.
  assert (Hid : has_column "activity_id" df = true)
    by (unfold has_column; now rewrite Hc).
  assert (Hz : has_zone_columns df = true)
    by (unfold has_zone_columns, has_column; now rewrite Hc).
  assert (Hsd : has_column "start_date" df = true)
    by (unfold has_column; now rewrite Hc).
  destruct dated;
    rewrite ?has_zone_columns_with_date, ?has_column_with_date
      by discriminate; auto.
Qed.

(** X28: on the frames the two fetch functions build, whatever the store
    answered, the computations of [main] do not raise.  The weekly table
    is computed whenever the store returned an activity, which the guard
    of [main] ensures; without an activity and with telemetry it raises
    KeyError, so the guard is needed.  The athlete cards are computed in
    every case, whether or not the frames already carry the date column
    that the weekly table leaves in them. *)
Theorem fetched_data_never_raises (activities : list Store.activity)
    (zones : list Store.hr_zone) (today : Date.date) :
  let activities_df := fetch_activities_by_date_range activities in
  let hr_zones_df := fetch_heart_rate_zones_by_date zones in
  (activities <> [] ->
   exists weekly_data,
     calculate_weekly_athlete_performance hr_zones_df activities_df
     = Py.Ok weekly_data)
  /\ (activities = [] -> is_empty hr_zones_df = false ->
      calculate_weekly_athlete_performance hr_zones_df activities_df
      = Py.Raise Py.KeyError)
  /\ (forall dated : bool,
        exists stats,
          calculate_athlete_cycling_stats
            (if dated then with_date_column activities_df else activities_df)
            (if dated then with_date_column hr_zones_df else hr_zones_df)
            today
          = Py.Ok stats).
Proof.
  cbv zeta. split; [|split].
  - intros Hne. apply weekly_performance_total.
    destruct zones as [|z zones]; [now left|right].
    pose proof (fetched_zones_ready (z :: zones) false ltac:(discriminate))
      as Hz.
    pose proof (fetched_activities_ready activities false Hne) as Ha.
    cbv zeta in Hz, Ha. tauto.
  - intros -> He. unfold calculate_weekly_athlete_performance. rewrite He.
    cbv zeta. destruct zones as [|z zones]; [discriminate|].
    pose proof (fetched_zones_ready (z :: zones) false ltac:(discriminate))
      as Hz.
    cbv zeta in Hz. destruct Hz as (_ & _ & ->). reflexivity.
  - intros dated. apply cycling_stats_total.
    + destruct activities as [|x activities]; [left; now destruct dated|right].
      exact (fetched_activities_ready (x :: activities) dated
               ltac:(discriminate)).
    + destruct zones as [|z zones]; [left; now destruct dated|right].
      exact (fetched_zones_ready (z :: zones) dated ltac:(discriminate)).
Qed.

Lemma fetched_data_never_raises_witness :
  let activities :=
    [Store.mk_activity 5 (Some 7) (Some "Evening"%string)
       (Some "root='Ride'"%string) (mk_ts 739480 0) (Some 16093%Q) None
       (Some 120%Q) (Some (mk_athlete "Ann" "Lee"))] in
  let zones :=
    [Store.mk_hr_zone (Some 5) (Some 600%Q) None None None None
       (Some (Store.mk_nested (Some 7) (Some "Evening"%string)
                (Some (mk_ts 739480 0)) (Some "Ride"%string)
                (Some (mk_athlete "Ann" "Lee"))))] in
  (exists weekly_data,
     calculate_weekly_athlete_performance
       (fetch_heart_rate_zones_by_date zones)
       (fetch_activities_by_date_range activities)
     = Py.Ok weekly_data)
  /\ calculate_weekly_athlete_performance
       (fetch_heart_rate_zones_by_date zones)
       (fetch_activities_by_date_range [])
     = Py.Raise Py.KeyError.
Proof.
  intros activities zones. split.
  - apply (proj1 (fetched_data_never_raises activities zones 739480)).
    discriminate.
  - apply (proj1 (proj2 (fetched_data_never_raises [] zones 739480)));
      reflexivity.
Defined.

(** ** Deduplication at its two sites *)

(** The records that reach the deduplication of the fetch *)
Local Abbreviation fetched_records response_data :=
  (List.filter (fun r => cell_ne (HR.sport_type r) "Tennis")
     (List.filter (fun r => notna (HR.athlete_name r))
        (map flatten_hr_row response_data))).




(** ** Order of the scoring result: what holds of any sort *)

Lemma string_ltb_asym (a b : string) :
  String.ltb a b = true -> String.ltb b a = true -> False.
Proof.
  unfold String.ltb. rewrite (String.compare_antisym a b).
  destruct (String.compare b a); cbn; congruence.
Qed.

(** Two lists in strict ascending order with the same members are the
    same list. *)
Lemma sorted_same_members (l l' : list string) :
  StronglySorted (fun a b => String.ltb a b = true) l ->
  StronglySorted (fun a b => String.ltb a b = true) l' ->
  (forall x, In x l <-> In x l') -> l = l'.
Proof.
  intros Hs. revert l'. induction Hs as [|a l Hl IH Ha]; intros l' Hs' Hin.
  - destruct l' as [|b l']; [reflexivity|].
    destruct (proj2 (Hin b) (or_introl eq_refl)).
  - destruct Hs' as [|b l' Hl' Hb].
    { destruct (proj1 (Hin a) (or_introl eq_refl)). }
    rewrite Forall_forall in Ha, Hb.
    assert (a = b).
    { destruct (proj1 (Hin a) (or_introl eq_refl)) as [E|E]; [now symmetry|].
      destruct (proj2 (Hin b) (or_introl eq_refl)) as [E'|E']; [exact E'|].
      destruct (string_ltb_asym a b); [now apply Ha|now apply Hb]. }
    subst b. f_equal. apply IH; [exact Hl'|].
    intros x. split; intros Hx.
    + destruct (proj1 (Hin x) (or_intror Hx)) as [E|E]; [|exact E].
      subst x. destruct (string_ltb_asym a a); now apply Ha.
    + destruct (proj2 (Hin x) (or_intror Hx)) as [E|E]; [|exact E].
      subst x. destruct (string_ltb_asym a a); now apply Hb.
Qed.

Lemma rows_of_named (a : string) (l : list HR.row) :
  rows_of a (List.filter (fun r => notna (HR.athlete_name r)) l)
  = rows_of a l.
Proof.
  unfold rows_of. induction l as [|r l IH]; [reflexivity|].
  cbn [List.filter].
  destruct (HR.athlete_name r) as [v|] eqn:E; cbn [notna List.filter cell_eq];
    rewrite ?E; cbn [cell_eq]; now rewrite IH.
Qed.

Lemma group_keys_rows_of (l l' : list HR.row) :
  (forall a, rows_of a l' = rows_of a l) -> group_keys l' = group_keys l.
Proof.
  intros H. apply sorted_same_members; try apply group_keys_sorted.
  intros a. rewrite !group_keys_In.
  assert (Hm : forall m, In (Some a) (map HR.athlete_name m)
                         <-> rows_of a m <> []).
  { intros m. rewrite in_map_iff. unfold rows_of. split.
    - intros (r & Hr & Hin) E.
      assert (Hf : In r (List.filter
                           (fun r => cell_eq (HR.athlete_name r) a) m)).
      { apply filter_In. split; [exact Hin|]. rewrite Hr. cbn.
        apply String.eqb_refl. }
      rewrite E in Hf. destruct Hf.
    - destruct (List.filter _ m) as [|r rs] eqn:E; [congruence|]. intros _.
      assert (Hf : In r (r :: rs)) by now left.
      rewrite <- E in Hf. apply filter_In in Hf. destruct Hf as [Hin Hc].
      exists r. split; [|exact Hin].
      destruct (HR.athlete_name r) as [v|]; [|discriminate].
      cbn in Hc. apply String.eqb_eq in Hc. now subst. }
  now rewrite !Hm, H.
Qed.

(** C6, as the code has it: the result is in descending order of total
    points.  Where athletes tie, their order owes nothing to the order of
    the input: on frames with one record per activity identifier the
    result is the same for every input in which each athlete has the same
    records in the same order, however the records of different athletes
    are interleaved. *)
Theorem athlete_points_order (df df' : frame HR.row) (out : list Points.row) :
  calculate_hr_zone_points df = Py.Ok out ->
  StronglySorted
    (fun p q => (Points.zone_points q <= Points.zone_points p)%Q) out
  /\ (columns df' = columns df ->
      NoDup (map HR.activity_id (rows df)) ->
      NoDup (map HR.activity_id (rows df')) ->
      (forall athlete, rows_of athlete (rows df') = rows_of athlete (rows df)) ->
      calculate_hr_zone_points df' = Py.Ok out).
Proof.
  intros H. split.
  - eapply StronglySorted_impl; [|exact (scored_order _ _ H)].
    cbn beta. tauto.
  - intros Hc Hnd Hnd' Hrows. rewrite <- H.
    rewrite !calculate_hr_zone_points_normal.
    destruct df as [c r], df' as [c' r']. cbn [columns rows] in *. subst c'.
    change (has_column ?x (mk_frame c r')) with (has_column x (mk_frame c r)).
    change (zone_points_column (mk_frame c r'))
      with (zone_points_column (mk_frame c r)).
    change (agg_zone_columns (mk_frame c r'))
      with (agg_zone_columns (mk_frame c r)).
    rewrite !scored_rows_nodup by assumption. cbn [rows].
    set (named := List.filter _ r). set (named' := List.filter _ r').
    assert (HS : forall a, rows_of a named' = rows_of a named).
    { intros a. unfold named, named'. now rewrite !rows_of_named. }
    assert (Hg : forall zp cols, groupby_agg zp cols named' = groupby_agg zp cols named).
    { intros zp cols. unfold groupby_agg.
      rewrite (group_keys_rows_of _ _ HS).
      apply map_ext. intros a. now rewrite HS. }
    assert (He : named' = [] <-> named = []).
    { assert (Hk : forall m : list HR.row,
                (forall x, In x m -> notna (HR.athlete_name x) = true) ->
                (m = [] <-> group_keys m = [])).
      { intros m Hm. split; [now intros ->|]. intros Hk.
        destruct m as [|x m]; [reflexivity|]. exfalso.
        specialize (Hm x (or_introl eq_refl)).
        destruct (HR.athlete_name x) as [v|] eqn:E; [|discriminate].
        assert (Hin : In v (group_keys (x :: m))).
        { apply group_keys_In. cbn [map]. rewrite E. now left. }
        rewrite Hk in Hin. destruct Hin. }
      rewrite (Hk named'), (Hk named), (group_keys_rows_of _ _ HS); [reflexivity| |];
        intros x Hx; now apply filter_In in Hx. }
    destruct (negb (has_column "athlete_name" (mk_frame c r))); [reflexivity|].
    destruct named' as [|x' m'] eqn:E', named as [|x m] eqn:E.
    + reflexivity.
    + discriminate (proj1 He eq_refl).
    + discriminate (proj2 He eq_refl).
    + rewrite <- E, <- E' in *.
      destruct (zone_points_column (mk_frame c r)); cbn [Py.bind];
        [|reflexivity].
      now rewrite Hg.
Qed.

Lemma athlete_points_order_witness :
  let cols := ["athlete_name"; "activity_id"; "zone_1_seconds";
               "zone_2_seconds"; "zone_3_seconds"; "zone_4_seconds";
               "zone_5_seconds"]%string in
  let r id name z1 :=
    HR.mk_row (Some id) (Some z1) None None None None None None None None None
      None (Some name) None None None in
  let df := mk_frame cols [r 1 "Zed"%string 600%Q; r 2 "Bob"%string 1200%Q;
                           r 3 "Amy"%string 600%Q] in
  let df' := mk_frame cols [r 3 "Amy"%string 600%Q; r 1 "Zed"%string 600%Q;
                            r 2 "Bob"%string 1200%Q] in
  exists out,
    calculate_hr_zone_points df = Py.Ok out
    /\ StronglySorted
         (fun p q => (Points.zone_points q <= Points.zone_points p)%Q) out
    /\ calculate_hr_zone_points df' = Py.Ok out.
Proof.
  intros cols r df df'. eexists. split; [reflexivity|].
  destruct (athlete_points_order df df' _ eq_refl) as [Hs Hinv].
  split; [exact Hs|]. apply Hinv.
  - reflexivity.
  - repeat constructor; cbn; intuition discriminate.
  - repeat constructor; cbn; intuition discriminate.
  - intros athlete. unfold rows_of. cbn [rows df df' List.filter].
    unfold r. cbn [HR.athlete_name cell_eq].
    destruct (String.eqb_spec "Amy" athlete) as [Ea|Ha],
      (String.eqb_spec "Zed" athlete) as [Ez|Hz],
      (String.eqb_spec "Bob" athlete) as [Eb|Hb];
      try congruence; reflexivity.
Defined.

(** C6 as stated fails: Zed is met before Amy in one frame and Amy
    before Zed in the other, both total 10 points, and the engine hands
    the same rows to the sort and returns the same result for the two
    frames; so the tied athletes are not in insertion order in at least
    one of them, whatever the sort does with equal keys. *)
Lemma tied_athletes_not_in_input_order :
  let cols := ["athlete_name"; "activity_id"; "zone_1_seconds";
               "zone_2_seconds"; "zone_3_seconds"; "zone_4_seconds";
               "zone_5_seconds"]%string in
  let r id name :=
    HR.mk_row (Some id) (Some 600%Q) None None None None None None None None
      None None (Some name) None None None in
  let df := mk_frame cols [r 1 "Zed"%string; r 2 "Amy"%string] in
  let df' := mk_frame cols [r 2 "Amy"%string; r 1 "Zed"%string] in
  map HR.athlete_name (rows df) = [Some "Zed"; Some "Amy"]%string
  /\ map HR.athlete_name (rows df') = [Some "Amy"; Some "Zed"]%string
  /\ (exists zone_points,
        zone_points_column df = Py.Ok zone_points
        /\ zone_points_column df' = Py.Ok zone_points
        /\ groupby_agg zone_points (agg_zone_columns df') (scored_rows df')
           = groupby_agg zone_points (agg_zone_columns df) (scored_rows df))
  /\ exists out,
       calculate_hr_zone_points df = Py.Ok out
       /\ calculate_hr_zone_points df' = Py.Ok out
       /\ Permutation
            (map (fun p => (Points.athlete_name p, Points.zone_points p)) out)
            [("Zed", 10%Q); ("Amy", 10%Q)]%string.
Proof.
  cbv zeta. split; [reflexivity|]. split; [reflexivity|]. split.
  - eexists. split; [reflexivity|]. split; reflexivity.
  - eexists. split; [reflexivity|]. split; [reflexivity|].
    apply perm_swap.
Qed.
